(** * breedx/sample-api: the security and admission core

    A shallow embedding of [app/config.py], [app/auth.py] and [app/main.py]
    (a FastAPI multi-tenant backend) and the verification of its token,
    revocation, tenant-isolation and rate-admission properties.

    Conventions of the embedding.
    - Python [str] is a Rocq [string], a sequence of characters with code
      points below 256 (header values are Latin-1; ids, tokens and hashes
      are ASCII); the process-wide stores of [main.py] are the fields of one
      [state] record.
    - A handler is a function [state -> (exn + A) * state]: Python's
      [raise] keeps the mutations made before it, so the state is returned
      on both paths.
    - The wall clock ([time()], [datetime.now(UTC)]) is an input [now : Q],
      seconds since the epoch, read as one instant per request; float
      arithmetic on timestamps is exact rational arithmetic here.
    - [uuid.uuid4()] and [bcrypt.gensalt()] draws are inputs of the request.
    - The external packages PyJWT and bcrypt are interfaces (type classes
      and section parameters), see [Jwt] and [Bcrypt]. *)

From Stdlib Require Import ZArith QArith Qround Lqa Lia List Ascii String.
From stdpp Require Import base gmap sets list strings pretty.

Local Open Scope string_scope.
Local Open Scope list_scope.
Local Open Scope Z_scope.

(** ** Python primitives *)

Module Py.

(** Exceptions that leave a handler. [HTTPException] is FastAPI's, with its
    [status_code], [detail] and [headers]; the others are Python's built-in
    exceptions, which the framework answers with status 500. *)
Inductive exn : Type :=
| HTTPException (status_code : Z) (detail : string)
                (headers : list (string * string))
| KeyError (key : string)
| IndexError
| ValueError (msg : string)
| ValidationError.

Definition result (A : Type) : Type := (exn + A)%type.

Definition raise {A} (e : exn) : result A := inl e.
Definition ret {A} (a : A) : result A := inr a.

Definition is_ok {A} (r : result A) : bool :=
  match r with inr _ => true | inl _ => false end.

(** Sequencing: an exception skips the rest. *)
Definition bind {A B} (r : result A) (k : A -> result B) : result B :=
  match r with inl e => inl e | inr a => k a end.

Notation "'let*' x ':=' r 'in' k" := (bind r (fun x => k))
  (at level 10, x pattern, r at level 100, k at level 200).

(** [x < y] on timestamps. *)
Definition Qltb (x y : Q) : bool := negb (Qle_bool y x).

(** [int(x)] on a float: truncation toward zero. *)
Definition int (x : Q) : Z :=
  if Qle_bool 0 x then Qfloor x else Qceiling x.

(** [math.ceil(x)]. *)
Definition ceil (x : Q) : Z := Qceiling x.

(** [str(n)] on an [int]. *)
Definition str (n : Z) : string := pretty n.

(** [str.isspace] on one character of a header value (code points below
    256): TAB, LF, VT, FF, CR, FS, GS, RS, US, SPACE, NEL and NBSP. *)
Definition isspace (c : ascii) : bool :=
  let n := N_of_ascii c in
  ((9 <=? n) && (n <=? 13) || (28 <=? n) && (n <=? 32)
   || (n =? 133) || (n =? 160))%N.

(** [s.split()]: the maximal runs of non-whitespace characters. *)
Fixpoint split_go (cur : string) (s : string) : list string :=
  match s with
  | EmptyString => match cur with EmptyString => [] | _ => [cur] end
  | String c s' =>
      if isspace c then
        match cur with
        | EmptyString => split_go EmptyString s'
        | _ => cur :: split_go EmptyString s'
        end
      else split_go (cur +:+ String c EmptyString) s'
  end.

Definition split (s : string) : list string := split_go EmptyString s.

(** [str.lower] on one character (code points below 256): A-Z and the
    Latin-1 capitals other than the multiplication sign. *)
Definition lower_char (c : ascii) : ascii :=
  let n := N_of_ascii c in
  if ((65 <=? n) && (n <=? 90)
      || (192 <=? n) && (n <=? 222) && negb (n =? 215))%N
  then ascii_of_N (n + 32) else c.

Fixpoint lower (s : string) : string :=
  match s with
  | EmptyString => EmptyString
  | String c s' => String (lower_char c) (lower s')
  end.

(** [l[start:stop]] for a list and two [int]s. *)
Definition slice_index (len i : Z) : Z :=
  if i <? 0 then Z.max 0 (i + len) else Z.min i len.

Definition slice {A} (l : list A) (start stop : Z) : list A :=
  let len := Z.of_nat (length l) in
  let a := slice_index len start in
  let b := slice_index len stop in
  firstn (Z.to_nat (b - a)) (skipn (Z.to_nat a) l).

End Py.
Export Py.

(** ** An insertion-ordered dictionary (Python's [dict]) *)

Module Dict.

Definition t (V : Type) : Type := list (string * V).

Definition empty {V} : t V := [].

(** [d.get(k)] *)
Fixpoint get {V} (d : t V) (k : string) : option V :=
  match d with
  | [] => None
  | (k', v) :: d' => if String.eqb k' k then Some v else get d' k
  end.

(** [d[k] = v]: an existing key keeps its position, a new key goes last. *)
Fixpoint set {V} (d : t V) (k : string) (v : V) : t V :=
  match d with
  | [] => [(k, v)]
  | (k', v') :: d' =>
      if String.eqb k' k then (k', v) :: d' else (k', v') :: set d' k v
  end.

(** [del d[k]] for a key that is present ([KeyError] is the caller's case). *)
Fixpoint del {V} (d : t V) (k : string) : t V :=
  match d with
  | [] => []
  | (k', v') :: d' => if String.eqb k' k then d' else (k', v') :: del d' k
  end.

(** [d.values()] and [d.items()], in insertion order. *)
Definition values {V} (d : t V) : list V := map snd d.
Definition items {V} (d : t V) : list (string * V) := d.

End Dict.

(** ** app/config.py *)

Module Config.

Record Settings : Type := {
  api_env : string;
  jwt_secret : string;
  jwt_algorithm : string;
  access_token_expire_minutes : Z;
  refresh_token_expire_days : Z;
  rate_limit_per_minute : Z;
  default_page_size : Z;
  max_page_size : Z;
  max_file_size_mb : Z;
  allowed_file_types : list string;
  database_url : string
}.

(** [get_settings()] in an environment that sets none of the variables. *)
Definition default_settings : Settings := {|
  api_env := "dev";
  jwt_secret := "dev_secret_change_in_production_!!!";
  jwt_algorithm := "HS256";
  access_token_expire_minutes := 30;
  refresh_token_expire_days := 7;
  rate_limit_per_minute := 10;
  default_page_size := 20;
  max_page_size := 100;
  max_file_size_mb := 10;
  allowed_file_types :=
    ["image/jpeg"; "image/png"; "image/gif"; "application/pdf";
     "text/plain"; "text/csv"];
  database_url := "memory://"
|}.

End Config.
Export Config.

(** ** The PyJWT package (external): [jwt.encode] and [jwt.decode] *)

Module Jwt.

(** Values of a claim: a string, an integer, or (before encoding only) a
    [datetime], given as seconds since the epoch. *)
Inductive jval : Type :=
| JStr (s : string)
| JInt (n : Z)
| JDatetime (t : Q).

Definition payload : Type := Dict.t jval.

Inductive jwt_error : Type :=
| ExpiredSignatureError
| InvalidTokenError.

Definition is_datetime (v : jval) : bool :=
  match v with JDatetime _ => true | _ => false end.

(** A payload that [json.dumps] accepts. *)
Definition json_ok (p : payload) : bool :=
  forallb (fun kv => negb (is_datetime (snd kv))) p.

(** A compact token: not empty and free of whitespace (base64url characters
    and dots). *)
Fixpoint no_space (s : string) : bool :=
  match s with
  | EmptyString => true
  | String c s' => negb (Py.isspace c) && no_space s'
  end.

Definition compact (s : string) : bool :=
  match s with EmptyString => false | _ => no_space s end.

(** The signing layer of the package, taken as an interface: the compact
    serialisation of a JSON payload signed under a key and an algorithm,
    and its inverse, which answers [None] on a malformed token, on a
    signature that does not verify under the key, and on an algorithm
    outside the list. *)
Class Codec : Type := {
  jws_supported : string -> bool;
  jws_encode : payload -> string -> string -> string;
  jws_decode : string -> string -> list string -> option payload;
  jws_supported_HS256 : jws_supported "HS256" = true;
  jws_decode_encode : forall p key alg,
    json_ok p = true -> jws_supported alg = true ->
    jws_decode (jws_encode p key alg) key [alg] = Some p;
  jws_encode_compact : forall p key alg,
    compact (jws_encode p key alg) = true
}.

Section Jwt.
Context `{Codec}.

(** [jwt.encode] first turns a [datetime] under exp, iat or nbf into
    whole seconds ([timegm] of its [utctimetuple]). *)
Definition normalise_claim (kv : string * jval) : string * jval :=
  match kv with
  | (k, JDatetime t) =>
      if existsb (String.eqb k) ["exp"; "iat"; "nbf"]
      then (k, JInt (Qfloor t)) else kv
  | _ => kv
  end.

Definition encode (p : payload) (key algorithm : string) : string :=
  jws_encode (map normalise_claim p) key algorithm.

(** [jwt.decode]: the signature, then the structure, then the expiry,
    with no leeway: a token is expired from [exp <= now] on. (PyJWT
    accepts under exp any value [int()] converts; the tokens signed here
    carry an integer. Its checks of nbf, iat, aud and iss, claims that no
    token of this program carries, are left out.) *)
Definition decode (token key : string) (algorithms : list string)
    (now : Q) : jwt_error + payload :=
  match jws_decode token key algorithms with
  | None => inl InvalidTokenError
  | Some p =>
      match Dict.get p "exp" with
      | None => inr p
      | Some (JInt e) =>
          if Qle_bool (inject_Z e) now then inl ExpiredSignatureError
          else inr p
      | Some _ => inl InvalidTokenError
      end
  end.

End Jwt.

End Jwt.

(** ** The bcrypt package (external): [bcrypt.hashpw] and [bcrypt.checkpw] *)

Module Bcrypt.

(** The fields of a salt or hash: [split] on the dollar sign, empty pieces
    dropped. *)
Fixpoint fields_go (cur : string) (s : string) : list string :=
  match s with
  | EmptyString => match cur with EmptyString => [] | _ => [cur] end
  | String c s' =>
      if Ascii.eqb c "$" then
        match cur with
        | EmptyString => fields_go EmptyString s'
        | _ => cur :: fields_go EmptyString s'
        end
      else fields_go (cur +:+ String c EmptyString) s'
  end.

Definition fields (s : string) : list string := fields_go EmptyString s.

Definition versions : list string := ["2y"; "2b"; "2a"; "2x"].

Section Bcrypt.

(** The key derivation itself is a parameter: from the password and the
    version, cost and salt fields it gives the formatted hash, or [None]
    where the package answers "Invalid salt" (a cost that is not a number
    in range, a salt that is not 22 base64 characters). *)
Variable kdf : string -> string -> string -> string -> option string.

(** [bcrypt.hashpw(password, salt)]; [salt] is a salt or a whole hash. *)
Definition hashpw (password salt : string) : result string :=
  match fields salt with
  | [version; cost; rest] =>
      if existsb (String.eqb version) versions then
        match kdf password version cost rest with
        | Some hashed => ret hashed
        | None => raise (ValueError "Invalid salt")
        end
      else raise (ValueError "Invalid salt")
  | _ => raise (ValueError "Invalid salt")
  end.

(** [bcrypt.checkpw(password, hashed_password)]: hash again under the
    salt of [hashed_password] and compare. *)
Definition checkpw (password hashed_password : string) : result bool :=
  let* h := hashpw password hashed_password in
  ret (String.eqb h hashed_password).

End Bcrypt.

(** A hash string with the shape of a bcrypt hash: three dollar-separated
    fields, the first a known version. *)
Definition bcrypt_shaped (hashed : string) : bool :=
  match fields hashed with
  | [version; _; _] => existsb (String.eqb version) versions
  | _ => false
  end.

End Bcrypt.

(** ** app/auth.py *)

Module Auth.
Import Jwt.

(** [TokenData]: the principal read from an access token; [exp] is the
    [datetime] of the token's exp claim, in whole seconds. *)
Record TokenData : Type := {
  user_id : string;
  tenant_id : string;
  username : string;
  role : string;
  exp : Z
}.

Record TokenPair : Type := {
  access_token : string;
  refresh_token : string;
  token_type : string;
  expires_in : Z
}.

Definition bearer_headers : list (string * string) :=
  [("WWW-Authenticate", "Bearer")].

Definition HTTP_401_UNAUTHORIZED : Z := 401.
Definition HTTP_403_FORBIDDEN : Z := 403.

(** [payload[k]] *)
Definition item (p : payload) (k : string) : result jval :=
  match Dict.get p k with
  | Some v => ret v
  | None => raise (KeyError k)
  end.

(** [payload.get(k) == v] for a string [v]. *)
Definition claim_is (p : payload) (k v : string) : bool :=
  match Dict.get p k with
  | Some (JStr s) => String.eqb s v
  | _ => false
  end.

(** The validation of a [str] field of a pydantic model. *)
Definition str_field (v : jval) : result string :=
  match v with
  | JStr s => ret s
  | _ => raise ValidationError
  end.

Section Auth.
Context `{Codec}.
Variable kdf : string -> string -> string -> string -> option string.
Variable settings : Settings.

(** [hash_password]; [salt] is the draw of [bcrypt.gensalt()]. Strings
    are held as their UTF-8 bytes, so [encode] and [decode] are silent. *)
Definition hash_password (salt password : string) : result string :=
  Bcrypt.hashpw kdf password salt.

Definition verify_password (plain_password hashed_password : string)
    : result bool :=
  Bcrypt.checkpw kdf plain_password hashed_password.

Definition access_payload (now : Q)
    (user_id tenant_id username role : string) : payload :=
  [("user_id", JStr user_id);
   ("tenant_id", JStr tenant_id);
   ("username", JStr username);
   ("role", JStr role);
   ("exp", JDatetime
      (now + inject_Z (60 * access_token_expire_minutes settings))%Q);
   ("type", JStr "access")].

Definition create_access_token (now : Q)
    (user_id tenant_id username role : string) : string :=
  encode (access_payload now user_id tenant_id username role)
         (jwt_secret settings) (jwt_algorithm settings).

Definition refresh_payload (now : Q) (user_id tenant_id : string)
    : payload :=
  [("user_id", JStr user_id);
   ("tenant_id", JStr tenant_id);
   ("exp", JDatetime
      (now + inject_Z (86400 * refresh_token_expire_days settings))%Q);
   ("type", JStr "refresh")].

Definition create_refresh_token (now : Q) (user_id tenant_id : string)
    : string :=
  encode (refresh_payload now user_id tenant_id)
         (jwt_secret settings) (jwt_algorithm settings).

Definition decode_token (now : Q) (token : string) : result payload :=
  match decode token (jwt_secret settings) [jwt_algorithm settings] now with
  | inr p => ret p
  | inl ExpiredSignatureError =>
      raise (HTTPException HTTP_401_UNAUTHORIZED "Token has expired"
                           bearer_headers)
  | inl InvalidTokenError =>
      raise (HTTPException HTTP_401_UNAUTHORIZED "Invalid token"
                           bearer_headers)
  end.

(** The [TokenData(...)] call at the end of [get_current_user]: the five
    subscripts first, in order, then the model's field validation. The
    exp claim that [decode_token] let through is an integer. *)
Definition token_data (p : payload) : result TokenData :=
  let* u := item p "user_id" in
  let* t := item p "tenant_id" in
  let* n := item p "username" in
  let* r := item p "role" in
  let* x := item p "exp" in
  let* u := str_field u in
  let* t := str_field t in
  let* n := str_field n in
  let* r := str_field r in
  match x with
  | JInt x =>
      ret {| user_id := u; tenant_id := t; username := n; role := r;
             exp := x |}
  | _ => raise ValidationError
  end.

Definition get_current_user (now : Q) (authorization : option string)
    : result TokenData :=
  match authorization with
  | None | Some EmptyString =>
      raise (HTTPException HTTP_401_UNAUTHORIZED
                           "Missing authorization header" bearer_headers)
  | Some authorization =>
      match Py.split authorization with
      | [scheme; token] =>
          if negb (String.eqb (Py.lower scheme) "bearer") then
            raise (HTTPException HTTP_401_UNAUTHORIZED
                                 "Invalid authentication scheme"
                                 bearer_headers)
          else
            let* p := decode_token now token in
            if negb (claim_is p "type" "access") then
              raise (HTTPException HTTP_401_UNAUTHORIZED
                                   "Invalid token type" [])
            else token_data p
      | _ =>
          raise (HTTPException HTTP_401_UNAUTHORIZED
                               "Invalid authorization header format"
                               bearer_headers)
      end
  end.

Definition require_admin (now : Q) (authorization : option string)
    : result TokenData :=
  let* current_user := get_current_user now authorization in
  if negb (String.eqb (role current_user) "admin") then
    raise (HTTPException HTTP_403_FORBIDDEN "Admin access required" [])
  else ret current_user.

End Auth.

(** The exp claim of a token issued at [issued]: [jwt.encode] keeps the
    whole seconds of the [datetime]. *)
Definition access_expiry (settings : Settings) (issued : Q) : Z :=
  Qfloor (issued + inject_Z (60 * access_token_expire_minutes settings))%Q.

Definition refresh_expiry (settings : Settings) (issued : Q) : Z :=
  Qfloor (issued + inject_Z (86400 * refresh_token_expire_days settings))%Q.

(** The claim sets as they are signed. *)
Definition access_claims (settings : Settings) (issued : Q)
    (user_id tenant_id username role : string) : payload :=
  [("user_id", JStr user_id);
   ("tenant_id", JStr tenant_id);
   ("username", JStr username);
   ("role", JStr role);
   ("exp", JInt (access_expiry settings issued));
   ("type", JStr "access")].

Definition refresh_claims (settings : Settings) (issued : Q)
    (user_id tenant_id : string) : payload :=
  [("user_id", JStr user_id);
   ("tenant_id", JStr tenant_id);
   ("exp", JInt (refresh_expiry settings issued));
   ("type", JStr "refresh")].

Definition unauthorized (detail : string) : exn :=
  HTTPException HTTP_401_UNAUTHORIZED detail [].

End Auth.

(** ** app/main.py: the stores and the handler monad *)

Module Main.
Import Jwt Auth.

Module Tenant.
Record t : Type := {
  id : string;
  name : string;
  created_at : Q;
  is_active : bool
}.
End Tenant.

(** A row of [users_db] (the dict built by [register_tenant] and
    [create_user]). *)
Module UserRow.
Record t : Type := {
  id : string;
  tenant_id : string;
  username : string;
  email : string;
  full_name : string;
  password_hash : string;
  role : string;
  created_at : Q;
  updated_at : Q;
  is_active : bool
}.
End UserRow.

(** The [User] response model: a row without its [password_hash]. *)
Module User.
Record t : Type := {
  id : string;
  tenant_id : string;
  username : string;
  email : string;
  full_name : string;
  role : string;
  created_at : Q;
  updated_at : Q;
  is_active : bool
}.
End User.

(** A row of [files_db], which is also the [FileMetadata] response. *)
Module FileMetadata.
Record t : Type := {
  id : string;
  tenant_id : string;
  filename : string;
  content_type : string;
  size_bytes : Z;
  uploaded_by : string;
  uploaded_at : Q
}.
End FileMetadata.

Record state : Type := {
  tenants_db : Dict.t Tenant.t;
  users_db : Dict.t UserRow.t;
  files_db : Dict.t FileMetadata.t;
  file_storage : Dict.t string;
  blacklisted_tokens : gset string;
  rate_limit_store : gmap string (list Q)
}.

Definition initial_state : state := {|
  tenants_db := Dict.empty;
  users_db := Dict.empty;
  files_db := Dict.empty;
  file_storage := Dict.empty;
  blacklisted_tokens := ∅;
  rate_limit_store := ∅
|}.

Definition with_tenants_db (s : state) (d : Dict.t Tenant.t) : state :=
  {| tenants_db := d; users_db := users_db s; files_db := files_db s;
     file_storage := file_storage s;
     blacklisted_tokens := blacklisted_tokens s;
     rate_limit_store := rate_limit_store s |}.

Definition with_users_db (s : state) (d : Dict.t UserRow.t) : state :=
  {| tenants_db := tenants_db s; users_db := d; files_db := files_db s;
     file_storage := file_storage s;
     blacklisted_tokens := blacklisted_tokens s;
     rate_limit_store := rate_limit_store s |}.

Definition with_files_db (s : state) (d : Dict.t FileMetadata.t) : state :=
  {| tenants_db := tenants_db s; users_db := users_db s; files_db := d;
     file_storage := file_storage s;
     blacklisted_tokens := blacklisted_tokens s;
     rate_limit_store := rate_limit_store s |}.

Definition with_file_storage (s : state) (d : Dict.t string) : state :=
  {| tenants_db := tenants_db s; users_db := users_db s;
     files_db := files_db s; file_storage := d;
     blacklisted_tokens := blacklisted_tokens s;
     rate_limit_store := rate_limit_store s |}.

Definition with_blacklisted_tokens (s : state) (b : gset string) : state :=
  {| tenants_db := tenants_db s; users_db := users_db s;
     files_db := files_db s; file_storage := file_storage s;
     blacklisted_tokens := b;
     rate_limit_store := rate_limit_store s |}.

Definition with_rate_limit_store (s : state) (r : gmap string (list Q))
    : state :=
  {| tenants_db := tenants_db s; users_db := users_db s;
     files_db := files_db s; file_storage := file_storage s;
     blacklisted_tokens := blacklisted_tokens s;
     rate_limit_store := r |}.

(** A handler: the outcome and the stores it leaves behind. *)
Definition M (A : Type) : Type := state -> result A * state.

Definition pure {A} (a : A) : M A := fun s => (ret a, s).
Definition throw {A} (e : exn) : M A := fun s => (raise e, s).
Definition lift {A} (r : result A) : M A := fun s => (r, s).

Definition bindM {A B} (m : M A) (k : A -> M B) : M B :=
  fun s =>
    match m s with
    | (inl e, s') => (inl e, s')
    | (inr a, s') => k a s'
    end.

Notation "'do' x '<-' m ';' k" := (bindM m (fun x => k))
  (at level 10, x pattern, m at level 100, k at level 200).

Definition gets {A} (f : state -> A) : M A := fun s => (ret (f s), s).
Definition modify (f : state -> state) : M unit := fun s => (ret tt, f s).

(** The part of a [Request] the handlers read. *)
Record Request : Type := {
  method : string;
  url_path : string
}.

Definition HTTP_400_BAD_REQUEST : Z := 400.
Definition HTTP_404_NOT_FOUND : Z := 404.
Definition HTTP_409_CONFLICT : Z := 409.
Definition HTTP_413_REQUEST_ENTITY_TOO_LARGE : Z := 413.
Definition HTTP_415_UNSUPPORTED_MEDIA_TYPE : Z := 415.
Definition HTTP_429_TOO_MANY_REQUESTS : Z := 429.
Definition HTTP_500_INTERNAL_SERVER_ERROR : Z := 500.

(** The key of a rate window: [f"{user_id}:{method}:{path}"]. *)
Definition rate_key (request : Request) (user_id : string) : string :=
  let endpoint := method request +:+ ":" +:+ url_path request in
  user_id +:+ ":" +:+ endpoint.

(** [rate_limit_store[key]] on the [defaultdict]: a missing key reads as
    the empty list. *)
Definition window (store : gmap string (list Q)) (key : string) : list Q :=
  default [] (store !! key).

(** The entries kept by the clean-up: those with [now - ts < 60]. *)
Definition prune (now : Q) (l : list Q) : list Q :=
  List.filter (fun ts => Qltb (now - ts) 60) l.

Section RateLimit.
Variable settings : Settings.

Definition rate_limit_headers (reset_time : Z) : list (string * string) :=
  [("X-RateLimit-Limit", Py.str (rate_limit_per_minute settings));
   ("X-RateLimit-Remaining", "0");
   ("X-RateLimit-Reset", Py.str reset_time)].

Definition check_rate_limit (request : Request) (user_id : string)
    (now : Q) : M unit :=
  let key := rate_key request user_id in
  do _ <- modify (fun s =>
    with_rate_limit_store s
      (<[key := prune now (window (rate_limit_store s) key)]>
         (rate_limit_store s)));
  do entries <- gets (fun s => window (rate_limit_store s) key);
  if rate_limit_per_minute settings <=? Z.of_nat (length entries) then
    match entries with
    | [] => throw IndexError
    | ts0 :: _ =>
        let reset_time := Py.int (ts0 + 60)%Q in
        throw (HTTPException HTTP_429_TOO_MANY_REQUESTS
                             "Rate limit exceeded"
                             (rate_limit_headers reset_time))
    end
  else
    modify (fun s =>
      with_rate_limit_store s
        (<[key := window (rate_limit_store s) key ++ [now]]>
           (rate_limit_store s))).

End RateLimit.

(** *** Request and response models *)

Record TenantRegister : Type := {
  tenant_name : string;
  admin_email : string;
  admin_username : string;
  admin_password : string
}.

Record LoginRequest : Type := {
  login_username : string;
  login_password : string
}.

Record UserCreate : Type := {
  new_username : string;
  new_email : string;
  new_full_name : string;
  new_role : string
}.

Record UserUpdate : Type := {
  upd_email : option string;
  upd_full_name : option string
}.

Record UploadFile : Type := {
  upload_filename : string;
  upload_content_type : string;
  upload_content : string
}.

Record PaginatedResponse (A : Type) : Type := {
  data : list A;
  page : Z;
  page_size : Z;
  total_count : Z;
  has_next : bool;
  has_prev : bool
}.
Arguments data {A}.
Arguments page {A}.
Arguments page_size {A}.
Arguments total_count {A}.
Arguments has_next {A}.
Arguments has_prev {A}.

(** What a handler returns. Instants stay rationals: the ISO rendering of a
    [datetime] is not part of the embedding. *)
Inductive response : Type :=
| HealthResponse (status : string) (timestamp : Q)
                 (environment version : string)
| RegisterResponse (message tenant_id admin_user_id : string)
| TokenPairResponse (pair : TokenPair)
| MessageResponse (message : string)
| UsersPage (p : PaginatedResponse User.t)
| UserResponse (u : User.t)
| UserListResponse (l : list User.t)
| NoContent
| FileMetadataResponse (f : FileMetadata.t)
| StreamingResponse (content media_type : string)
                    (headers : list (string * string))
| FilesPage (p : PaginatedResponse FileMetadata.t)
| TenantsResponse (tenants : list Tenant.t) (total : Z)
| StatsResponse (total_tenants total_users total_files
                 total_storage_bytes : Z).

(** [{k: v for k, v in user.items() if k != "password_hash"}] as a [User]. *)
Definition public_view (u : UserRow.t) : User.t := {|
  User.id := UserRow.id u;
  User.tenant_id := UserRow.tenant_id u;
  User.username := UserRow.username u;
  User.email := UserRow.email u;
  User.full_name := UserRow.full_name u;
  User.role := UserRow.role u;
  User.created_at := UserRow.created_at u;
  User.updated_at := UserRow.updated_at u;
  User.is_active := UserRow.is_active u
|}.

Definition len {A} (l : list A) : Z := Z.of_nat (length l).

(** [f"{x:.2f}"] for a non-negative [x]: two decimals, ties to even. *)
Definition round_half_even (x : Q) : Z :=
  let f := Qfloor x in
  let r := (x - inject_Z f)%Q in
  if Qltb r (1 # 2) then f
  else if Qltb (1 # 2) r then f + 1
  else if Z.even f then f else f + 1.

Definition two_digits (n : Z) : string :=
  if n <? 10 then "0" +:+ Py.str n else Py.str n.

Definition format_2f (x : Q) : string :=
  let n := round_half_even (x * 100)%Q in
  Py.str (n / 100) +:+ "." +:+ two_digits (n mod 100).

(** The double-quote character. *)
Definition dquote : string := String (ascii_of_N 34) EmptyString.

Definition not_found (kind id : string) : exn :=
  HTTPException HTTP_404_NOT_FOUND
                (kind +:+ " with id '" +:+ id +:+ "' not found") [].

Definition username_exists (username : string) : exn :=
  HTTPException HTTP_409_CONFLICT
                ("Username '" +:+ username +:+ "' already exists") [].

Definition email_exists (email : string) : exn :=
  HTTPException HTTP_409_CONFLICT
                ("Email '" +:+ email +:+ "' already exists") [].

(** The duplicate scan of [create_user] and [create_single_user]: per row,
    the username first, then the email; the first hit raises. *)
Fixpoint duplicate_scan (rows : list UserRow.t) (user_data : UserCreate)
    : option exn :=
  match rows with
  | [] => None
  | user :: rows' =>
      if String.eqb (UserRow.username user) (new_username user_data)
      then Some (username_exists (new_username user_data))
      else if String.eqb (UserRow.email user) (new_email user_data)
      then Some (email_exists (new_email user_data))
      else duplicate_scan rows' user_data
  end.

(** [l[start_idx:end_idx]] and the rest of a page. *)
Definition paginate {A} (l : list A) (page page_size : Z)
    : PaginatedResponse A :=
  let total_count := len l in
  let start_idx := (page - 1) * page_size in
  let end_idx := start_idx + page_size in
  {| data := Py.slice l start_idx end_idx;
     page := page;
     page_size := page_size;
     total_count := total_count;
     has_next := end_idx <? total_count;
     has_prev := 1 <? page |}.

(** *** The endpoints *)

Section Endpoints.
Context `{Codec}.
Variable kdf : string -> string -> string -> string -> option string.
Variable settings : Settings.

Definition token_pair (now : Q) (user : UserRow.t) : TokenPair := {|
  access_token :=
    create_access_token settings now (UserRow.id user)
      (UserRow.tenant_id user) (UserRow.username user) (UserRow.role user);
  refresh_token :=
    create_refresh_token settings now (UserRow.id user)
      (UserRow.tenant_id user);
  token_type := "bearer";
  expires_in := access_token_expire_minutes settings * 60
|}.

Definition health_check (now : Q) : M response :=
  pure (HealthResponse "healthy" now (api_env settings) "2.0.0").

(** [tenant_id] and [user_id] are the two [uuid4] draws, [salt] the
    [gensalt] draw. *)
Definition register_tenant (tenant_data : TenantRegister)
    (tenant_id user_id salt : string) (now : Q) : M response :=
  do tenants <- gets tenants_db;
  if existsb (fun tenant =>
        String.eqb (Py.lower (Tenant.name tenant))
                   (Py.lower (tenant_name tenant_data)))
       (Dict.values tenants)
  then throw (HTTPException HTTP_409_CONFLICT
                ("Tenant '" +:+ tenant_name tenant_data
                   +:+ "' already exists") [])
  else
  do users <- gets users_db;
  if existsb (fun user =>
        String.eqb (UserRow.username user) (admin_username tenant_data))
       (Dict.values users)
  then throw (username_exists (admin_username tenant_data))
  else
  do _ <- modify (fun s =>
    with_tenants_db s
      (Dict.set (tenants_db s) tenant_id
         {| Tenant.id := tenant_id;
            Tenant.name := tenant_name tenant_data;
            Tenant.created_at := now;
            Tenant.is_active := true |}));
  do hashed <- lift (hash_password kdf salt (admin_password tenant_data));
  do _ <- modify (fun s =>
    with_users_db s
      (Dict.set (users_db s) user_id
         {| UserRow.id := user_id;
            UserRow.tenant_id := tenant_id;
            UserRow.username := admin_username tenant_data;
            UserRow.email := admin_email tenant_data;
            UserRow.full_name := "Admin User";
            UserRow.password_hash := hashed;
            UserRow.role := "admin";
            UserRow.created_at := now;
            UserRow.updated_at := now;
            UserRow.is_active := true |}));
  pure (RegisterResponse "Tenant registered successfully"
                         tenant_id user_id).

Definition invalid_credentials : exn :=
  HTTPException HTTP_401_UNAUTHORIZED "Invalid username or password" [].

Definition login (credentials : LoginRequest) (now : Q) : M response :=
  do users <- gets users_db;
  match List.find (fun u =>
          String.eqb (UserRow.username u) (login_username credentials))
          (Dict.values users) with
  | None => throw invalid_credentials
  | Some user =>
      do ok <- lift (verify_password kdf (login_password credentials)
                                     (UserRow.password_hash user));
      if negb ok then throw invalid_credentials
      else if negb (UserRow.is_active user) then
        throw (HTTPException HTTP_403_FORBIDDEN
                             "User account is deactivated" [])
      else pure (TokenPairResponse (token_pair now user))
  end.

(** [users_db.get(payload["user_id"])]: a claim that is not a string is
    the key of no row. *)
Definition lookup_user (users : Dict.t UserRow.t) (v : jval)
    : option UserRow.t :=
  match v with
  | JStr user_id => Dict.get users user_id
  | _ => None
  end.

Definition refresh_tokens (refresh_token : string) (now : Q)
    : M response :=
  do payload <- lift (decode_token settings now refresh_token);
  if negb (claim_is payload "type" "refresh") then
    throw (HTTPException HTTP_401_UNAUTHORIZED "Invalid token type" [])
  else
  do blacklist <- gets blacklisted_tokens;
  if bool_decide (refresh_token ∈ blacklist) then
    throw (HTTPException HTTP_401_UNAUTHORIZED "Token has been revoked" [])
  else
  do user_id <- lift (item payload "user_id");
  do users <- gets users_db;
  match lookup_user users user_id with
  | None =>
      throw (HTTPException HTTP_401_UNAUTHORIZED
                           "User not found or inactive" [])
  | Some user =>
      if negb (UserRow.is_active user) then
        throw (HTTPException HTTP_401_UNAUTHORIZED
                             "User not found or inactive" [])
      else
        let pair := token_pair now user in
        do _ <- modify (fun s =>
          with_blacklisted_tokens s
            ({[refresh_token]} ∪ blacklisted_tokens s));
        pure (TokenPairResponse pair)
  end.

Definition logout (authorization : option string) (now : Q)
    : M response :=
  do current_user <- lift (get_current_user settings now authorization);
  pure (MessageResponse "Logged out successfully").


(** **** User management *)

Definition list_users (request : Request) (page page_size : Z)
    (active_only : bool) (authorization : option string) (now : Q)
    : M response :=
  do current_user <- lift (get_current_user settings now authorization);
  do _ <- check_rate_limit settings request (Auth.user_id current_user) now;
  do users <- gets users_db;
  let tenant_users :=
    List.filter (fun u =>
        String.eqb (UserRow.tenant_id u) (Auth.tenant_id current_user))
      (Dict.values users) in
  let tenant_users :=
    if active_only then List.filter UserRow.is_active tenant_users
    else tenant_users in
  let pg := paginate tenant_users page page_size in
  pure (UsersPage
          {| data := map public_view (data pg);
             page := page;
             page_size := page_size;
             total_count := total_count pg;
             has_next := has_next pg;
             has_prev := has_prev pg |}).

Definition temp_password : string := "TempPassword123!".

Definition new_user_row (user_data : UserCreate)
    (user_id tenant_id hashed : string) (now : Q) : UserRow.t := {|
  UserRow.id := user_id;
  UserRow.tenant_id := tenant_id;
  UserRow.username := new_username user_data;
  UserRow.email := new_email user_data;
  UserRow.full_name := new_full_name user_data;
  UserRow.password_hash := hashed;
  UserRow.role := new_role user_data;
  UserRow.created_at := now;
  UserRow.updated_at := now;
  UserRow.is_active := true
|}.

Definition create_user (request : Request) (user_data : UserCreate)
    (user_id salt : string) (authorization : option string) (now : Q)
    : M response :=
  do current_user <- lift (get_current_user settings now authorization);
  do _ <- check_rate_limit settings request (Auth.user_id current_user) now;
  do users <- gets users_db;
  match duplicate_scan (Dict.values users) user_data with
  | Some e => throw e
  | None =>
      do hashed <- lift (hash_password kdf salt temp_password);
      let new_user :=
        new_user_row user_data user_id (Auth.tenant_id current_user)
                     hashed now in
      do _ <- modify (fun s =>
        with_users_db s (Dict.set (users_db s) user_id new_user));
      pure (UserResponse (public_view new_user))
  end.

(** The look-up shared by [get_user], [update_user] and [delete_user]:
    an absent row and a row of another tenant raise the same error. *)
Definition tenant_user (user_id : string) (current_user : TokenData)
    : M UserRow.t :=
  do users <- gets users_db;
  match Dict.get users user_id with
  | None => throw (not_found "User" user_id)
  | Some user =>
      if negb (String.eqb (UserRow.tenant_id user)
                          (Auth.tenant_id current_user))
      then throw (not_found "User" user_id)
      else pure user
  end.

Definition get_user (request : Request) (user_id : string)
    (authorization : option string) (now : Q) : M response :=
  do current_user <- lift (get_current_user settings now authorization);
  do _ <- check_rate_limit settings request (Auth.user_id current_user) now;
  do user <- tenant_user user_id current_user;
  pure (UserResponse (public_view user)).

(** A truthy optional string: present and not empty. *)
Definition truthy (o : option string) : option string :=
  match o with
  | Some EmptyString => None
  | _ => o
  end.

Definition with_email (u : UserRow.t) (e : string) : UserRow.t := {|
  UserRow.id := UserRow.id u;
  UserRow.tenant_id := UserRow.tenant_id u;
  UserRow.username := UserRow.username u;
  UserRow.email := e;
  UserRow.full_name := UserRow.full_name u;
  UserRow.password_hash := UserRow.password_hash u;
  UserRow.role := UserRow.role u;
  UserRow.created_at := UserRow.created_at u;
  UserRow.updated_at := UserRow.updated_at u;
  UserRow.is_active := UserRow.is_active u
|}.

Definition with_full_name (u : UserRow.t) (n : string) : UserRow.t := {|
  UserRow.id := UserRow.id u;
  UserRow.tenant_id := UserRow.tenant_id u;
  UserRow.username := UserRow.username u;
  UserRow.email := UserRow.email u;
  UserRow.full_name := n;
  UserRow.password_hash := UserRow.password_hash u;
  UserRow.role := UserRow.role u;
  UserRow.created_at := UserRow.created_at u;
  UserRow.updated_at := UserRow.updated_at u;
  UserRow.is_active := UserRow.is_active u
|}.

Definition with_updated_at (u : UserRow.t) (t : Q) : UserRow.t := {|
  UserRow.id := UserRow.id u;
  UserRow.tenant_id := UserRow.tenant_id u;
  UserRow.username := UserRow.username u;
  UserRow.email := UserRow.email u;
  UserRow.full_name := UserRow.full_name u;
  UserRow.password_hash := UserRow.password_hash u;
  UserRow.role := UserRow.role u;
  UserRow.created_at := UserRow.created_at u;
  UserRow.updated_at := t;
  UserRow.is_active := UserRow.is_active u
|}.

Definition with_is_active (u : UserRow.t) (b : bool) : UserRow.t := {|
  UserRow.id := UserRow.id u;
  UserRow.tenant_id := UserRow.tenant_id u;
  UserRow.username := UserRow.username u;
  UserRow.email := UserRow.email u;
  UserRow.full_name := UserRow.full_name u;
  UserRow.password_hash := UserRow.password_hash u;
  UserRow.role := UserRow.role u;
  UserRow.created_at := UserRow.created_at u;
  UserRow.updated_at := UserRow.updated_at u;
  UserRow.is_active := b
|}.

Definition update_user (request : Request) (user_id : string)
    (user_data : UserUpdate) (authorization : option string) (now : Q)
    : M response :=
  do current_user <- lift (get_current_user settings now authorization);
  do _ <- check_rate_limit settings request (Auth.user_id current_user) now;
  do user <- tenant_user user_id current_user;
  do users <- gets users_db;
  let conflict :=
    match truthy (upd_email user_data) with
    | Some e =>
        if negb (String.eqb e (UserRow.email user))
           && existsb (fun kv =>
                  negb (String.eqb (fst kv) user_id)
                  && String.eqb (UserRow.email (snd kv)) e)
                (Dict.items users)
        then Some e else None
    | None => None
    end in
  match conflict with
  | Some e => throw (email_exists e)
  | None =>
    let user :=
      match truthy (upd_email user_data) with
      | Some e => with_email user e
      | None => user
      end in
    let user :=
      match upd_full_name user_data with
      | Some n => with_full_name user n
      | None => user
      end in
    let user := with_updated_at user now in
    do _ <- modify (fun s =>
      with_users_db s (Dict.set (users_db s) user_id user));
    pure (UserResponse (public_view user))
  end.

Definition delete_user (request : Request) (user_id : string)
    (authorization : option string) (now : Q) : M response :=
  do current_user <- lift (get_current_user settings now authorization);
  do _ <- check_rate_limit settings request (Auth.user_id current_user) now;
  do user <- tenant_user user_id current_user;
  let user := with_updated_at (with_is_active user false) now in
  do _ <- modify (fun s =>
    with_users_db s (Dict.set (users_db s) user_id user));
  pure NoContent.

(** [create_users_bulk]. The coroutines of [asyncio.gather] run on one
    event loop: each scans for duplicates up to its [sleep], so every scan
    sees the rows as they were; the coroutines that passed then create
    their rows in order. [gather] hands the handler the first exception,
    the other coroutines run on; here they finish within the step. Each
    item comes with its [uuid4] and [gensalt] draws. *)
Definition bulk_task (rows : list UserRow.t) (tenant_id : string) (now : Q)
    (item : UserCreate * string * string) : result UserRow.t :=
  let '(user_data, user_id, salt) := item in
  match duplicate_scan rows user_data with
  | Some e => raise e
  | None =>
      let* hashed := hash_password kdf salt temp_password in
      ret (new_user_row user_data user_id tenant_id hashed now)
  end.

Definition is_http (e : exn) : bool :=
  match e with HTTPException _ _ _ => true | _ => false end.

Definition exn_str (e : exn) : string :=
  match e with
  | ValueError msg => msg
  | KeyError k => "'" +:+ k +:+ "'"
  | IndexError => "list index out of range"
  | HTTPException _ detail _ => detail
  | ValidationError => EmptyString
  end.

Definition failures {A} (l : list (result A)) : list exn :=
  omap (fun r => match r with inl e => Some e | inr _ => None end) l.

Definition successes {A} (l : list (result A)) : list A :=
  omap (fun r => match r with inr a => Some a | inl _ => None end) l.

Definition create_users_bulk (request : Request)
    (users_data : list (UserCreate * string * string))
    (authorization : option string) (now : Q) : M response :=
  do current_user <- lift (get_current_user settings now authorization);
  do _ <- check_rate_limit settings request (Auth.user_id current_user) now;
  if 50 <? len users_data then
    throw (HTTPException HTTP_400_BAD_REQUEST
                         "Cannot create more than 50 users at once" [])
  else
    do users <- gets users_db;
    let outcomes :=
      map (bulk_task (Dict.values users) (Auth.tenant_id current_user) now)
          users_data in
    let created := successes outcomes in
    do _ <- modify (fun s =>
      with_users_db s
        (fold_left (fun d u => Dict.set d (UserRow.id u) u) created
                   (users_db s)));
    match List.filter is_http (failures outcomes), failures outcomes with
    | e :: _, _ => throw e
    | [], e :: _ =>
        throw (HTTPException HTTP_500_INTERNAL_SERVER_ERROR
                 ("Bulk user creation failed: " +:+ exn_str e) [])
    | [], [] => pure (UserListResponse (map public_view created))
    end.

(** **** File management *)

Definition upload_file (request : Request) (file : UploadFile)
    (file_id : string) (authorization : option string) (now : Q)
    : M response :=
  do current_user <- lift (get_current_user settings now authorization);
  do _ <- check_rate_limit settings request (Auth.user_id current_user) now;
  if negb (existsb (String.eqb (upload_content_type file))
                   (allowed_file_types settings))
  then
    throw (HTTPException HTTP_415_UNSUPPORTED_MEDIA_TYPE
             ("File type '" +:+ upload_content_type file
                +:+ "' not allowed") [])
  else
    let content := upload_content file in
    let size := Z.of_nat (String.length content) in
    let size_mb := (inject_Z size / inject_Z (1024 * 1024))%Q in
    if Qltb (inject_Z (max_file_size_mb settings)) size_mb then
      throw (HTTPException HTTP_413_REQUEST_ENTITY_TOO_LARGE
               ("File size " +:+ format_2f size_mb
                  +:+ "MB exceeds limit of "
                  +:+ Py.str (max_file_size_mb settings) +:+ "MB") [])
    else
      let file_metadata := {|
        FileMetadata.id := file_id;
        FileMetadata.tenant_id := Auth.tenant_id current_user;
        FileMetadata.filename := upload_filename file;
        FileMetadata.content_type := upload_content_type file;
        FileMetadata.size_bytes := size;
        FileMetadata.uploaded_by := Auth.user_id current_user;
        FileMetadata.uploaded_at := now
      |} in
      do _ <- modify (fun s =>
        with_files_db s (Dict.set (files_db s) file_id file_metadata));
      do _ <- modify (fun s =>
        with_file_storage s (Dict.set (file_storage s) file_id content));
      pure (FileMetadataResponse file_metadata).

(** The look-up shared by [download_file] and [delete_file]. *)
Definition tenant_file (file_id : string) (current_user : TokenData)
    : M FileMetadata.t :=
  do files <- gets files_db;
  match Dict.get files file_id with
  | None => throw (not_found "File" file_id)
  | Some file_meta =>
      if negb (String.eqb (FileMetadata.tenant_id file_meta)
                          (Auth.tenant_id current_user))
      then throw (not_found "File" file_id)
      else pure file_meta
  end.

Definition download_file (request : Request) (file_id : string)
    (authorization : option string) (now : Q) : M response :=
  do current_user <- lift (get_current_user settings now authorization);
  do _ <- check_rate_limit settings request (Auth.user_id current_user) now;
  do file_meta <- tenant_file file_id current_user;
  do storage <- gets file_storage;
  match Dict.get storage file_id with
  | None | Some EmptyString =>
      throw (HTTPException HTTP_404_NOT_FOUND "File content not found" [])
  | Some content =>
      pure (StreamingResponse content
              (FileMetadata.content_type file_meta)
              [("Content-Disposition",
                "attachment; filename=" +:+ dquote
                  +:+ FileMetadata.filename file_meta +:+ dquote)])
  end.

Definition list_files (request : Request) (page page_size : Z)
    (authorization : option string) (now : Q) : M response :=
  do current_user <- lift (get_current_user settings now authorization);
  do _ <- check_rate_limit settings request (Auth.user_id current_user) now;
  do files <- gets files_db;
  let tenant_files :=
    List.filter (fun f =>
        String.eqb (FileMetadata.tenant_id f) (Auth.tenant_id current_user))
      (Dict.values files) in
  pure (FilesPage (paginate tenant_files page page_size)).

Definition delete_file (request : Request) (file_id : string)
    (authorization : option string) (now : Q) : M response :=
  do current_user <- lift (get_current_user settings now authorization);
  do _ <- check_rate_limit settings request (Auth.user_id current_user) now;
  do file_meta <- tenant_file file_id current_user;
  do _ <- modify (fun s => with_files_db s (Dict.del (files_db s) file_id));
  do _ <- modify (fun s =>
    with_file_storage s (Dict.del (file_storage s) file_id));
  pure NoContent.

(** **** Admin and test helpers *)

Definition list_all_tenants (request : Request)
    (authorization : option string) (now : Q) : M response :=
  do current_user <- lift (require_admin settings now authorization);
  do _ <- check_rate_limit settings request (Auth.user_id current_user) now;
  do tenants <- gets tenants_db;
  pure (TenantsResponse (Dict.values tenants) (len tenants)).

Definition get_system_stats (request : Request)
    (authorization : option string) (now : Q) : M response :=
  do current_user <- lift (require_admin settings now authorization);
  do _ <- check_rate_limit settings request (Auth.user_id current_user) now;
  do s <- gets (fun s => s);
  pure (StatsResponse (len (tenants_db s)) (len (users_db s))
          (len (files_db s))
          (fold_right Z.add 0
             (map (fun c => Z.of_nat (String.length c))
                  (Dict.values (file_storage s))))).

Definition reset_all_data : M response :=
  do _ <- modify (fun _ => initial_state);
  pure (MessageResponse "All data reset successfully").


(** *** The operations the program exposes

    One constructor per route, with the inputs the handler reads (and
    the random draws it makes). *)
Inductive operation : Type :=
| HealthCheck
| RegisterTenant (tenant_data : TenantRegister)
                 (tenant_id user_id salt : string)
| Login (credentials : LoginRequest)
| RefreshTokens (refresh_token : string)
| Logout (authorization : option string)
| ListUsers (request : Request) (page page_size : Z) (active_only : bool)
            (authorization : option string)
| CreateUser (request : Request) (user_data : UserCreate)
             (user_id salt : string) (authorization : option string)
| GetUser (request : Request) (user_id : string)
          (authorization : option string)
| UpdateUser (request : Request) (user_id : string)
             (user_data : UserUpdate) (authorization : option string)
| DeleteUser (request : Request) (user_id : string)
             (authorization : option string)
| CreateUsersBulk (request : Request)
                  (users_data : list (UserCreate * string * string))
                  (authorization : option string)
| UploadFile_ (request : Request) (file : UploadFile) (file_id : string)
              (authorization : option string)
| DownloadFile (request : Request) (file_id : string)
               (authorization : option string)
| ListFiles (request : Request) (page page_size : Z)
            (authorization : option string)
| DeleteFile (request : Request) (file_id : string)
             (authorization : option string)
| ListAllTenants (request : Request) (authorization : option string)
| GetSystemStats (request : Request) (authorization : option string)
| ResetAllData.

Definition handle (op : operation) (now : Q) : M response :=
  match op with
  | HealthCheck => health_check now
  | RegisterTenant tenant_data tenant_id user_id salt =>
      register_tenant tenant_data tenant_id user_id salt now
  | Login credentials => login credentials now
  | RefreshTokens refresh_token => refresh_tokens refresh_token now
  | Logout authorization => logout authorization now
  | ListUsers request page page_size active_only authorization =>
      list_users request page page_size active_only authorization now
  | CreateUser request user_data user_id salt authorization =>
      create_user request user_data user_id salt authorization now
  | GetUser request user_id authorization =>
      get_user request user_id authorization now
  | UpdateUser request user_id user_data authorization =>
      update_user request user_id user_data authorization now
  | DeleteUser request user_id authorization =>
      delete_user request user_id authorization now
  | CreateUsersBulk request users_data authorization =>
      create_users_bulk request users_data authorization now
  | UploadFile_ request file file_id authorization =>
      upload_file request file file_id authorization now
  | DownloadFile request file_id authorization =>
      download_file request file_id authorization now
  | ListFiles request page page_size authorization =>
      list_files request page page_size authorization now
  | DeleteFile request file_id authorization =>
      delete_file request file_id authorization now
  | ListAllTenants request authorization =>
      list_all_tenants request authorization now
  | GetSystemStats request authorization =>
      get_system_stats request authorization now
  | ResetAllData => reset_all_data
  end.

Definition is_reset (op : operation) : bool :=
  match op with ResetAllData => true | _ => false end.

Definition no_reset (trace : list (operation * Q)) : bool :=
  forallb (fun c => negb (is_reset (fst c))) trace.

(** A run of the process: operations with the instants they are served
    at, one after the other. *)
Fixpoint run (trace : list (operation * Q)) (s : state) : state :=
  match trace with
  | [] => s
  | (op, now) :: trace' => run trace' (snd (handle op now s))
  end.

End Endpoints.

(** Consecutive admission checks of one principal on one endpoint, at the
    given instants. *)
Fixpoint checks (settings : Settings) (request : Request)
    (user_id : string) (times : list Q) (s : state)
    : list (result unit) * state :=
  match times with
  | [] => ([], s)
  | now :: times' =>
      let '(r, s1) := check_rate_limit settings request user_id now s in
      let '(rs, s2) := checks settings request user_id times' s1 in
      (r :: rs, s2)
  end.

(** The rejection of [check_rate_limit] when the oldest kept entry is
    [ts0]. *)
Definition rate_limit_exceeded (settings : Settings) (ts0 : Q) : exn :=
  HTTPException HTTP_429_TOO_MANY_REQUESTS "Rate limit exceeded"
                (rate_limit_headers settings (Py.int (ts0 + 60)%Q)).

(** Entries all inside, or all outside, the window that ends at [now]. *)
Definition fresh_at (now : Q) (l : list Q) : Prop :=
  Forall (fun ts => (now - ts < 60)%Q) l.

Definition stale_at (now : Q) (l : list Q) : Prop :=
  Forall (fun ts => (60 <= now - ts)%Q) l.

(** A handler after which the revocation set holds all it held before. *)
Definition grows {A} (m : M A) : Prop :=
  forall s, blacklisted_tokens s ⊆ blacklisted_tokens (snd (m s)).

End Main.

(** ** A reference instance of the package interfaces

    The interfaces of [Jwt] and [Bcrypt] are inhabited: a codec that writes
    the payload, the key and the algorithm as a word over three letters, and
    a key derivation that echoes its salt. They stand in for the packages
    where a statement is evaluated on concrete inputs. *)

Module Reference.
Import Jwt.

#[global] Instance Q_eq_dec : EqDecision Q.
Proof. solve_decision. Defined.

#[global] Instance jval_eq_dec : EqDecision jval.
Proof. solve_decision. Defined.

#[global] Instance Q_countable : Countable Q :=
  inj_countable' (fun q => (Qnum q, Qden q)) (fun nd => Qmake nd.1 nd.2)
                 (fun q => match q with Qmake _ _ => eq_refl end).

Definition jval_to_sum (v : jval) : string + (Z + Q) :=
  match v with
  | JStr s => inl s
  | JInt n => inr (inl n)
  | JDatetime t => inr (inr t)
  end.

Definition jval_of_sum (x : string + (Z + Q)) : jval :=
  match x with
  | inl s => JStr s
  | inr (inl n) => JInt n
  | inr (inr t) => JDatetime t
  end.

#[global] Instance jval_countable : Countable jval :=
  inj_countable' jval_to_sum jval_of_sum
    (fun v => match v with
              | JStr _ | JInt _ | JDatetime _ => eq_refl
              end).

(** A positive number as a word over h, o and i, and back. *)
Fixpoint word_of_pos (p : positive) : string :=
  match p with
  | xH => "h"
  | xO p' => String "o" (word_of_pos p')
  | xI p' => String "i" (word_of_pos p')
  end.

Fixpoint pos_of_word (w : string) : option positive :=
  match w with
  | EmptyString => None
  | String c w' =>
      if Ascii.eqb c "h" then
        match w' with EmptyString => Some xH | _ => None end
      else if Ascii.eqb c "o" then option_map xO (pos_of_word w')
      else if Ascii.eqb c "i" then option_map xI (pos_of_word w')
      else None
  end.

Definition word_encode (p : payload) (key alg : string) : string :=
  word_of_pos (countable.encode (p, key, alg)).

Definition word_decode (token key : string) (algorithms : list string)
    : option payload :=
  match pos_of_word token with
  | None => None
  | Some n =>
      match countable.decode n with
      | Some (p, key', alg) =>
          if bool_decide (key' = key) && bool_decide (alg ∈ algorithms)
          then Some p else None
      | None => None
      end
  end.

Lemma pos_of_word_of_pos p : pos_of_word (word_of_pos p) = Some p.
Proof.
  induction p as [p IH | p IH |]; simpl; [| | reflexivity];
    rewrite IH; reflexivity.
Qed.

Lemma word_of_pos_compact p : compact (word_of_pos p) = true.
Proof.
  assert (Hns : no_space (word_of_pos p) = true)
    by (induction p as [p IH | p IH |]; simpl; [exact IH | exact IH | reflexivity]).
  destruct p; exact Hns.
Qed.

Lemma word_decode_encode p key alg :
  word_decode (word_encode p key alg) key [alg] = Some p.
Proof.
  unfold word_decode, word_encode.
  rewrite pos_of_word_of_pos, decode_encode.
  rewrite !bool_decide_eq_true_2; [reflexivity | set_solver | reflexivity].
Qed.

#[global] Instance word_codec : Codec := {|
  jws_supported := fun _ => true;
  jws_encode := word_encode;
  jws_decode := word_decode;
  jws_supported_HS256 := eq_refl;
  jws_decode_encode := fun p key alg _ _ => word_decode_encode p key alg;
  jws_encode_compact := fun p key alg => word_of_pos_compact _
|}.

Definition echo_kdf (password version cost rest : string) : option string :=
  Some ("$" +:+ version +:+ "$" +:+ cost +:+ "$" +:+ rest).

End Reference.

(** ** Concrete inputs *)

Module Example.
Import Main.

Definition users_list : Request :=
  {| method := "GET"; url_path := "/api/v1/users" |}.

(** Ten requests of principal u on one endpoint, one per second. *)
Definition full_window : state :=
  with_rate_limit_store initial_state
    {[ rate_key users_list "u" :=
         map inject_Z
             [1000; 1001; 1002; 1003; 1004; 1005; 1006; 1007; 1008; 1009] ]}.

Definition alice : UserRow.t := {|
  UserRow.id := "u1";
  UserRow.tenant_id := "t1";
  UserRow.username := "alice";
  UserRow.email := "alice@acme.test";
  UserRow.full_name := "Admin User";
  UserRow.password_hash := "$2b$12$saltsaltsaltsaltsaltsahashhashhashhashhashhashhashhash";
  UserRow.role := "admin";
  UserRow.created_at := 0;
  UserRow.updated_at := 0;
  UserRow.is_active := true
|}.

Definition bob : UserRow.t := {|
  UserRow.id := "u2";
  UserRow.tenant_id := "t2";
  UserRow.username := "bob";
  UserRow.email := "bob@globex.test";
  UserRow.full_name := "Admin User";
  UserRow.password_hash := "$2b$12$saltsaltsaltsaltsaltsahashhashhashhashhashhashhashhash";
  UserRow.role := "admin";
  UserRow.created_at := 0;
  UserRow.updated_at := 0;
  UserRow.is_active := true
|}.

Definition report : FileMetadata.t := {|
  FileMetadata.id := "f2";
  FileMetadata.tenant_id := "t2";
  FileMetadata.filename := "report.pdf";
  FileMetadata.content_type := "application/pdf";
  FileMetadata.size_bytes := 4;
  FileMetadata.uploaded_by := "u2";
  FileMetadata.uploaded_at := 0
|}.

(** Tenant t1 alone, and both tenants with a file of t2. *)
Definition one_tenant : state :=
  with_users_db initial_state [("u1", alice)].

Definition two_tenants : state :=
  with_file_storage
    (with_files_db
       (with_users_db initial_state [("u1", alice); ("u2", bob)])
       [("f2", report)])
    [("f2", "%PDF")].

(** Tokens signed by the reference codec under the default settings at
    instant 0. *)
Definition alice_access : string :=
  Auth.create_access_token (H := Reference.word_codec) default_settings 0
    "u1" "t1" "alice" "admin".

Definition alice_refresh : string :=
  Auth.create_refresh_token (H := Reference.word_codec) default_settings 0
    "u1" "t1".

Definition alice_bearer : option string := Some ("Bearer " +:+ alice_access).

Definition alice_principal : Auth.TokenData := {|
  Auth.user_id := "u1";
  Auth.tenant_id := "t1";
  Auth.username := "alice";
  Auth.role := "admin";
  Auth.exp := 1800
|}.

Definition get_bob : Request :=
  {| method := "GET"; url_path := "/api/v1/users/u2" |}.

Definition get_report : Request :=
  {| method := "GET"; url_path := "/api/v1/files/f2" |}.

End Example.

(** ** The routes by what guards them *)

Module Route.
Import Main.

(** The Authorization header of the routes that depend on
    [get_current_user] or [require_admin]. *)
Definition authorization_of (op : operation) : option (option string) :=
  match op with
  | HealthCheck | RegisterTenant _ _ _ _ | Login _ | RefreshTokens _
  | ResetAllData => None
  | Logout a | ListUsers _ _ _ _ a | CreateUser _ _ _ _ a | GetUser _ _ a
  | UpdateUser _ _ _ a | DeleteUser _ _ a | CreateUsersBulk _ _ a
  | UploadFile_ _ _ _ a | DownloadFile _ _ a | ListFiles _ _ _ a
  | DeleteFile _ _ a | ListAllTenants _ a | GetSystemStats _ a => Some a
  end.

(** The routes that depend on [require_admin]. *)
Definition admin_only (op : operation) : bool :=
  match op with
  | ListAllTenants _ _ | GetSystemStats _ _ => true
  | _ => false
  end.

(** The request of the routes that call [check_rate_limit]. *)
Definition request_of (op : operation) : option Request :=
  match op with
  | HealthCheck | RegisterTenant _ _ _ _ | Login _ | RefreshTokens _
  | Logout _ | ResetAllData => None
  | ListUsers r _ _ _ _ | CreateUser r _ _ _ _ | GetUser r _ _
  | UpdateUser r _ _ _ | DeleteUser r _ _ | CreateUsersBulk r _ _
  | UploadFile_ r _ _ _ | DownloadFile r _ _ | ListFiles r _ _ _
  | DeleteFile r _ _ | ListAllTenants r _ | GetSystemStats r _ => Some r
  end.

(** The routes whose handler writes no store but the rate windows. *)
Definition read_only (op : operation) : bool :=
  match op with
  | HealthCheck | Login _ | Logout _ | ListUsers _ _ _ _ _ | GetUser _ _ _
  | DownloadFile _ _ _ | ListFiles _ _ _ _ | ListAllTenants _ _
  | GetSystemStats _ _ => true
  | _ => false
  end.

Definition is_refresh (op : operation) : bool :=
  match op with RefreshTokens _ => true | _ => false end.

Section Route.
Context `{Jwt.Codec}.
Variable settings : Settings.

(** The dependency that resolves the principal of a route, if it has one. *)
Definition principal_of (now : Q) (op : operation)
    : option (result Auth.TokenData) :=
  match authorization_of op with
  | None => None
  | Some authorization =>
      Some (if admin_only op
            then Auth.require_admin settings now authorization
            else Auth.get_current_user settings now authorization)
  end.

End Route.

(** Two states that differ in their rate windows at most. *)
Definition same_data (s s' : state) : Prop :=
  s' = with_rate_limit_store s (rate_limit_store s').

(** A handler that preserves a relation between the state it finds and the
    state it leaves. *)
Definition preserves {A} (R : state -> state -> Prop) (m : M A) : Prop :=
  forall s, R s (snd (m s)).

Definition same_revoked (s s' : state) : Prop :=
  blacklisted_tokens s' = blacklisted_tokens s.

(** Dictionaries that hold every key once, as a Python dict does. *)
Definition unique_keys (s : state) : Prop :=
  List.NoDup (map fst (tenants_db s))
  /\ List.NoDup (map fst (users_db s))
  /\ List.NoDup (map fst (files_db s))
  /\ List.NoDup (map fst (file_storage s)).

Definition keeps_keys (s s' : state) : Prop :=
  unique_keys s -> unique_keys s'.

End Route.

Module Window.
Import Main.

(** A string without a colon (a uuid, an HTTP method). *)
Fixpoint no_colon (s : string) : bool :=
  match s with
  | EmptyString => true
  | String c s' => negb (Ascii.eqb c ":") && no_colon s'
  end.

(** Timestamps in the order of a clock that does not run backwards. *)
Fixpoint ascending (l : list Q) : Prop :=
  match l with
  | [] => True
  | t :: l' => Forall (fun t' => (t <= t')%Q) l' /\ ascending l'
  end.

(** The instants of the calls that were let through. *)
Fixpoint admitted (times : list Q) (outcomes : list (result unit)) : list Q :=
  match times, outcomes with
  | t :: times', inr _ :: outcomes' => t :: admitted times' outcomes'
  | _ :: times', inl _ :: outcomes' => admitted times' outcomes'
  | _, _ => []
  end.

End Window.

(** ** Rows and values the handlers build *)

Module Rows.
Import Main.

(** The administrator's row and the tenant's row of [register_tenant]. *)
Definition admin_row (tenant_data : TenantRegister)
    (tenant_id user_id hashed : string) (now : Q) : UserRow.t := {|
  UserRow.id := user_id;
  UserRow.tenant_id := tenant_id;
  UserRow.username := admin_username tenant_data;
  UserRow.email := admin_email tenant_data;
  UserRow.full_name := "Admin User";
  UserRow.password_hash := hashed;
  UserRow.role := "admin";
  UserRow.created_at := now;
  UserRow.updated_at := now;
  UserRow.is_active := true
|}.

Definition tenant_row (tenant_data : TenantRegister) (tenant_id : string)
    (now : Q) : Tenant.t := {|
  Tenant.id := tenant_id;
  Tenant.name := tenant_name tenant_data;
  Tenant.created_at := now;
  Tenant.is_active := true
|}.

(** The metadata [upload_file] stores and returns. *)
Definition stored_metadata (file : UploadFile) (file_id : string)
    (current_user : Auth.TokenData) (now : Q) : FileMetadata.t := {|
  FileMetadata.id := file_id;
  FileMetadata.tenant_id := Auth.tenant_id current_user;
  FileMetadata.filename := upload_filename file;
  FileMetadata.content_type := upload_content_type file;
  FileMetadata.size_bytes := Z.of_nat (String.length (upload_content file));
  FileMetadata.uploaded_by := Auth.user_id current_user;
  FileMetadata.uploaded_at := now
|}.

(** [settings.max_file_size_mb] in bytes. *)
Definition size_limit_bytes (settings : Settings) : Z :=
  max_file_size_mb settings * 1048576.

(** The headers of a download. *)
Definition disposition (filename : string) : list (string * string) :=
  [("Content-Disposition",
    "attachment; filename=" +:+ dquote +:+ filename +:+ dquote)].

(** The principal an access token issued for a row resolves to. *)
Definition principal_of_row (row : UserRow.t) (expiry : Z) : Auth.TokenData :=
  {| Auth.user_id := UserRow.id row;
     Auth.tenant_id := UserRow.tenant_id row;
     Auth.username := UserRow.username row;
     Auth.role := UserRow.role row;
     Auth.exp := expiry |}.

End Rows.

(** ** Concrete requests *)

Module Scenario.
Import Main.

(** Principal u of tenant t1, with a token issued at instant 1000. *)
Definition u_access : string :=
  Auth.create_access_token (H := Reference.word_codec) default_settings 1000
    "u" "t1" "alice" "admin".

Definition u_bearer : option string := Some ("Bearer " +:+ u_access).

Definition u_principal : Auth.TokenData := {|
  Auth.user_id := "u";
  Auth.tenant_id := "t1";
  Auth.username := "alice";
  Auth.role := "admin";
  Auth.exp := 2800
|}.

(** A member of tenant t1 without the admin role. *)
Definition carol_access : string :=
  Auth.create_access_token (H := Reference.word_codec) default_settings 0
    "u3" "t1" "carol" "user".

Definition acme : TenantRegister := {|
  tenant_name := "Acme";
  admin_email := "root@acme.test";
  admin_username := "root";
  admin_password := "s3cret"
|}.

Definition acme_again : TenantRegister := {|
  tenant_name := "ACME";
  admin_email := "other@acme.test";
  admin_username := "other";
  admin_password := "pass"
|}.

Definition globex_root : TenantRegister := {|
  tenant_name := "Globex";
  admin_email := "root@globex.test";
  admin_username := "root";
  admin_password := "pass"
|}.

Definition salt : string := "$2b$12$saltsaltsaltsaltsaltsa".

Definition dave : UserCreate := {|
  new_username := "dave";
  new_email := "dave@acme.test";
  new_full_name := "Dave";
  new_role := "user"
|}.

Definition post_users : Request :=
  {| method := "POST"; url_path := "/api/v1/users" |}.

Definition delete_bob : Request :=
  {| method := "DELETE"; url_path := "/api/v1/users/u2" |}.

Definition delete_alice : Request :=
  {| method := "DELETE"; url_path := "/api/v1/users/u1" |}.

Definition post_files : Request :=
  {| method := "POST"; url_path := "/api/v1/files/upload" |}.

Definition get_files : Request :=
  {| method := "GET"; url_path := "/api/v1/files" |}.

Definition get_notes : Request :=
  {| method := "GET"; url_path := "/api/v1/files/f1" |}.

Definition delete_notes : Request :=
  {| method := "DELETE"; url_path := "/api/v1/files/f1" |}.

Definition notes : UploadFile := {|
  upload_filename := "notes.txt";
  upload_content_type := "text/plain";
  upload_content := "hello"
|}.

(** Tokens of bob, the administrator of tenant t2. *)
Definition bob_access : string :=
  Auth.create_access_token (H := Reference.word_codec) default_settings 0
    "u2" "t2" "bob" "admin".

Definition bob_bearer : option string := Some ("Bearer " +:+ bob_access).

Definition bob_principal : Auth.TokenData := {|
  Auth.user_id := "u2";
  Auth.tenant_id := "t2";
  Auth.username := "bob";
  Auth.role := "admin";
  Auth.exp := 1800
|}.

(** [get_settings()] in an environment that sets RATE_LIMIT_PER_MINUTE=0
    and nothing else. *)
Definition no_quota : Settings := {|
  api_env := api_env default_settings;
  jwt_secret := jwt_secret default_settings;
  jwt_algorithm := jwt_algorithm default_settings;
  access_token_expire_minutes := access_token_expire_minutes default_settings;
  refresh_token_expire_days := refresh_token_expire_days default_settings;
  rate_limit_per_minute := 0;
  default_page_size := default_page_size default_settings;
  max_page_size := max_page_size default_settings;
  max_file_size_mb := max_file_size_mb default_settings;
  allowed_file_types := allowed_file_types default_settings;
  database_url := database_url default_settings
|}.

(** The row of alice after she was renamed and lost the admin role, and
    the store that holds it. *)
Definition alice_demoted : UserRow.t := {|
  UserRow.id := "u1";
  UserRow.tenant_id := "t1";
  UserRow.username := "alice.smith";
  UserRow.email := "alice@acme.test";
  UserRow.full_name := "Alice Smith";
  UserRow.password_hash := UserRow.password_hash Example.alice;
  UserRow.role := "user";
  UserRow.created_at := 0;
  UserRow.updated_at := 3;
  UserRow.is_active := true
|}.

Definition after_demotion : state :=
  with_users_db initial_state [("u1", alice_demoted)].

(** The state after alice has uploaded her notes as file f1 to a fresh
    process, at instant 5. *)
Definition after_upload : state :=
  with_file_storage
    (with_files_db
       (snd (check_rate_limit default_settings post_files "u1" 5
               initial_state))
       (Dict.set (files_db initial_state) "f1"
          (Rows.stored_metadata notes "f1" Example.alice_principal 5)))
    (Dict.set (file_storage initial_state) "f1" (upload_content notes)).

End Scenario.

(** * Properties *)

Import Main.

(** ** Rate admission *)

Lemma Qltb_lt (x y : Q) : Qltb x y = true <-> (x < y)%Q.
Proof.
  unfold Qltb. rewrite negb_true_iff. split.
  - intros Hb. apply Qnot_le_lt. intros Hle.
    apply Qle_bool_iff in Hle. congruence.
  - intros Hlt. destruct (Qle_bool y x) eqn:E; [| reflexivity].
    apply Qle_bool_iff in E. exfalso. apply (Qlt_not_le _ _ Hlt E).
Qed.

Lemma Qltb_ge (x y : Q) : Qltb x y = false <-> (y <= x)%Q.
Proof. unfold Qltb. rewrite negb_false_iff. apply Qle_bool_iff. Qed.

Lemma prune_fresh now l : fresh_at now l -> prune now l = l.
Proof.
  induction 1 as [| ts l Hts _ IH]; [reflexivity |].
  simpl. apply Qltb_lt in Hts. rewrite Hts, IH. reflexivity.
Qed.

Lemma prune_stale now l : stale_at now l -> prune now l = [].
Proof.
  induction 1 as [| ts l Hts _ IH]; [reflexivity |].
  simpl. apply Qltb_ge in Hts. rewrite Hts. exact IH.
Qed.

Lemma prune_spec now l ts :
  In ts (prune now l) <-> In ts l /\ (now - ts < 60)%Q.
Proof. unfold prune. rewrite List.filter_In, Qltb_lt. reflexivity. Qed.

Lemma window_insert store key l : window (<[key := l]> store) key = l.
Proof. unfold window. rewrite lookup_insert_eq. reflexivity. Qed.

(** [check_rate_limit] in one piece: the pruned window decides. *)
Lemma check_rate_limit_eq settings request user_id now s :
  check_rate_limit settings request user_id now s =
  let key := rate_key request user_id in
  let kept := prune now (window (rate_limit_store s) key) in
  if rate_limit_per_minute settings <=? len kept then
    (match kept with
     | [] => raise IndexError
     | ts0 :: _ => raise (rate_limit_exceeded settings ts0)
     end,
     with_rate_limit_store s (<[key := kept]> (rate_limit_store s)))
  else
    (ret tt,
     with_rate_limit_store s (<[key := kept ++ [now]]> (rate_limit_store s))).
Proof.
  unfold check_rate_limit, bindM, modify, gets, throw, len,
    with_rate_limit_store. cbn.
  set (kept := prune now (window (rate_limit_store s)
                                 (rate_key request user_id))).
  assert (Hw : window (<[rate_key request user_id := kept]>
                         (rate_limit_store s))
                      (rate_key request user_id) = kept)
    by apply window_insert.
  rewrite !Hw.
  destruct (rate_limit_per_minute settings <=? Z.of_nat (length kept)).
  - destruct kept; reflexivity.
  - cbn. rewrite ?Hw, insert_insert_eq. reflexivity.
Qed.

Lemma check_rate_limit_reject settings request user_id now s :
  rate_limit_per_minute settings
    <= len (prune now (window (rate_limit_store s)
                              (rate_key request user_id))) ->
  exists e,
    check_rate_limit settings request user_id now s
    = (raise e,
       with_rate_limit_store s
         (<[rate_key request user_id :=
              prune now (window (rate_limit_store s)
                                (rate_key request user_id))]>
            (rate_limit_store s)))
    /\ forall ts0 rest,
         prune now (window (rate_limit_store s) (rate_key request user_id))
         = ts0 :: rest ->
         e = rate_limit_exceeded settings ts0.
Proof.
  intros Hfull. rewrite check_rate_limit_eq. cbn zeta.
  apply Z.leb_le in Hfull. rewrite Hfull.
  destruct (prune now (window (rate_limit_store s)
                              (rate_key request user_id)))
    as [| ts0 rest] eqn:Hkept.
  - exists IndexError. split; [reflexivity | discriminate].
  - exists (rate_limit_exceeded settings ts0). split; [reflexivity |].
    intros ? ? [= <- _]. reflexivity.
Qed.

Lemma check_rate_limit_admit settings request user_id now s :
  len (prune now (window (rate_limit_store s) (rate_key request user_id)))
    < rate_limit_per_minute settings ->
  check_rate_limit settings request user_id now s
  = (ret tt,
     with_rate_limit_store s
       (<[rate_key request user_id :=
            prune now (window (rate_limit_store s)
                              (rate_key request user_id)) ++ [now]]>
          (rate_limit_store s))).
Proof.
  intros Hroom. rewrite check_rate_limit_eq. cbn zeta.
  apply Z.leb_gt in Hroom. rewrite Hroom. reflexivity.
Qed.

(** With a limit of zero or less the first request of a key finds its empty
    window "full", and the subscript [rate_limit_store[key][0]] fails: the
    request is turned away by an [IndexError], not by the 429 response. *)
Lemma check_rate_limit_no_quota settings request user_id now s :
  rate_limit_per_minute settings <= 0 ->
  window (rate_limit_store s) (rate_key request user_id) = [] ->
  fst (check_rate_limit settings request user_id now s) = raise IndexError.
Proof.
  intros Hzero Hw. rewrite check_rate_limit_eq. cbn zeta. rewrite Hw.
  change (len (prune now [])) with 0.
  apply Z.leb_le in Hzero. rewrite Hzero. reflexivity.
Qed.

Lemma checks_app settings request user_id l1 l2 s :
  checks settings request user_id (l1 ++ l2) s =
  let '(r1, s1) := checks settings request user_id l1 s in
  let '(r2, s2) := checks settings request user_id l2 s1 in
  (r1 ++ r2, s2).
Proof.
  revert s. induction l1 as [| t l1 IH]; intros s; simpl.
  - destruct (checks settings request user_id l2 s). reflexivity.
  - destruct (check_rate_limit settings request user_id t s) as [r s1].
    rewrite IH.
    destruct (checks settings request user_id l1 s1) as [r1 s2].
    destruct (checks settings request user_id l2 s2) as [r2 s3].
    reflexivity.
Qed.

(** Calls that stay within one window and within the quota all pass, and the
    window records them in order. *)
Lemma checks_admitted settings request user_id times :
  forall done s,
    window (rate_limit_store s) (rate_key request user_id) = done ->
    (forall a b, In a (done ++ times) -> In b (done ++ times) ->
                 (a - b < 60)%Q) ->
    len (done ++ times) <= rate_limit_per_minute settings ->
    exists s',
      checks settings request user_id times s
      = (map (fun _ => ret tt) times, s')
      /\ window (rate_limit_store s') (rate_key request user_id)
         = done ++ times.
Proof.
  induction times as [| t ts IH]; intros done s Hw Hfresh Hlen.
  - exists s. simpl. rewrite app_nil_r. auto.
  - simpl. rewrite check_rate_limit_eq. cbn zeta. rewrite Hw.
    assert (Hkept : prune t done = done).
    { apply prune_fresh. apply List.Forall_forall. intros e He.
      apply Hfresh; apply in_or_app;
        [right; left; reflexivity | left; exact He]. }
    rewrite Hkept.
    assert (Hlt : (rate_limit_per_minute settings <=? len done) = false).
    { apply Z.leb_gt. unfold len in *. rewrite length_app in Hlen.
      simpl in Hlen. lia. }
    rewrite Hlt.
    destruct (IH (done ++ [t])
                 (with_rate_limit_store s
                    (<[rate_key request user_id := done ++ [t]]>
                       (rate_limit_store s)))) as (s' & Hrun & Hw').
    + cbn. apply window_insert.
    + rewrite <- app_assoc. exact Hfresh.
    + rewrite <- app_assoc. exact Hlen.
    + rewrite Hrun. exists s'. split; [reflexivity |].
      rewrite Hw', <- app_assoc. reflexivity.
Qed.

(** X30. The admission check keeps the timestamps newer than [now - 60] of
    the key's window. When at least [rate_limit_per_minute] of them remain,
    the request is turned away: the check raises, stores the pruned window
    and appends nothing, and for a positive limit what it raises is the 429
    "Rate limit exceeded" response. When fewer remain, the request is
    admitted and [now] is appended to the pruned window. With limit 10, ten
    calls inside one 60-second window all pass, an eleventh inside it is
    rejected with 429, and a call made once the window has passed is
    admitted again. *)
Theorem rate_admission settings request user_id :
  (forall now s,
     (forall ts,
        In ts (prune now (window (rate_limit_store s)
                                 (rate_key request user_id)))
        <-> In ts (window (rate_limit_store s) (rate_key request user_id))
            /\ (now - 60 < ts)%Q)
     /\ (rate_limit_per_minute settings
           <= len (prune now (window (rate_limit_store s)
                                     (rate_key request user_id))) ->
         exists e,
           check_rate_limit settings request user_id now s
           = (raise e,
              with_rate_limit_store s
                (<[rate_key request user_id :=
                     prune now (window (rate_limit_store s)
                                       (rate_key request user_id))]>
                   (rate_limit_store s)))
           /\ (0 < rate_limit_per_minute settings ->
               exists ts0 rest,
                 prune now (window (rate_limit_store s)
                                   (rate_key request user_id)) = ts0 :: rest
                 /\ e = rate_limit_exceeded settings ts0))
     /\ (len (prune now (window (rate_limit_store s)
                                (rate_key request user_id)))
           < rate_limit_per_minute settings ->
         check_rate_limit settings request user_id now s
         = (ret tt,
            with_rate_limit_store s
              (<[rate_key request user_id :=
                   prune now (window (rate_limit_store s)
                                     (rate_key request user_id)) ++ [now]]>
                 (rate_limit_store s)))))
  /\ (forall t1 rest t11 t_late s,
        rate_limit_per_minute settings = 10 ->
        length (t1 :: rest) = 10%nat ->
        stale_at t1 (window (rate_limit_store s) (rate_key request user_id)) ->
        (forall a b, In a (t1 :: rest ++ [t11]) -> In b (t1 :: rest ++ [t11]) ->
                     (a - b < 60)%Q) ->
        stale_at t_late (t1 :: rest) ->
        exists s',
          checks settings request user_id (t1 :: rest ++ [t11; t_late]) s
          = (repeat (ret tt) 10
               ++ [raise (rate_limit_exceeded settings t1); ret tt], s')
          /\ window (rate_limit_store s') (rate_key request user_id)
             = [t_late]).
Proof.
  split.
  - intros now s. split; [| split].
    + intros ts. rewrite prune_spec.
      split; intros [Hin Hlt]; (split; [exact Hin | lra]).
    + intros Hfull.
      destruct (check_rate_limit_reject settings request user_id now s Hfull)
        as (e & Hrun & Hhead).
      exists e. split; [exact Hrun |]. intros Hpos.
      destruct (prune now (window (rate_limit_store s)
                                  (rate_key request user_id)))
        as [| ts0 rest] eqn:Hkept.
      * unfold len in Hfull. simpl in Hfull. lia.
      * exists ts0, rest. split; [reflexivity |].
        apply (Hhead ts0 rest eq_refl).
    + apply check_rate_limit_admit.
  - intros t1 rest t11 t_late s Hlimit Hlen Hold Hwin Hlate.
    set (key := rate_key request user_id) in *.
    (* the first call drops what was left of an older window *)
    change (t1 :: rest ++ [t11; t_late])
      with ([t1] ++ (rest ++ [t11; t_late])).
    rewrite checks_app. cbn [checks].
    rewrite check_rate_limit_admit; fold key;
      rewrite (prune_stale _ _ Hold); [| unfold len; simpl; lia].
    cbn [app].
    set (s1 := with_rate_limit_store s (<[key := [t1]]> (rate_limit_store s))).
    (* the other nine fit into the window *)
    rewrite checks_app.
    destruct (checks_admitted settings request user_id rest [t1] s1)
      as (s2 & Hrun & Hw2).
    { apply window_insert. }
    { intros a b Ha Hb. apply Hwin; simpl in *; rewrite in_app_iff; tauto. }
    { unfold len. simpl in *. lia. }
    fold key in Hw2. rewrite Hrun. cbn [checks app].
    (* the eleventh finds the window full *)
    assert (Hkept : prune t11 (t1 :: rest) = t1 :: rest).
    { apply prune_fresh. apply List.Forall_forall. intros e He.
      apply Hwin; simpl in *; rewrite in_app_iff; simpl; tauto. }
    destruct (check_rate_limit_reject settings request user_id t11 s2)
      as (e & Hrej & Hhead).
    { fold key. rewrite Hw2. cbn [app]. rewrite Hkept.
      unfold len. rewrite Hlen, Hlimit. reflexivity. }
    fold key in Hrej, Hhead. rewrite Hw2 in Hrej, Hhead.
    cbn [app] in Hrej, Hhead. rewrite Hkept in Hrej, Hhead.
    rewrite Hrej, (Hhead t1 rest eq_refl).
    set (s3 := with_rate_limit_store s2
                 (<[key := t1 :: rest]> (rate_limit_store s2))).
    (* after the window has passed the call goes through *)
    assert (Hw3 : window (rate_limit_store s3) key = t1 :: rest)
      by apply window_insert.
    rewrite check_rate_limit_admit; fold key;
      rewrite Hw3, (prune_stale _ _ Hlate); [| unfold len; simpl; lia].
    exists (with_rate_limit_store s3
              (<[key := [t_late]]> (rate_limit_store s3))).
    split; [| apply window_insert].
    simpl in Hlen. injection Hlen as Hlen.
    rewrite List.map_const, Hlen. reflexivity.
Qed.

Ltac qcmp :=
  vm_compute; first [reflexivity | discriminate | intros; discriminate].

Lemma rate_admission_witness :
  rate_limit_per_minute default_settings = 10
  /\ exists s',
       checks default_settings Example.users_list "u"
         (map inject_Z [0; 1; 2; 3; 4; 5; 6; 7; 8; 9; 10; 70]) initial_state
       = (repeat (ret tt) 10
            ++ [raise (rate_limit_exceeded default_settings 0); ret tt], s')
       /\ window (rate_limit_store s') (rate_key Example.users_list "u")
          = [70%Q].
Proof.
  split; [reflexivity |].
  apply (proj2 (rate_admission default_settings Example.users_list "u")
               0%Q (map inject_Z [1; 2; 3; 4; 5; 6; 7; 8; 9]) 10%Q 70%Q
               initial_state).
  - reflexivity.
  - reflexivity.
  - vm_compute. constructor.
  - intros a b Ha Hb. simpl in Ha, Hb.
    repeat (destruct Ha as [<- | Ha]); try contradiction;
      repeat (destruct Hb as [<- | Hb]); try contradiction; qcmp.
  - repeat constructor; qcmp.
Defined.

(** C1. With a limit of zero or less, which [get_settings] accepts, a
    request whose pruned window is empty already holds "at least the limit"
    of recent timestamps, so it is to be rejected. The check does enter its
    rejecting branch, but the subscript [rate_limit_store[key][0]] that
    computes the reset instant fails on the empty window: what the caller
    gets is an [IndexError], never the 429 "Rate limit exceeded" response,
    and the key is left with an empty window. *)
Theorem rate_admission_without_quota settings request user_id now s :
  rate_limit_per_minute settings <= 0 ->
  prune now (window (rate_limit_store s) (rate_key request user_id)) = [] ->
  rate_limit_per_minute settings
    <= len (prune now (window (rate_limit_store s)
                              (rate_key request user_id)))
  /\ check_rate_limit settings request user_id now s
     = (raise IndexError,
        with_rate_limit_store s
          (<[rate_key request user_id := []]> (rate_limit_store s)))
  /\ forall detail headers,
       fst (check_rate_limit settings request user_id now s)
       <> raise (HTTPException HTTP_429_TOO_MANY_REQUESTS detail headers).
Proof.
  intros Hzero Hkept.
  assert (Hrun : check_rate_limit settings request user_id now s
                 = (raise IndexError,
                    with_rate_limit_store s
                      (<[rate_key request user_id := []]>
                         (rate_limit_store s)))).
  { rewrite check_rate_limit_eq. cbn zeta. rewrite Hkept.
    change (len []) with 0. apply Z.leb_le in Hzero. rewrite Hzero.
    reflexivity. }
  split; [rewrite Hkept; exact Hzero |]. split; [exact Hrun |].
  intros detail headers. rewrite Hrun. discriminate.
Qed.

(** The first request of principal u on an endpoint, under a limit of 0. *)
Lemma rate_admission_without_quota_witness :
  rate_limit_per_minute Scenario.no_quota <= 0
  /\ prune 0 (window (rate_limit_store initial_state)
                (rate_key Example.users_list "u")) = []
  /\ check_rate_limit Scenario.no_quota Example.users_list "u" 0
       initial_state
     = (raise IndexError,
        with_rate_limit_store initial_state
          (<[rate_key Example.users_list "u" := []]>
             (rate_limit_store initial_state))).
Proof.
  split; [discriminate |]. split; [reflexivity |].
  apply (proj1 (proj2 (rate_admission_without_quota Scenario.no_quota
                         Example.users_list "u" 0%Q initial_state
                         ltac:(discriminate) eq_refl))).
Defined.

Lemma int_above (x : Q) : (x - 1 < inject_Z (Py.int x))%Q.
Proof.
  unfold Py.int. destruct (Qle_bool 0 x) eqn:E.
  - pose proof (Qlt_floor x) as Hf. rewrite inject_Z_plus in Hf.
    change (inject_Z 1) with 1%Q in Hf. lra.
  - pose proof (Qle_ceiling x). lra.
Qed.

(** Order of the window under a clock that does not run backwards. *)
Lemma ascending_prune now l :
  Window.ascending l -> Window.ascending (prune now l).
Proof.
  induction l as [| t l IH]; [exact id |].
  intros [Hhead Htail]. cbn.
  destruct (Qltb (now - t) 60); [| exact (IH Htail)].
  cbn. split; [| exact (IH Htail)].
  apply List.Forall_forall. intros t' Hin. apply prune_spec in Hin as [Hin _].
  revert t' Hin. apply List.Forall_forall. exact Hhead.
Qed.

(** C2, as amended. A rejected check (the 429 response) carries no relative
    number of seconds: its only time hint is the header X-RateLimit-Reset,
    which holds [int(t0 + 60)] for [t0] the first entry the pruned window of
    the key holds ([rate_limit_store[key][0]]), an absolute instant in epoch
    seconds, truncated. When the window is in ascending order, as it is
    under a clock that never ran backwards, [t0] is the oldest remaining
    timestamp, and the header is the instant at which the oldest entry ages
    out. The value is later than [now - 1], hence strictly positive for
    every [now] of at least one second. *)
Theorem retry_hint settings request user_id now s detail headers :
  fst (check_rate_limit settings request user_id now s)
  = raise (HTTPException HTTP_429_TOO_MANY_REQUESTS detail headers) ->
  exists ts0 rest,
    prune now (window (rate_limit_store s) (rate_key request user_id))
    = ts0 :: rest
    /\ headers = rate_limit_headers settings (Py.int (ts0 + 60)%Q)
    /\ Dict.get headers "X-RateLimit-Reset"
       = Some (Py.str (Py.int (ts0 + 60)%Q))
    /\ Dict.get headers "Retry-After" = None
    /\ (now - 1 < inject_Z (Py.int (ts0 + 60)%Q))%Q
    /\ ((1 <= now)%Q -> 0 < Py.int (ts0 + 60)%Q)
    /\ (Window.ascending (window (rate_limit_store s)
                            (rate_key request user_id)) ->
        Forall (fun ts => (ts0 <= ts)%Q) rest).
Proof.
  rewrite check_rate_limit_eq. cbn zeta.
  destruct (rate_limit_per_minute settings <=? _); [| discriminate].
  destruct (prune now (window (rate_limit_store s) (rate_key request user_id)))
    as [| ts0 rest] eqn:Hkept; [discriminate |].
  cbn [fst]. intros [= <- <-].
  assert (Hnew : (now - ts0 < 60)%Q).
  { apply (prune_spec now (window (rate_limit_store s)
                                  (rate_key request user_id))).
    rewrite Hkept. left. reflexivity. }
  pose proof (int_above (ts0 + 60)%Q) as Hint.
  exists ts0, rest. repeat split; try reflexivity.
  - lra.
  - intros Hnow.
    assert (H0 : (inject_Z 0 < inject_Z (Py.int (ts0 + 60)))%Q)
      by (change (inject_Z 0) with 0%Q; lra).
    rewrite <- Zlt_Qlt in H0. exact H0.
  - intros Hasc. apply (ascending_prune now) in Hasc.
    rewrite Hkept in Hasc. apply Hasc.
Qed.

Lemma retry_hint_witness :
  fst (check_rate_limit default_settings Example.users_list "u" 1010
         Example.full_window)
  = raise (HTTPException HTTP_429_TOO_MANY_REQUESTS "Rate limit exceeded"
             [("X-RateLimit-Limit", "10"); ("X-RateLimit-Remaining", "0");
              ("X-RateLimit-Reset", "1060")])
  /\ Window.ascending (window (rate_limit_store Example.full_window)
                         (rate_key Example.users_list "u"))
  /\ exists ts0 rest,
       prune 1010 (window (rate_limit_store Example.full_window)
                          (rate_key Example.users_list "u")) = ts0 :: rest
       /\ [("X-RateLimit-Limit", "10"); ("X-RateLimit-Remaining", "0");
           ("X-RateLimit-Reset", "1060")]
          = rate_limit_headers default_settings (Py.int (ts0 + 60)%Q)
       /\ Dict.get [("X-RateLimit-Limit", "10");
                    ("X-RateLimit-Remaining", "0");
                    ("X-RateLimit-Reset", "1060")] "X-RateLimit-Reset"
          = Some (Py.str (Py.int (ts0 + 60)%Q))
       /\ Dict.get [("X-RateLimit-Limit", "10");
                    ("X-RateLimit-Remaining", "0");
                    ("X-RateLimit-Reset", "1060")] "Retry-After" = None
       /\ (1010 - 1 < inject_Z (Py.int (ts0 + 60)%Q))%Q
       /\ ((1 <= 1010)%Q -> 0 < Py.int (ts0 + 60)%Q)
       /\ Forall (fun ts => (ts0 <= ts)%Q) rest.
Proof.
  assert (Hasc : Window.ascending
                   (window (rate_limit_store Example.full_window)
                      (rate_key Example.users_list "u")))
    by (vm_compute; repeat (first [split | constructor | discriminate])).
  split; [vm_compute; reflexivity |]. split; [exact Hasc |].
  destruct (retry_hint default_settings Example.users_list "u" 1010%Q
              Example.full_window "Rate limit exceeded"
              [("X-RateLimit-Limit", "10"); ("X-RateLimit-Remaining", "0");
               ("X-RateLimit-Reset", "1060")]
              ltac:(vm_compute; reflexivity))
    as (ts0 & rest & Hkept & Hh & Hreset & Hretry & Hlate & Hpos & Hold).
  exists ts0, rest. repeat split; try assumption. exact (Hold Hasc).
Defined.

(** The claim of C2 at a concrete rejection: the window of the principal holds
    the ten instants 1000 to 1009 and the request comes at 1010. The claim
    asks for [ceil(1000 + 60 - 1010)], that is 50; the response carries 1060
    and no other hint. *)
Lemma retry_hint_counterexample :
  fst (check_rate_limit default_settings Example.users_list "u" 1010
         Example.full_window)
  = raise (HTTPException 429 "Rate limit exceeded"
             [("X-RateLimit-Limit", "10"); ("X-RateLimit-Remaining", "0");
              ("X-RateLimit-Reset", "1060")])
  /\ hd_error (prune 1010 (window (rate_limit_store Example.full_window)
                                  (rate_key Example.users_list "u")))
     = Some 1000%Q
  /\ Py.str (Py.ceil (1000 + 60 - 1010)) = "50"
  /\ "1060" <> Py.str (Py.ceil (1000 + 60 - 1010)).
Proof.
  split; [vm_compute; reflexivity |].
  split; [vm_compute; reflexivity |].
  split; [vm_compute; reflexivity |].
  vm_compute. discriminate.
Qed.


(** ** Password verification *)

Lemma checkpw_unshaped kdf password hashed :
  Bcrypt.bcrypt_shaped hashed = false ->
  Bcrypt.checkpw kdf password hashed = raise (ValueError "Invalid salt").
Proof.
  unfold Bcrypt.bcrypt_shaped, Bcrypt.checkpw, Bcrypt.hashpw.
  destruct (Bcrypt.fields hashed) as [| v [| c [| r [| ? ?]]]];
    try reflexivity.
  intros ->. reflexivity.
Qed.

(** C3, as amended. [verify_password] hands both strings to
    [bcrypt.checkpw] and has no handler of its own: on a hash string that
    does not have the shape of a bcrypt hash it does not return false, it
    raises the [ValueError] ("Invalid salt") of the package; false is
    answered only for a hash string of bcrypt shape. *)
Theorem verify_password_malformed kdf plain_password hashed_password :
  (Bcrypt.bcrypt_shaped hashed_password = false ->
   Auth.verify_password kdf plain_password hashed_password
   = raise (ValueError "Invalid salt"))
  /\ (Auth.verify_password kdf plain_password hashed_password = ret false ->
      Bcrypt.bcrypt_shaped hashed_password = true).
Proof.
  unfold Auth.verify_password. split.
  - apply checkpw_unshaped.
  - intros Hfalse.
    destruct (Bcrypt.bcrypt_shaped hashed_password) eqn:E; [reflexivity |].
    rewrite (checkpw_unshaped kdf plain_password _ E) in Hfalse.
    discriminate.
Qed.

Lemma verify_password_malformed_witness :
  Bcrypt.bcrypt_shaped "$1$md5salt$digest" = false
  /\ Auth.verify_password Reference.echo_kdf "Passw0rd!" "$1$md5salt$digest"
     = raise (ValueError "Invalid salt").
Proof.
  split; [reflexivity |].
  apply (proj1 (verify_password_malformed Reference.echo_kdf "Passw0rd!"
                  "$1$md5salt$digest")).
  reflexivity.
Defined.

(** The claim of C3 at the password Passw0rd! and the hash string
    not-a-hash, which has a single field: the call raises. *)
Lemma verify_password_counterexample :
  Bcrypt.bcrypt_shaped "not-a-hash" = false
  /\ Auth.verify_password Reference.echo_kdf "Passw0rd!" "not-a-hash"
     = raise (ValueError "Invalid salt")
  /\ Auth.verify_password Reference.echo_kdf "Passw0rd!" "not-a-hash"
     <> ret false.
Proof.
  split; [vm_compute; reflexivity |].
  split; [vm_compute; reflexivity | vm_compute; discriminate].
Qed.

(** ** Bearer headers *)

Lemma append_cons (x : ascii) (a b : string) :
  String x a +:+ b = String x (a +:+ b).
Proof. reflexivity. Qed.

Lemma append_assoc (a b c : string) : (a +:+ b) +:+ c = a +:+ (b +:+ c).
Proof.
  induction a as [| x a IH]; [reflexivity |].
  rewrite !append_cons, IH. reflexivity.
Qed.

Lemma append_empty (a : string) : a +:+ EmptyString = a.
Proof.
  induction a as [| x a IH]; [reflexivity |].
  rewrite append_cons, IH. reflexivity.
Qed.

Lemma split_go_word cur s :
  Jwt.no_space s = true ->
  cur +:+ s <> EmptyString ->
  Py.split_go cur s = [cur +:+ s].
Proof.
  revert cur. induction s as [| c s IH]; intros cur Hns Hne; simpl.
  - rewrite append_empty in *. destruct cur; [contradiction | reflexivity].
  - simpl in Hns. apply andb_true_iff in Hns as [Hc Hs].
    apply negb_true_iff in Hc. rewrite Hc.
    rewrite IH; [| exact Hs |].
    + rewrite append_assoc. reflexivity.
    + rewrite append_assoc. destruct cur; discriminate.
Qed.

Lemma split_go_first cur w c rest :
  Jwt.no_space w = true ->
  Py.isspace c = true ->
  cur +:+ w <> EmptyString ->
  Py.split_go cur (w +:+ String c rest)
  = (cur +:+ w) :: Py.split_go EmptyString rest.
Proof.
  revert cur. induction w as [| x w IH]; intros cur Hns Hc Hne.
  - rewrite append_empty in *.
    change (EmptyString +:+ String c rest) with (String c rest).
    cbn [Py.split_go]. rewrite Hc.
    destruct cur; [contradiction | reflexivity].
  - rewrite append_cons. cbn [Py.split_go].
    cbn [Jwt.no_space] in Hns. apply andb_true_iff in Hns as [Hx Hw].
    apply negb_true_iff in Hx. rewrite Hx.
    rewrite IH; [| exact Hw | exact Hc |].
    + rewrite append_assoc. reflexivity.
    + rewrite append_assoc. destruct cur; discriminate.
Qed.

(** A scheme, one space and a token split into the two. *)
Lemma split_two scheme token :
  Jwt.compact scheme = true ->
  Jwt.compact token = true ->
  Py.split (scheme +:+ " " +:+ token) = [scheme; token].
Proof.
  intros Hs Ht. unfold Py.split.
  change (" " +:+ token) with (String " " token).
  rewrite split_go_first.
  - rewrite (split_go_word EmptyString token); [reflexivity | |].
    + destruct token; [discriminate | exact Ht].
    + destruct token; discriminate.
  - destruct scheme; [discriminate | exact Hs].
  - reflexivity.
  - destruct scheme; discriminate.
Qed.

Lemma split_bearer token :
  Jwt.compact token = true ->
  Py.split ("Bearer " +:+ token) = ["Bearer"; token].
Proof.
  intros Ht. apply (split_two "Bearer" token); [reflexivity | exact Ht].
Qed.

(** ** Tokens *)

Section Tokens.
Context `{Jwt.Codec}.
Variable settings : Settings.

Lemma not_expired (e : Z) (now : Q) :
  (now < inject_Z e)%Q -> Qle_bool (inject_Z e) now = false.
Proof.
  intros Hlt. destruct (Qle_bool (inject_Z e) now) eqn:E; [| reflexivity].
  apply Qle_bool_iff in E. exfalso. apply (Qlt_not_le _ _ Hlt E).
Qed.

(** What [decode_token] returns was signed under the configured key. *)
Lemma decode_token_signed now token p :
  Auth.decode_token settings now token = ret p ->
  Jwt.jws_decode token (jwt_secret settings) [jwt_algorithm settings]
  = Some p.
Proof.
  unfold Auth.decode_token, Jwt.decode.
  destruct (Jwt.jws_decode token _ _) as [q |]; [| discriminate].
  destruct (Dict.get q "exp") as [[? | e | ?] |]; try discriminate.
  - destruct (Qle_bool (inject_Z e) now); [discriminate |].
    intros [= ->]. reflexivity.
  - intros [= ->]. reflexivity.
Qed.

Lemma decode_token_expired now token p e :
  Jwt.jws_decode token (jwt_secret settings) [jwt_algorithm settings]
  = Some p ->
  Dict.get p "exp" = Some (Jwt.JInt e) ->
  (inject_Z e <= now)%Q ->
  Auth.decode_token settings now token
  = raise (HTTPException Auth.HTTP_401_UNAUTHORIZED "Token has expired"
                         Auth.bearer_headers).
Proof.
  intros Hsig Hexp Hle. unfold Auth.decode_token, Jwt.decode.
  rewrite Hsig, Hexp. apply Qle_bool_iff in Hle. rewrite Hle. reflexivity.
Qed.

Lemma decode_token_unsigned now token :
  Jwt.jws_decode token (jwt_secret settings) [jwt_algorithm settings] = None ->
  Auth.decode_token settings now token
  = raise (HTTPException Auth.HTTP_401_UNAUTHORIZED "Invalid token"
                         Auth.bearer_headers).
Proof.
  intros Hsig. unfold Auth.decode_token, Jwt.decode. rewrite Hsig.
  reflexivity.
Qed.

Lemma decode_token_later now later token p e :
  Auth.decode_token settings now token = ret p ->
  Dict.get p "exp" = Some (Jwt.JInt e) ->
  (later < inject_Z e)%Q ->
  Auth.decode_token settings later token = ret p.
Proof.
  intros Hp Hexp Hlt. apply decode_token_signed in Hp.
  unfold Auth.decode_token, Jwt.decode. rewrite Hp, Hexp.
  rewrite (not_expired _ _ Hlt). reflexivity.
Qed.

Lemma token_data_exp p principal :
  Auth.token_data p = ret principal ->
  Dict.get p "exp" = Some (Jwt.JInt (Auth.exp principal)).
Proof.
  unfold Auth.token_data, Auth.item, Py.bind.
  destruct (Dict.get p "user_id") as [u |]; [| discriminate].
  destruct (Dict.get p "tenant_id") as [t |]; [| discriminate].
  destruct (Dict.get p "username") as [n |]; [| discriminate].
  destruct (Dict.get p "role") as [r |]; [| discriminate].
  destruct (Dict.get p "exp") as [x |]; [| discriminate].
  cbn. destruct (Auth.str_field u); [discriminate |].
  destruct (Auth.str_field t); [discriminate |].
  destruct (Auth.str_field n); [discriminate |].
  destruct (Auth.str_field r); [discriminate |].
  destruct x; try discriminate. intros [= <-]. reflexivity.
Qed.

(** A principal that was resolved stays resolvable up to its expiry. *)
Lemma get_current_user_later now later authorization principal :
  Auth.get_current_user settings now authorization = ret principal ->
  (later < inject_Z (Auth.exp principal))%Q ->
  Auth.get_current_user settings later authorization = ret principal.
Proof.
  unfold Auth.get_current_user.
  destruct authorization as [[| c a] |]; try discriminate.
  destruct (Py.split (String c a)) as [| scheme [| token [| ? ?]]];
    try discriminate.
  destruct (negb (Py.lower scheme =? "bearer")%string); [discriminate |].
  destruct (Auth.decode_token settings now token) as [e | p] eqn:Hd;
    [discriminate |].
  cbn [Py.bind].
  destruct (negb (Auth.claim_is p "type" "access")) eqn:Hk; [discriminate |].
  intros Htd Hlt.
  rewrite (decode_token_later _ _ _ _ _ Hd (token_data_exp _ _ Htd) Hlt).
  unfold Py.ret at 1. cbn [Py.bind]. rewrite Hk. exact Htd.
Qed.

Hypothesis supported : Jwt.jws_supported (jwt_algorithm settings) = true.

Lemma access_token_signed issued user_id tenant_id username role :
  Jwt.jws_decode
    (Auth.create_access_token settings issued user_id tenant_id username role)
    (jwt_secret settings) [jwt_algorithm settings]
  = Some (Auth.access_claims settings issued user_id tenant_id username role).
Proof.
  unfold Auth.create_access_token, Jwt.encode.
  rewrite Jwt.jws_decode_encode; [reflexivity | reflexivity | exact supported].
Qed.

Lemma refresh_token_signed issued user_id tenant_id :
  Jwt.jws_decode
    (Auth.create_refresh_token settings issued user_id tenant_id)
    (jwt_secret settings) [jwt_algorithm settings]
  = Some (Auth.refresh_claims settings issued user_id tenant_id).
Proof.
  unfold Auth.create_refresh_token, Jwt.encode.
  rewrite Jwt.jws_decode_encode; [reflexivity | reflexivity | exact supported].
Qed.

Lemma decode_access_token issued now user_id tenant_id username role :
  (now < inject_Z (Auth.access_expiry settings issued))%Q ->
  Auth.decode_token settings now
    (Auth.create_access_token settings issued user_id tenant_id username role)
  = ret (Auth.access_claims settings issued user_id tenant_id username role).
Proof.
  intros Hlive. unfold Auth.decode_token, Jwt.decode.
  rewrite access_token_signed.
  change (Dict.get (Auth.access_claims settings issued user_id tenant_id
                      username role) "exp")
    with (Some (Jwt.JInt (Auth.access_expiry settings issued))).
  cbv beta iota. rewrite (not_expired _ _ Hlive). reflexivity.
Qed.

Lemma decode_refresh_token issued now user_id tenant_id :
  (now < inject_Z (Auth.refresh_expiry settings issued))%Q ->
  Auth.decode_token settings now
    (Auth.create_refresh_token settings issued user_id tenant_id)
  = ret (Auth.refresh_claims settings issued user_id tenant_id).
Proof.
  intros Hlive. unfold Auth.decode_token, Jwt.decode.
  rewrite refresh_token_signed.
  change (Dict.get (Auth.refresh_claims settings issued user_id tenant_id) "exp")
    with (Some (Jwt.JInt (Auth.refresh_expiry settings issued))).
  cbv beta iota. rewrite (not_expired _ _ Hlive). reflexivity.
Qed.

(** C4. An access token issued for [(user_id, tenant_id, username, role)]
    and presented as a Bearer credential at any instant strictly before its
    expiry (its exp claim, the whole seconds of issue time plus the access
    lifetime) resolves to the principal with these four values. *)
Theorem access_token_round_trip issued now user_id tenant_id username role :
  (now < inject_Z (Auth.access_expiry settings issued))%Q ->
  Auth.get_current_user settings now
    (Some ("Bearer " +:+
           Auth.create_access_token settings issued
             user_id tenant_id username role))
  = ret {| Auth.user_id := user_id;
           Auth.tenant_id := tenant_id;
           Auth.username := username;
           Auth.role := role;
           Auth.exp := Auth.access_expiry settings issued |}.
Proof.
  intros Hlive. unfold Auth.get_current_user.
  rewrite split_bearer by apply Jwt.jws_encode_compact.
  change ("Bearer " +:+ ?t) with (String "B" ("earer " +:+ t)).
  cbv iota.
  change (Py.lower "Bearer") with "bearer".
  change (negb ("bearer" =? "bearer")%string) with false. cbv iota.
  rewrite (decode_access_token _ _ _ _ _ _ Hlive).
  reflexivity.
Qed.

End Tokens.

Lemma access_token_round_trip_witness :
  Jwt.jws_supported (jwt_algorithm default_settings) = true
  /\ (1799 < inject_Z (Auth.access_expiry default_settings 0))%Q
  /\ Auth.get_current_user default_settings 1799
       (Some ("Bearer " +:+
              Auth.create_access_token default_settings 0
                "u1" "t1" "alice" "admin"))
     = ret {| Auth.user_id := "u1";
              Auth.tenant_id := "t1";
              Auth.username := "alice";
              Auth.role := "admin";
              Auth.exp := Auth.access_expiry default_settings 0 |}.
Proof.
  split; [reflexivity |]. split; [reflexivity |].
  apply (@access_token_round_trip Reference.word_codec default_settings
           eq_refl 0%Q 1799%Q "u1" "t1" "alice" "admin").
  reflexivity.
Defined.

(** ** Handlers, step by step *)

Lemma bindM_ok {A B} (m : M A) (k : A -> M B) s a s1 :
  m s = (ret a, s1) -> bindM m k s = k a s1.
Proof. intros Hm. unfold bindM. rewrite Hm. reflexivity. Qed.

Lemma bindM_err {A B} (m : M A) (k : A -> M B) s e s1 :
  m s = (raise e, s1) -> bindM m k s = (raise e, s1).
Proof. intros Hm. unfold bindM. rewrite Hm. reflexivity. Qed.

Lemma lift_ok {A} (r : result A) (a : A) s :
  r = ret a -> lift r s = (ret a, s).
Proof. intros ->. reflexivity. Qed.

(** ** The revocation set under the handlers *)

Lemma grows_pure {A} (a : A) : grows (pure a).
Proof. intros s. reflexivity. Qed.

Lemma grows_throw {A} (e : exn) : grows (@throw A e).
Proof. intros s. reflexivity. Qed.

Lemma grows_lift {A} (r : result A) : grows (lift r).
Proof. intros s. reflexivity. Qed.

Lemma grows_gets {A} (f : state -> A) : grows (gets f).
Proof. intros s. reflexivity. Qed.

Lemma grows_modify (f : state -> state) :
  (forall s, blacklisted_tokens s ⊆ blacklisted_tokens (f s)) ->
  grows (modify f).
Proof. intros Hf s. apply Hf. Qed.

Lemma grows_bind {A B} (m : M A) (k : A -> M B) :
  grows m -> (forall a, grows (k a)) -> grows (bindM m k).
Proof.
  intros Hm Hk s. unfold bindM. specialize (Hm s).
  destruct (m s) as [[e | a] s1]; cbn in *; [exact Hm |].
  etransitivity; [exact Hm | apply Hk].
Qed.

Create HintDb frame.
#[local] Hint Resolve grows_pure grows_throw grows_lift grows_gets : frame.

(** One step through the body of a handler: a bind, a store update that
    leaves the revocation set alone or adds to it, a branch. *)
Ltac frame_step :=
  match goal with
  | |- grows (bindM _ _) => apply grows_bind; [| intros ?]
  | |- grows (modify _) => apply grows_modify; intros ?; cbn; set_solver
  | |- grows (if ?b then _ else _) => destruct b
  | |- grows (match ?x with _ => _ end) => destruct x
  | |- grows (let _ := _ in _) => cbv zeta
  | |- grows _ => solve [auto with frame]
  end.

Ltac frame := repeat frame_step.

Section Revocation.
Context `{Jwt.Codec}.
Variable kdf : string -> string -> string -> string -> option string.
Variable settings : Settings.

Lemma grows_check_rate_limit request user_id now :
  grows (check_rate_limit settings request user_id now).
Proof. unfold check_rate_limit. frame. Qed.

Lemma grows_tenant_user user_id current_user :
  grows (tenant_user user_id current_user).
Proof. unfold tenant_user. frame. Qed.

Lemma grows_tenant_file file_id current_user :
  grows (tenant_file file_id current_user).
Proof. unfold tenant_file. frame. Qed.

#[local] Hint Resolve grows_check_rate_limit grows_tenant_user
  grows_tenant_file : frame.

Lemma grows_handle op now :
  is_reset op = false -> grows (handle kdf settings op now).
Proof.
  destruct op; cbn [is_reset handle]; intros Hop; try discriminate.
  all: unfold health_check, register_tenant, login, refresh_tokens, logout,
    list_users, create_user, get_user, update_user, delete_user,
    create_users_bulk, upload_file, download_file, list_files, delete_file,
    list_all_tenants, get_system_stats.
  all: frame.
Qed.

Lemma run_grows trace s :
  no_reset trace = true ->
  blacklisted_tokens s ⊆ blacklisted_tokens (run kdf settings trace s).
Proof.
  revert s. induction trace as [| [op now] trace IH]; intros s Hnr.
  - reflexivity.
  - cbn in Hnr. apply andb_true_iff in Hnr as [Hop Hrest].
    apply negb_true_iff in Hop. cbn [run].
    etransitivity; [apply (grows_handle op now Hop s) |].
    apply IH. exact Hrest.
Qed.

(** C9, as amended. Every operation other than the test-only reset leaves
    the set of revoked token strings a superset of what it was, and so does
    every run of such operations; the reset endpoint (/test/reset) empties
    the set along with the other stores. *)
Theorem revocation_monotone :
  (forall op now s,
     is_reset op = false ->
     blacklisted_tokens s
       ⊆ blacklisted_tokens (snd (handle kdf settings op now s)))
  /\ (forall trace s,
        no_reset trace = true ->
        blacklisted_tokens s
          ⊆ blacklisted_tokens (run kdf settings trace s))
  /\ (forall now s,
        blacklisted_tokens (snd (handle kdf settings ResetAllData now s))
        = ∅).
Proof.
  split; [| split].
  - intros op now s Hop. apply (grows_handle op now Hop s).
  - intros trace s Hnr. apply run_grows. exact Hnr.
  - intros now s. reflexivity.
Qed.

End Revocation.

Lemma revocation_monotone_witness :
  is_reset (RefreshTokens Example.alice_refresh) = false
  /\ blacklisted_tokens Example.one_tenant
       ⊆ blacklisted_tokens
           (snd (handle (H := Reference.word_codec) Reference.echo_kdf
                   default_settings (RefreshTokens Example.alice_refresh)
                   1 Example.one_tenant)).
Proof.
  split; [reflexivity |].
  apply (proj1 (@revocation_monotone Reference.word_codec Reference.echo_kdf
                  default_settings)
               (RefreshTokens Example.alice_refresh) 1%Q Example.one_tenant).
  reflexivity.
Defined.

(** The claim of C9 at the reset endpoint: a set that holds one revoked
    token is not contained in the set the reset leaves. *)
Lemma revocation_monotone_counterexample :
  ~ (blacklisted_tokens
       (with_blacklisted_tokens Example.one_tenant {[Example.alice_refresh]})
     ⊆ blacklisted_tokens
         (snd (handle (H := Reference.word_codec) Reference.echo_kdf
                 default_settings ResetAllData 2
                 (with_blacklisted_tokens Example.one_tenant
                    {[Example.alice_refresh]})))).
Proof.
  change (~ ({[Example.alice_refresh]} ⊆ (∅ : gset string))).
  set_solver.
Qed.

(** ** Refresh *)

Section Refresh.
Context `{Jwt.Codec}.
Variable kdf : string -> string -> string -> string -> option string.
Variable settings : Settings.

Lemma refresh_tokens_decode_error token now s e :
  Auth.decode_token settings now token = raise e ->
  refresh_tokens settings token now s = (raise e, s).
Proof.
  intros Hd. unfold refresh_tokens, bindM, lift. rewrite Hd. reflexivity.
Qed.

Lemma refresh_tokens_wrong_kind token now s p :
  Auth.decode_token settings now token = ret p ->
  Auth.claim_is p "type" "refresh" = false ->
  refresh_tokens settings token now s
  = (raise (Auth.unauthorized "Invalid token type"), s).
Proof.
  intros Hd Hk. unfold refresh_tokens, bindM, lift. rewrite Hd. cbn.
  rewrite Hk. reflexivity.
Qed.

Lemma refresh_tokens_revoked token now s p :
  Auth.decode_token settings now token = ret p ->
  Auth.claim_is p "type" "refresh" = true ->
  token ∈ blacklisted_tokens s ->
  refresh_tokens settings token now s
  = (raise (Auth.unauthorized "Token has been revoked"), s).
Proof.
  intros Hd Hk Hin. unfold refresh_tokens, bindM, lift, gets. rewrite Hd. cbn.
  rewrite Hk. cbn. rewrite bool_decide_eq_true_2 by exact Hin. reflexivity.
Qed.

Lemma refresh_tokens_rotate token now s p v user :
  Auth.decode_token settings now token = ret p ->
  Auth.claim_is p "type" "refresh" = true ->
  token ∉ blacklisted_tokens s ->
  Auth.item p "user_id" = ret v ->
  lookup_user (users_db s) v = Some user ->
  UserRow.is_active user = true ->
  refresh_tokens settings token now s
  = (ret (TokenPairResponse (token_pair settings now user)),
     with_blacklisted_tokens s ({[token]} ∪ blacklisted_tokens s)).
Proof.
  intros Hd Hk Hnin Hu Hrow Hact.
  unfold refresh_tokens, bindM, lift, gets, modify, pure. rewrite Hd. cbn.
  rewrite Hk. cbn. rewrite bool_decide_eq_false_2 by exact Hnin.
  rewrite Hu. cbn. rewrite Hrow, Hact. reflexivity.
Qed.

(** What a successful refresh went through. *)
Lemma refresh_tokens_ok_inv token now s r s' :
  refresh_tokens settings token now s = (ret r, s') ->
  exists p v user,
    Auth.decode_token settings now token = ret p
    /\ Auth.claim_is p "type" "refresh" = true
    /\ (token ∉ blacklisted_tokens s)
    /\ Auth.item p "user_id" = ret v
    /\ lookup_user (users_db s) v = Some user
    /\ UserRow.is_active user = true
    /\ r = TokenPairResponse (token_pair settings now user)
    /\ s' = with_blacklisted_tokens s ({[token]} ∪ blacklisted_tokens s).
Proof.
  unfold refresh_tokens, bindM, lift, gets, modify, pure, throw.
  destruct (Auth.decode_token settings now token) as [e | p] eqn:Hd;
    [discriminate |].
  cbn. destruct (Auth.claim_is p "type" "refresh") eqn:Hk; [| discriminate].
  cbn. destruct (bool_decide (token ∈ blacklisted_tokens s)) eqn:Hb;
    [discriminate |].
  apply bool_decide_eq_false in Hb.
  destruct (Auth.item p "user_id") as [e | v] eqn:Hu; [discriminate |].
  cbn. destruct (lookup_user (users_db s) v) as [user |] eqn:Hrow;
    [| discriminate].
  destruct (UserRow.is_active user) eqn:Hact; [| discriminate].
  cbn. intros [= <- <-]. exists p, v, user. repeat split; assumption.
Qed.

(** The only way to the "revoked" answer. *)
Lemma refresh_tokens_revoked_inv token now s s' :
  refresh_tokens settings token now s
  = (raise (Auth.unauthorized "Token has been revoked"), s') ->
  exists p,
    Auth.decode_token settings now token = ret p
    /\ Auth.claim_is p "type" "refresh" = true
    /\ (token ∈ blacklisted_tokens s).
Proof.
  unfold refresh_tokens, bindM, lift, gets, modify, pure, throw.
  destruct (Auth.decode_token settings now token) as [e | p] eqn:Hd.
  - unfold Auth.decode_token in Hd.
    destruct (Jwt.decode _ _ _ _) as [[|] | ?]; try discriminate;
      injection Hd as <-; discriminate.
  - cbn. destruct (Auth.claim_is p "type" "refresh") eqn:Hk; [| discriminate].
    cbn. destruct (bool_decide (token ∈ blacklisted_tokens s)) eqn:Hb.
    + apply bool_decide_eq_true in Hb. intros _. exists p. auto.
    + destruct (Auth.item p "user_id") as [e | v] eqn:Hu.
      * unfold Auth.item in Hu.
        destruct (Dict.get p "user_id"); [discriminate |].
        injection Hu as <-. discriminate.
      * cbn. destruct (lookup_user (users_db s) v) as [user |];
          [| discriminate].
        destruct (UserRow.is_active user); discriminate.
Qed.

(** C5. [refresh_tokens] decodes first: a token that does not verify under
    the key answers "Invalid token" and a well-signed token whose exp is not
    after [now] answers "Token has expired", whatever the revocation set
    holds, the presented string included. A well-signed, unexpired token
    whose type is not refresh answers "Invalid token type". The answer
    "Token has been revoked" is given to a well-signed, unexpired token of
    type refresh that is in the revocation set, and to no other. *)
Theorem refresh_check_order token now s :
  (Jwt.jws_decode token (jwt_secret settings) [jwt_algorithm settings] = None ->
   refresh_tokens settings token now s
   = (raise (HTTPException Auth.HTTP_401_UNAUTHORIZED "Invalid token"
                           Auth.bearer_headers), s))
  /\ (forall p e,
        Jwt.jws_decode token (jwt_secret settings) [jwt_algorithm settings]
        = Some p ->
        Dict.get p "exp" = Some (Jwt.JInt e) ->
        (inject_Z e <= now)%Q ->
        refresh_tokens settings token now s
        = (raise (HTTPException Auth.HTTP_401_UNAUTHORIZED "Token has expired"
                                Auth.bearer_headers), s))
  /\ (forall p,
        Auth.decode_token settings now token = ret p ->
        Auth.claim_is p "type" "refresh" = false ->
        refresh_tokens settings token now s
        = (raise (Auth.unauthorized "Invalid token type"), s))
  /\ (forall p,
        Auth.decode_token settings now token = ret p ->
        Auth.claim_is p "type" "refresh" = true ->
        token ∈ blacklisted_tokens s ->
        refresh_tokens settings token now s
        = (raise (Auth.unauthorized "Token has been revoked"), s))
  /\ (forall s',
        refresh_tokens settings token now s
        = (raise (Auth.unauthorized "Token has been revoked"), s') ->
        exists p,
          Auth.decode_token settings now token = ret p
          /\ Auth.claim_is p "type" "refresh" = true
          /\ (token ∈ blacklisted_tokens s)).
Proof.
  split; [| split; [| split; [| split]]].
  - intros Hsig. apply refresh_tokens_decode_error.
    apply decode_token_unsigned. exact Hsig.
  - intros p e Hsig Hexp Hle. apply refresh_tokens_decode_error.
    apply (decode_token_expired settings now token p e Hsig Hexp Hle).
  - intros p. apply refresh_tokens_wrong_kind.
  - intros p. apply refresh_tokens_revoked.
  - intros s'. apply refresh_tokens_revoked_inv.
Qed.

Hypothesis supported : Jwt.jws_supported (jwt_algorithm settings) = true.

(** Tokens that differ in what they sign differ as strings. *)
Lemma access_token_new now user token p :
  Auth.decode_token settings now token = ret p ->
  Auth.claim_is p "type" "refresh" = true ->
  Auth.access_token (token_pair settings now user) <> token.
Proof.
  intros Hd Hk Heq. apply decode_token_signed in Hd.
  rewrite <- Heq in Hd. cbn [Auth.access_token token_pair] in Hd.
  rewrite (access_token_signed settings supported) in Hd.
  injection Hd as <-. discriminate.
Qed.

Lemma refresh_token_new now user token p :
  Auth.decode_token settings now token = ret p ->
  Dict.get p "exp" <> Some (Jwt.JInt (Auth.refresh_expiry settings now)) ->
  Auth.refresh_token (token_pair settings now user) <> token.
Proof.
  intros Hd Hexp Heq. apply decode_token_signed in Hd.
  rewrite <- Heq in Hd. cbn [Auth.refresh_token token_pair] in Hd.
  rewrite (refresh_token_signed settings supported) in Hd.
  injection Hd as <-. apply Hexp. reflexivity.
Qed.

Lemma access_tokens_differ issued now user_id tenant_id username role
    user_id' tenant_id' username' role' :
  Auth.access_expiry settings issued <> Auth.access_expiry settings now ->
  Auth.create_access_token settings now user_id tenant_id username role
  <> Auth.create_access_token settings issued user_id' tenant_id' username'
       role'.
Proof.
  intros Hexp Heq.
  pose proof (access_token_signed settings supported now user_id tenant_id
                username role) as Hd.
  rewrite Heq, (access_token_signed settings supported) in Hd.
  injection Hd as _ _ _ _ Hd. congruence.
Qed.

Lemma refresh_tokens_differ issued now user_id tenant_id user_id'
    tenant_id' :
  Auth.refresh_expiry settings issued <> Auth.refresh_expiry settings now ->
  Auth.create_refresh_token settings now user_id tenant_id
  <> Auth.create_refresh_token settings issued user_id' tenant_id'.
Proof.
  intros Hexp Heq.
  pose proof (refresh_token_signed settings supported now user_id tenant_id)
    as Hd.
  rewrite Heq, (refresh_token_signed settings supported) in Hd.
  injection Hd as _ _ Hd. congruence.
Qed.

(** C6, as amended. A first presentation of a valid, unrevoked refresh
    token of an existing active user succeeds, returns the access and
    refresh pair issued at that instant for the user's row, and puts the
    presented string into the revocation set in the same step. The access
    token of the pair is never the presented string; its refresh token is a
    string other than the presented one whenever the exp claim of the
    presented token is not the expiry second this call computes; and both
    differ from every token issued with another expiry second. After any
    run of operations other than the test-only reset, the presented string
    is still in the set, presenting it again never succeeds, and while it
    is unexpired the answer is "Token has been revoked". *)
Theorem refresh_rotation token now s p v user :
  Auth.decode_token settings now token = ret p ->
  Auth.claim_is p "type" "refresh" = true ->
  token ∉ blacklisted_tokens s ->
  Auth.item p "user_id" = ret v ->
  lookup_user (users_db s) v = Some user ->
  UserRow.is_active user = true ->
  refresh_tokens settings token now s
  = (ret (TokenPairResponse (token_pair settings now user)),
     with_blacklisted_tokens s ({[token]} ∪ blacklisted_tokens s))
  /\ Auth.access_token (token_pair settings now user) <> token
  /\ (Dict.get p "exp" <> Some (Jwt.JInt (Auth.refresh_expiry settings now)) ->
      Auth.refresh_token (token_pair settings now user) <> token)
  /\ (forall issued user_id tenant_id username role,
        Auth.access_expiry settings issued
          <> Auth.access_expiry settings now ->
        Auth.access_token (token_pair settings now user)
        <> Auth.create_access_token settings issued user_id tenant_id
             username role)
  /\ (forall issued user_id tenant_id,
        Auth.refresh_expiry settings issued
          <> Auth.refresh_expiry settings now ->
        Auth.refresh_token (token_pair settings now user)
        <> Auth.create_refresh_token settings issued user_id tenant_id)
  /\ forall trace later,
       no_reset trace = true ->
       token ∈ blacklisted_tokens
                 (run kdf settings trace
                    (with_blacklisted_tokens s
                       ({[token]} ∪ blacklisted_tokens s)))
       /\ (forall r s3,
             refresh_tokens settings token later
               (run kdf settings trace
                  (with_blacklisted_tokens s
                     ({[token]} ∪ blacklisted_tokens s)))
             <> (ret r, s3))
       /\ (forall p',
             Auth.decode_token settings later token = ret p' ->
             refresh_tokens settings token later
               (run kdf settings trace
                  (with_blacklisted_tokens s
                     ({[token]} ∪ blacklisted_tokens s)))
             = (raise (Auth.unauthorized "Token has been revoked"),
                run kdf settings trace
                  (with_blacklisted_tokens s
                     ({[token]} ∪ blacklisted_tokens s)))).
Proof.
  intros Hd Hk Hnin Hu Hrow Hact.
  split; [apply (refresh_tokens_rotate _ _ _ _ _ _ Hd Hk Hnin Hu Hrow Hact) |].
  split; [apply (access_token_new now user token p Hd Hk) |].
  split; [apply (refresh_token_new now user token p Hd) |].
  split; [intros issued user_id tenant_id username role;
          apply access_tokens_differ |].
  split; [intros issued user_id tenant_id; apply refresh_tokens_differ |].
  intros trace later Hnr.
  set (s1 := with_blacklisted_tokens s ({[token]} ∪ blacklisted_tokens s)).
  assert (Hin : token ∈ blacklisted_tokens (run kdf settings trace s1)).
  { apply (run_grows kdf settings trace s1 Hnr). cbn. set_solver. }
  split; [exact Hin |]. split.
  - intros r s3 Hok.
    destruct (refresh_tokens_ok_inv _ _ _ _ _ Hok)
      as (? & ? & ? & _ & _ & Hout & _).
    exact (Hout Hin).
  - intros p' Hd'.
    assert (p' = p) as ->.
    { apply decode_token_signed in Hd, Hd'. congruence. }
    apply (refresh_tokens_revoked _ _ _ _ Hd' Hk Hin).
Qed.

(** C7. A refresh token is signed over exactly four claims, user_id,
    tenant_id, exp and type, the last being refresh: it carries no username
    and no role. A refresh with a valid, unrevoked refresh token of an
    active user succeeds, and the access token it returns is the one issued
    for the id, tenant, username and role of the row that [users_db] holds
    at that moment under the token's user_id: these are the username and
    role it carries, whatever the presented token held. No refresh
    succeeds in any other way. *)
Theorem refresh_token_claims :
  (forall issued user_id tenant_id,
     Auth.create_refresh_token settings issued user_id tenant_id
     = Jwt.jws_encode (Auth.refresh_claims settings issued user_id tenant_id)
         (jwt_secret settings) (jwt_algorithm settings)
     /\ Jwt.jws_decode
          (Auth.create_refresh_token settings issued user_id tenant_id)
          (jwt_secret settings) [jwt_algorithm settings]
        = Some (Auth.refresh_claims settings issued user_id tenant_id)
     /\ map fst (Auth.refresh_claims settings issued user_id tenant_id)
        = ["user_id"; "tenant_id"; "exp"; "type"]
     /\ Dict.get (Auth.refresh_claims settings issued user_id tenant_id) "type"
        = Some (Jwt.JStr "refresh")
     /\ Dict.get (Auth.refresh_claims settings issued user_id tenant_id)
          "username" = None
     /\ Dict.get (Auth.refresh_claims settings issued user_id tenant_id)
          "role" = None)
  /\ (forall token now s p user_id user,
        Auth.decode_token settings now token = ret p ->
        Auth.claim_is p "type" "refresh" = true ->
        token ∉ blacklisted_tokens s ->
        Dict.get p "user_id" = Some (Jwt.JStr user_id) ->
        Dict.get (users_db s) user_id = Some user ->
        UserRow.is_active user = true ->
        exists pair s',
          refresh_tokens settings token now s
          = (ret (TokenPairResponse pair), s')
          /\ Auth.access_token pair
             = Auth.create_access_token settings now (UserRow.id user)
                 (UserRow.tenant_id user) (UserRow.username user)
                 (UserRow.role user)
          /\ Jwt.jws_decode (Auth.access_token pair)
               (jwt_secret settings) [jwt_algorithm settings]
             = Some (Auth.access_claims settings now (UserRow.id user)
                       (UserRow.tenant_id user) (UserRow.username user)
                       (UserRow.role user))
          /\ Dict.get (Auth.access_claims settings now (UserRow.id user)
                         (UserRow.tenant_id user) (UserRow.username user)
                         (UserRow.role user)) "username"
             = Some (Jwt.JStr (UserRow.username user))
          /\ Dict.get (Auth.access_claims settings now (UserRow.id user)
                         (UserRow.tenant_id user) (UserRow.username user)
                         (UserRow.role user)) "role"
             = Some (Jwt.JStr (UserRow.role user)))
  /\ (forall token now s pair s',
        refresh_tokens settings token now s
        = (ret (TokenPairResponse pair), s') ->
        exists p user_id user,
          Auth.decode_token settings now token = ret p
          /\ Dict.get p "user_id" = Some (Jwt.JStr user_id)
          /\ Dict.get (users_db s) user_id = Some user
          /\ Auth.access_token pair
             = Auth.create_access_token settings now (UserRow.id user)
                 (UserRow.tenant_id user) (UserRow.username user)
                 (UserRow.role user)
          /\ Jwt.jws_decode (Auth.access_token pair)
               (jwt_secret settings) [jwt_algorithm settings]
             = Some (Auth.access_claims settings now (UserRow.id user)
                       (UserRow.tenant_id user) (UserRow.username user)
                       (UserRow.role user))
          /\ Dict.get (Auth.access_claims settings now (UserRow.id user)
                         (UserRow.tenant_id user) (UserRow.username user)
                         (UserRow.role user)) "username"
             = Some (Jwt.JStr (UserRow.username user))
          /\ Dict.get (Auth.access_claims settings now (UserRow.id user)
                         (UserRow.tenant_id user) (UserRow.username user)
                         (UserRow.role user)) "role"
             = Some (Jwt.JStr (UserRow.role user))).
Proof.
  split; [| split].
  - intros issued user_id tenant_id.
    split; [reflexivity |].
    split; [apply (refresh_token_signed settings supported) |].
    repeat split; reflexivity.
  - intros token now s p user_id user Hd Hk Hnin Hu Hrow Hact.
    exists (token_pair settings now user),
      (with_blacklisted_tokens s ({[token]} ∪ blacklisted_tokens s)).
    split.
    { apply (refresh_tokens_rotate _ _ _ p (Jwt.JStr user_id) user
               Hd Hk Hnin); [| exact Hrow | exact Hact].
      unfold Auth.item. rewrite Hu. reflexivity. }
    split; [reflexivity |].
    split; [apply (access_token_signed settings supported) |].
    split; reflexivity.
  - intros token now s pair s' Hok.
    destruct (refresh_tokens_ok_inv _ _ _ _ _ Hok)
      as (p & v & user & Hd & _ & _ & Hu & Hrow & _ & Hr & _).
    injection Hr as ->.
    destruct v as [user_id | ? | ?]; try discriminate.
    exists p, user_id, user.
    split; [exact Hd |]. split.
    { unfold Auth.item in Hu. destruct (Dict.get p "user_id");
        [injection Hu as ->; reflexivity | discriminate]. }
    split; [exact Hrow |]. split; [reflexivity |].
    split; [apply (access_token_signed settings supported) |].
    split; reflexivity.
Qed.

End Refresh.

(** An expired refresh token that is also listed as revoked is reported as
    expired. *)
Lemma refresh_check_order_witness :
  (Example.alice_refresh
    ∈ blacklisted_tokens
        (with_blacklisted_tokens Example.one_tenant {[Example.alice_refresh]}))
  /\ (inject_Z (Auth.refresh_expiry default_settings 0) <= 604800)%Q
  /\ refresh_tokens (H := Reference.word_codec) default_settings
       Example.alice_refresh 604800
       (with_blacklisted_tokens Example.one_tenant {[Example.alice_refresh]})
     = (raise (HTTPException Auth.HTTP_401_UNAUTHORIZED "Token has expired"
                             Auth.bearer_headers),
        with_blacklisted_tokens Example.one_tenant {[Example.alice_refresh]}).
Proof.
  split; [cbn; set_solver |].
  split; [vm_compute; discriminate |].
  apply (proj1 (proj2 (@refresh_check_order Reference.word_codec
                         default_settings Example.alice_refresh 604800%Q
                         (with_blacklisted_tokens Example.one_tenant
                            {[Example.alice_refresh]})))
               (Auth.refresh_claims default_settings 0 "u1" "t1")
               (Auth.refresh_expiry default_settings 0)).
  - vm_compute. reflexivity.
  - reflexivity.
  - vm_compute. discriminate.
Defined.

Lemma refresh_rotation_witness :
  Auth.decode_token (H := Reference.word_codec) default_settings 1
    Example.alice_refresh
  = ret (Auth.refresh_claims default_settings 0 "u1" "t1")
  /\ (Example.alice_refresh ∉ blacklisted_tokens Example.one_tenant)
  /\ refresh_tokens (H := Reference.word_codec) default_settings
       Example.alice_refresh 1 Example.one_tenant
     = (ret (TokenPairResponse
               (token_pair (H := Reference.word_codec) default_settings 1
                  Example.alice)),
        with_blacklisted_tokens Example.one_tenant
          ({[Example.alice_refresh]} ∪ blacklisted_tokens Example.one_tenant))
  /\ Auth.access_token
       (token_pair (H := Reference.word_codec) default_settings 1
          Example.alice)
     <> Example.alice_refresh
  /\ Auth.refresh_token
       (token_pair (H := Reference.word_codec) default_settings 1
          Example.alice)
     <> Example.alice_refresh.
Proof.
  assert (Hd : Auth.decode_token (H := Reference.word_codec)
                 default_settings 1 Example.alice_refresh
               = ret (Auth.refresh_claims default_settings 0 "u1" "t1"))
    by (apply (@decode_refresh_token Reference.word_codec default_settings
                 eq_refl 0%Q 1%Q "u1" "t1"); reflexivity).
  split; [exact Hd |].
  split; [apply not_elem_of_empty |].
  destruct (@refresh_rotation Reference.word_codec Reference.echo_kdf
              default_settings eq_refl Example.alice_refresh 1%Q
              Example.one_tenant
              (Auth.refresh_claims default_settings 0 "u1" "t1")
              (Jwt.JStr "u1") Example.alice
              Hd eq_refl (not_elem_of_empty _) eq_refl eq_refl eq_refl)
    as (Hrun & Haccess & Hrefresh & _).
  split; [exact Hrun |]. split; [exact Haccess |].
  apply Hrefresh. discriminate.
Defined.

(** The claim of C6 on the run: refresh, reset, refresh again. The first
    presentation succeeds and revokes the string; the reset takes it out of
    the revocation set; the second presentation is then not answered
    "Token has been revoked" but "User not found or inactive". *)
Lemma refresh_rotation_counterexample :
  is_ok (fst (handle (H := Reference.word_codec) Reference.echo_kdf
                default_settings (RefreshTokens Example.alice_refresh) 1
                Example.one_tenant)) = true
  /\ (Example.alice_refresh
       ∈ blacklisted_tokens
           (run (H := Reference.word_codec) Reference.echo_kdf
              default_settings
              [(RefreshTokens Example.alice_refresh, 1%Q)]
              Example.one_tenant))
  /\ (Example.alice_refresh
       ∉ blacklisted_tokens
           (run (H := Reference.word_codec) Reference.echo_kdf
              default_settings
              [(RefreshTokens Example.alice_refresh, 1%Q);
               (ResetAllData, 2%Q)]
              Example.one_tenant))
  /\ fst (handle (H := Reference.word_codec) Reference.echo_kdf
            default_settings (RefreshTokens Example.alice_refresh) 3
            (run (H := Reference.word_codec) Reference.echo_kdf
               default_settings
               [(RefreshTokens Example.alice_refresh, 1%Q);
                (ResetAllData, 2%Q)]
               Example.one_tenant))
     = raise (Auth.unauthorized "User not found or inactive").
Proof.
  assert (Hfirst :
    refresh_tokens (H := Reference.word_codec) default_settings
      Example.alice_refresh 1 Example.one_tenant
    = (ret (TokenPairResponse
              (token_pair (H := Reference.word_codec) default_settings 1
                 Example.alice)),
       with_blacklisted_tokens Example.one_tenant
         ({[Example.alice_refresh]} ∪ blacklisted_tokens Example.one_tenant))).
  { apply (refresh_tokens_rotate default_settings _ _ _
             (Auth.refresh_claims default_settings 0 "u1" "t1")
             (Jwt.JStr "u1") Example.alice);
      [vm_compute; reflexivity | reflexivity | apply not_elem_of_empty
      | reflexivity | reflexivity | reflexivity]. }
  cbn [run handle fst snd]. rewrite Hfirst. cbn [fst snd].
  split; [reflexivity |].
  split; [cbn; set_solver |].
  change (snd (reset_all_data _)) with initial_state.
  split; [apply not_elem_of_empty |].
  vm_compute. reflexivity.
Qed.

(** A refresh token issued to alice while she was an administrator, presented
    after her row was renamed and demoted: the new access token carries the
    username and the role of the row. *)
Lemma refresh_token_claims_witness :
  Jwt.jws_supported (Codec := Reference.word_codec)
    (jwt_algorithm default_settings) = true
  /\ Jwt.jws_decode Example.alice_refresh
       (jwt_secret default_settings) [jwt_algorithm default_settings]
     = Some (Auth.refresh_claims default_settings 0 "u1" "t1")
  /\ Dict.get (users_db Scenario.after_demotion) "u1"
     = Some Scenario.alice_demoted
  /\ exists pair s',
       refresh_tokens (H := Reference.word_codec) default_settings
         Example.alice_refresh 5 Scenario.after_demotion
       = (ret (TokenPairResponse pair), s')
       /\ Auth.access_token pair
          = Auth.create_access_token default_settings 5 "u1" "t1"
              "alice.smith" "user"
       /\ Jwt.jws_decode (Auth.access_token pair)
            (jwt_secret default_settings) [jwt_algorithm default_settings]
          = Some (Auth.access_claims default_settings 5 "u1" "t1"
                    "alice.smith" "user")
       /\ Dict.get (Auth.access_claims default_settings 5 "u1" "t1"
                      "alice.smith" "user") "username"
          = Some (Jwt.JStr "alice.smith")
       /\ Dict.get (Auth.access_claims default_settings 5 "u1" "t1"
                      "alice.smith" "user") "role"
          = Some (Jwt.JStr "user").
Proof.
  split; [reflexivity |].
  split; [apply (proj1 (proj2 (proj1 (@refresh_token_claims
                                        Reference.word_codec
                                        default_settings eq_refl)
                                     0%Q "u1" "t1"))) |].
  split; [reflexivity |].
  apply (proj1 (proj2 (@refresh_token_claims Reference.word_codec
                         default_settings eq_refl))
           Example.alice_refresh 5%Q Scenario.after_demotion
           (Auth.refresh_claims default_settings 0 "u1" "t1") "u1"
           Scenario.alice_demoted).
  - apply (@decode_refresh_token Reference.word_codec default_settings
             eq_refl 0%Q 5%Q "u1" "t1").
    reflexivity.
  - reflexivity.
  - apply not_elem_of_empty.
  - reflexivity.
  - reflexivity.
  - reflexivity.
Defined.

(** ** Tenant isolation *)

Section Isolation.
Context `{Jwt.Codec}.
Variable settings : Settings.

(** The admission check reads and writes the rate windows only. *)
Lemma check_rate_limit_frame request user_id now s :
  exists r store,
    check_rate_limit settings request user_id now s
    = (r, with_rate_limit_store s store)
    /\ forall s2, rate_limit_store s2 = rate_limit_store s ->
         check_rate_limit settings request user_id now s2
         = (r, with_rate_limit_store s2 store).
Proof.
  rewrite check_rate_limit_eq. cbn zeta.
  destruct (rate_limit_per_minute settings <=? _) eqn:E.
  - eexists _, _. split; [reflexivity |]. intros s2 Hs2.
    rewrite check_rate_limit_eq. cbn zeta. rewrite Hs2, E. reflexivity.
  - eexists _, _. split; [reflexivity |]. intros s2 Hs2.
    rewrite check_rate_limit_eq. cbn zeta. rewrite Hs2, E. reflexivity.
Qed.

Lemma tenant_user_hidden user_id current_user s :
  match Dict.get (users_db s) user_id with
  | None => True
  | Some row => UserRow.tenant_id row <> Auth.tenant_id current_user
  end ->
  tenant_user user_id current_user s = (raise (not_found "User" user_id), s).
Proof.
  unfold tenant_user, bindM, gets, throw. cbn.
  destruct (Dict.get (users_db s) user_id) as [row |]; [| reflexivity].
  intros Hten. apply String.eqb_neq in Hten. rewrite Hten. reflexivity.
Qed.

Lemma tenant_file_hidden file_id current_user s :
  match Dict.get (files_db s) file_id with
  | None => True
  | Some meta => FileMetadata.tenant_id meta <> Auth.tenant_id current_user
  end ->
  tenant_file file_id current_user s = (raise (not_found "File" file_id), s).
Proof.
  unfold tenant_file, bindM, gets, throw. cbn.
  destruct (Dict.get (files_db s) file_id) as [meta |]; [| reflexivity].
  intros Hten. apply String.eqb_neq in Hten. rewrite Hten. reflexivity.
Qed.

Lemma get_user_hidden request user_id authorization now current_user
    s_foreign s_absent row :
  Auth.get_current_user settings now authorization = ret current_user ->
  rate_limit_store s_foreign = rate_limit_store s_absent ->
  Dict.get (users_db s_foreign) user_id = Some row ->
  UserRow.tenant_id row <> Auth.tenant_id current_user ->
  Dict.get (users_db s_absent) user_id = None ->
  exists e,
    fst (get_user settings request user_id authorization now s_foreign)
    = raise e
    /\ fst (get_user settings request user_id authorization now s_absent)
       = raise e
    /\ (is_ok (fst (check_rate_limit settings request
                      (Auth.user_id current_user) now s_foreign)) = true ->
        e = not_found "User" user_id).
Proof.
  intros Hauth Hrate Hrow Hten Habs.
  destruct (check_rate_limit_frame request (Auth.user_id current_user) now
              s_foreign) as (r & store & Hf & Hsame).
  specialize (Hsame s_absent (eq_sym Hrate)).
  unfold get_user.
  rewrite !(bindM_ok _ _ _ _ _ (lift_ok _ _ _ Hauth)).
  destruct r as [e | []].
  - rewrite (bindM_err _ _ _ _ _ Hf), (bindM_err _ _ _ _ _ Hsame).
    exists e. split; [reflexivity |]. split; [reflexivity |].
    rewrite Hf. discriminate.
  - rewrite (bindM_ok _ _ _ _ _ Hf), (bindM_ok _ _ _ _ _ Hsame).
    rewrite (bindM_err _ _ _ _ _
               (tenant_user_hidden _ current_user
                  (with_rate_limit_store s_foreign store)
                  ltac:(cbn; rewrite Hrow; exact Hten))).
    rewrite (bindM_err _ _ _ _ _
               (tenant_user_hidden _ current_user
                  (with_rate_limit_store s_absent store)
                  ltac:(cbn; rewrite Habs; exact I))).
    exists (not_found "User" user_id). auto.
Qed.

Lemma download_file_hidden request file_id authorization now current_user
    s_foreign s_absent meta :
  Auth.get_current_user settings now authorization = ret current_user ->
  rate_limit_store s_foreign = rate_limit_store s_absent ->
  Dict.get (files_db s_foreign) file_id = Some meta ->
  FileMetadata.tenant_id meta <> Auth.tenant_id current_user ->
  Dict.get (files_db s_absent) file_id = None ->
  exists e,
    fst (download_file settings request file_id authorization now s_foreign)
    = raise e
    /\ fst (download_file settings request file_id authorization now s_absent)
       = raise e
    /\ (is_ok (fst (check_rate_limit settings request
                      (Auth.user_id current_user) now s_foreign)) = true ->
        e = not_found "File" file_id).
Proof.
  intros Hauth Hrate Hrow Hten Habs.
  destruct (check_rate_limit_frame request (Auth.user_id current_user) now
              s_foreign) as (r & store & Hf & Hsame).
  specialize (Hsame s_absent (eq_sym Hrate)).
  unfold download_file.
  rewrite !(bindM_ok _ _ _ _ _ (lift_ok _ _ _ Hauth)).
  destruct r as [e | []].
  - rewrite (bindM_err _ _ _ _ _ Hf), (bindM_err _ _ _ _ _ Hsame).
    exists e. split; [reflexivity |]. split; [reflexivity |].
    rewrite Hf. discriminate.
  - rewrite (bindM_ok _ _ _ _ _ Hf), (bindM_ok _ _ _ _ _ Hsame).
    rewrite (bindM_err _ _ _ _ _
               (tenant_file_hidden _ current_user
                  (with_rate_limit_store s_foreign store)
                  ltac:(cbn; rewrite Hrow; exact Hten))).
    rewrite (bindM_err _ _ _ _ _
               (tenant_file_hidden _ current_user
                  (with_rate_limit_store s_absent store)
                  ltac:(cbn; rewrite Habs; exact I))).
    exists (not_found "File" file_id). auto.
Qed.

(** C8. Take a principal and two states with the same rate windows: in one
    the requested id is a row of another tenant, in the other no row has
    that id. [get_user] answers both with the same exception, and so does
    [download_file]; once the admission check has let the request through,
    that exception is the 404 whose detail says that the user (the file)
    with this id was not found. *)
Theorem tenant_isolation request id authorization now current_user
    s_foreign s_absent :
  Auth.get_current_user settings now authorization = ret current_user ->
  rate_limit_store s_foreign = rate_limit_store s_absent ->
  (forall row,
     Dict.get (users_db s_foreign) id = Some row ->
     UserRow.tenant_id row <> Auth.tenant_id current_user ->
     Dict.get (users_db s_absent) id = None ->
     exists e,
       fst (get_user settings request id authorization now s_foreign)
       = raise e
       /\ fst (get_user settings request id authorization now s_absent)
          = raise e
       /\ (is_ok (fst (check_rate_limit settings request
                         (Auth.user_id current_user) now s_foreign)) = true ->
           e = HTTPException HTTP_404_NOT_FOUND
                 ("User with id '" +:+ id +:+ "' not found") []))
  /\ (forall meta,
        Dict.get (files_db s_foreign) id = Some meta ->
        FileMetadata.tenant_id meta <> Auth.tenant_id current_user ->
        Dict.get (files_db s_absent) id = None ->
        exists e,
          fst (download_file settings request id authorization now s_foreign)
          = raise e
          /\ fst (download_file settings request id authorization now s_absent)
             = raise e
          /\ (is_ok (fst (check_rate_limit settings request
                            (Auth.user_id current_user) now s_foreign))
              = true ->
              e = HTTPException HTTP_404_NOT_FOUND
                    ("File with id '" +:+ id +:+ "' not found") [])).
Proof.
  intros Hauth Hrate. split.
  - intros row Hrow Hten Habs.
    apply (get_user_hidden request id authorization now current_user
             s_foreign s_absent row Hauth Hrate Hrow Hten Habs).
  - intros meta Hrow Hten Habs.
    apply (download_file_hidden request id authorization now current_user
             s_foreign s_absent meta Hauth Hrate Hrow Hten Habs).
Qed.

End Isolation.

Lemma tenant_isolation_witness :
  Auth.get_current_user (H := Reference.word_codec) default_settings 5
    Example.alice_bearer = ret Example.alice_principal
  /\ rate_limit_store Example.two_tenants
     = rate_limit_store Example.one_tenant
  /\ exists e,
       fst (get_user (H := Reference.word_codec) default_settings
              Example.get_bob "u2" Example.alice_bearer 5
              Example.two_tenants) = raise e
       /\ fst (get_user (H := Reference.word_codec) default_settings
                 Example.get_bob "u2" Example.alice_bearer 5
                 Example.one_tenant) = raise e
       /\ (is_ok (fst (check_rate_limit default_settings Example.get_bob
                         (Auth.user_id Example.alice_principal) 5
                         Example.two_tenants)) = true ->
           e = HTTPException HTTP_404_NOT_FOUND
                 ("User with id '" +:+ "u2" +:+ "' not found") []).
Proof.
  split; [vm_compute; reflexivity |].
  split; [reflexivity |].
  apply (proj1 (@tenant_isolation Reference.word_codec default_settings
                  Example.get_bob "u2" Example.alice_bearer 5%Q
                  Example.alice_principal Example.two_tenants
                  Example.one_tenant
                  ltac:(vm_compute; reflexivity) eq_refl)
               Example.bob);
    [reflexivity | discriminate | reflexivity].
Defined.

(** ** Logout *)

Section Logout.
Context `{Jwt.Codec}.
Variable settings : Settings.

Lemma logout_state authorization now s :
  snd (logout settings authorization now s) = s.
Proof.
  unfold logout, bindM, lift, pure.
  destruct (Auth.get_current_user settings now authorization); reflexivity.
Qed.

Lemma logout_ok_inv authorization now s r s' :
  logout settings authorization now s = (ret r, s') ->
  r = MessageResponse "Logged out successfully"
  /\ s' = s
  /\ exists principal,
       Auth.get_current_user settings now authorization = ret principal.
Proof.
  unfold logout, bindM, lift, pure.
  destruct (Auth.get_current_user settings now authorization)
    as [e | principal]; [discriminate |].
  intros [= <- <-]. eauto.
Qed.

Lemma logout_ok authorization now s principal :
  Auth.get_current_user settings now authorization = ret principal ->
  logout settings authorization now s
  = (ret (MessageResponse "Logged out successfully"), s).
Proof.
  intros Hauth. unfold logout, bindM, lift, pure. rewrite Hauth. reflexivity.
Qed.

(** C10. [logout] leaves every store as it was, whether it succeeds or
    not; in particular the revocation set is unchanged and the presented
    token is not put into it. After a successful logout the same credential
    resolves to the same principal at every instant before the token's
    expiry, so a further authenticated call with it (a second logout, say)
    succeeds. *)
Theorem logout_leaves_auth_state authorization now s :
  snd (logout settings authorization now s) = s
  /\ (forall r s',
        logout settings authorization now s = (ret r, s') ->
        r = MessageResponse "Logged out successfully"
        /\ s' = s
        /\ blacklisted_tokens s' = blacklisted_tokens s
        /\ exists principal,
             Auth.get_current_user settings now authorization = ret principal
             /\ forall later,
                  (later < inject_Z (Auth.exp principal))%Q ->
                  Auth.get_current_user settings later authorization
                  = ret principal
                  /\ logout settings authorization later s'
                     = (ret (MessageResponse "Logged out successfully"), s')).
Proof.
  split; [apply logout_state |].
  intros r s' Hout.
  destruct (logout_ok_inv _ _ _ _ _ Hout) as (-> & -> & principal & Hauth).
  repeat split. exists principal. split; [exact Hauth |].
  intros later Hlater.
  pose proof (get_current_user_later settings now later authorization
                principal Hauth Hlater) as Hstill.
  split; [exact Hstill | apply (logout_ok _ _ _ _ Hstill)].
Qed.

End Logout.

Lemma logout_leaves_auth_state_witness :
  logout (H := Reference.word_codec) default_settings Example.alice_bearer 5
    Example.one_tenant
  = (ret (MessageResponse "Logged out successfully"), Example.one_tenant)
  /\ blacklisted_tokens Example.one_tenant
     = blacklisted_tokens Example.one_tenant
  /\ exists principal,
       Auth.get_current_user (H := Reference.word_codec) default_settings 5
         Example.alice_bearer = ret principal
       /\ forall later,
            (later < inject_Z (Auth.exp principal))%Q ->
            Auth.get_current_user (H := Reference.word_codec)
              default_settings later Example.alice_bearer = ret principal
            /\ logout (H := Reference.word_codec) default_settings
                 Example.alice_bearer later Example.one_tenant
               = (ret (MessageResponse "Logged out successfully"),
                  Example.one_tenant).
Proof.
  split; [vm_compute; reflexivity |].
  apply (proj2 (proj2 (proj2 (@logout_leaves_auth_state Reference.word_codec
                  default_settings Example.alice_bearer 5%Q
                  Example.one_tenant)
               (MessageResponse "Logged out successfully")
               Example.one_tenant
               ltac:(vm_compute; reflexivity)))).
Defined.

(** * Further properties *)

Import Route Window Rows.

(** ** Credentials *)

Section Credentials.
Context `{Jwt.Codec}.
Variable settings : Settings.

(** What [get_current_user] does with a scheme and a token. *)
Lemma get_current_user_header scheme token now :
  Jwt.compact scheme = true ->
  Jwt.compact token = true ->
  Auth.get_current_user settings now (Some (scheme +:+ " " +:+ token))
  = if negb (Py.lower scheme =? "bearer")%string then
      raise (HTTPException Auth.HTTP_401_UNAUTHORIZED
               "Invalid authentication scheme" Auth.bearer_headers)
    else
      Py.bind (Auth.decode_token settings now token) (fun p =>
        if negb (Auth.claim_is p "type" "access") then
          raise (HTTPException Auth.HTTP_401_UNAUTHORIZED
                   "Invalid token type" [])
        else Auth.token_data p).
Proof.
  intros Hs Ht. unfold Auth.get_current_user.
  rewrite (split_two scheme token Hs Ht).
  destruct scheme as [| c scheme]; [discriminate |].
  rewrite append_cons. reflexivity.
Qed.

Lemma get_current_user_bearer token now :
  Jwt.compact token = true ->
  Auth.get_current_user settings now (Some ("Bearer " +:+ token))
  = Py.bind (Auth.decode_token settings now token) (fun p =>
      if negb (Auth.claim_is p "type" "access") then
        raise (HTTPException Auth.HTTP_401_UNAUTHORIZED
                 "Invalid token type" [])
      else Auth.token_data p).
Proof.
  intros Ht.
  change ("Bearer " +:+ token) with ("Bearer" +:+ " " +:+ token).
  rewrite (get_current_user_header "Bearer" token now eq_refl Ht).
  reflexivity.
Qed.

(** X1. [get_current_user] reads the header as a scheme and a token; the
    scheme is compared in lower case. Any spelling of bearer is treated as
    [Bearer]; every other scheme is refused with 401 "Invalid authentication
    scheme", whatever the token is. *)
Theorem bearer_scheme_case_insensitive scheme token now :
  Jwt.compact scheme = true ->
  Jwt.compact token = true ->
  (Py.lower scheme = "bearer" ->
   Auth.get_current_user settings now (Some (scheme +:+ " " +:+ token))
   = Auth.get_current_user settings now (Some ("Bearer " +:+ token)))
  /\ (Py.lower scheme <> "bearer" ->
      Auth.get_current_user settings now (Some (scheme +:+ " " +:+ token))
      = raise (HTTPException Auth.HTTP_401_UNAUTHORIZED
                 "Invalid authentication scheme" Auth.bearer_headers)).
Proof.
  intros Hs Ht. rewrite (get_current_user_header scheme token now Hs Ht).
  split.
  - intros Hb. rewrite (get_current_user_bearer token now Ht), Hb.
    reflexivity.
  - intros Hb. apply String.eqb_neq in Hb. rewrite Hb. reflexivity.
Qed.

Hypothesis supported : Jwt.jws_supported (jwt_algorithm settings) = true.

(** X2. A refresh token is no credential: presented as a bearer token
    before it expires, a token of [create_refresh_token] is refused by
    [get_current_user] with 401 "Invalid token type". *)
Theorem refresh_token_is_no_credential issued now user_id tenant_id :
  (now < inject_Z (Auth.refresh_expiry settings issued))%Q ->
  Auth.get_current_user settings now
    (Some ("Bearer " +:+
           Auth.create_refresh_token settings issued user_id tenant_id))
  = raise (HTTPException Auth.HTTP_401_UNAUTHORIZED "Invalid token type" []).
Proof.
  intros Hlive.
  rewrite get_current_user_bearer by apply Jwt.jws_encode_compact.
  rewrite (decode_refresh_token settings supported _ _ _ _ Hlive).
  reflexivity.
Qed.

(** X3. An access token cannot be refreshed: [refresh_tokens] refuses a
    live token of [create_access_token] with 401 "Invalid token type" and
    leaves the state as it was. *)
Theorem access_token_is_no_refresh issued now user_id tenant_id username role s :
  (now < inject_Z (Auth.access_expiry settings issued))%Q ->
  refresh_tokens settings
    (Auth.create_access_token settings issued user_id tenant_id username role)
    now s
  = (raise (Auth.unauthorized "Invalid token type"), s).
Proof.
  intros Hlive.
  apply (refresh_tokens_wrong_kind settings _ now s
           (Auth.access_claims settings issued user_id tenant_id username role)).
  - apply (decode_access_token settings supported). exact Hlive.
  - reflexivity.
Qed.

(** X4. From the instant of its exp claim on (the whole seconds of issue
    time plus the configured minutes), an access token is refused by
    [get_current_user] with 401 "Token has expired". *)
Theorem access_token_expires issued now user_id tenant_id username role :
  (inject_Z (Auth.access_expiry settings issued) <= now)%Q ->
  Auth.get_current_user settings now
    (Some ("Bearer " +:+
           Auth.create_access_token settings issued
             user_id tenant_id username role))
  = raise (HTTPException Auth.HTTP_401_UNAUTHORIZED "Token has expired"
             Auth.bearer_headers).
Proof.
  intros Hdead.
  rewrite get_current_user_bearer by apply Jwt.jws_encode_compact.
  rewrite (decode_token_expired settings now _
             (Auth.access_claims settings issued user_id tenant_id username role)
             (Auth.access_expiry settings issued)
             (access_token_signed settings supported _ _ _ _ _) eq_refl Hdead).
  reflexivity.
Qed.

(** X5. [require_admin] on a live access token: the principal of the token
    when its role claim is exactly "admin", and 403 "Admin access required"
    for every other role. *)
Theorem admin_gate issued now user_id tenant_id username role :
  (now < inject_Z (Auth.access_expiry settings issued))%Q ->
  Auth.require_admin settings now
    (Some ("Bearer " +:+
           Auth.create_access_token settings issued
             user_id tenant_id username role))
  = if (role =? "admin")%string then
      ret {| Auth.user_id := user_id;
             Auth.tenant_id := tenant_id;
             Auth.username := username;
             Auth.role := role;
             Auth.exp := Auth.access_expiry settings issued |}
    else
      raise (HTTPException Auth.HTTP_403_FORBIDDEN "Admin access required" []).
Proof.
  intros Hlive. unfold Auth.require_admin.
  rewrite get_current_user_bearer by apply Jwt.jws_encode_compact.
  rewrite (decode_access_token settings supported _ _ _ _ _ _ Hlive).
  cbn. destruct (role =? "admin")%string; reflexivity.
Qed.
Lemma resolve_access_token issued now user_id tenant_id username role :
  (now < inject_Z (Auth.access_expiry settings issued))%Q ->
  Auth.get_current_user settings now
    (Some ("Bearer " +:+
           Auth.create_access_token settings issued
             user_id tenant_id username role))
  = ret {| Auth.user_id := user_id;
           Auth.tenant_id := tenant_id;
           Auth.username := username;
           Auth.role := role;
           Auth.exp := Auth.access_expiry settings issued |}.
Proof.
  intros Hlive.
  rewrite get_current_user_bearer by apply Jwt.jws_encode_compact.
  rewrite (decode_access_token settings supported _ _ _ _ _ _ Hlive).
  reflexivity.
Qed.
End Credentials.

(** ** What a request may write *)

#[local] Instance same_data_preorder : PreOrder same_data.
Proof.
  split.
  - intros []. reflexivity.
  - intros s1 s2 s3 H12 H23. unfold same_data in *.
    rewrite H23 at 1. rewrite H12 at 1. destruct s1; reflexivity.
Qed.

#[local] Instance same_revoked_preorder : PreOrder same_revoked.
Proof.
  split.
  - intros s. reflexivity.
  - intros s1 s2 s3 H12 H23. unfold same_revoked in *. congruence.
Qed.

Section Preserves.
Variable R : state -> state -> Prop.
Context `{!PreOrder R}.

Lemma preserves_pure {A} (a : A) : preserves R (pure a).
Proof. intros s. reflexivity. Qed.
Lemma preserves_throw {A} (e : exn) : preserves R (@throw A e).
Proof. intros s. reflexivity. Qed.
Lemma preserves_lift {A} (r : result A) : preserves R (lift r).
Proof. intros s. reflexivity. Qed.
Lemma preserves_gets {A} (f : state -> A) : preserves R (gets f).
Proof. intros s. reflexivity. Qed.
Lemma preserves_modify (f : state -> state) :
  (forall s, R s (f s)) -> preserves R (modify f).
Proof. intros Hf s. apply Hf. Qed.
Lemma preserves_bind {A B} (m : M A) (k : A -> M B) :
  preserves R m -> (forall a, preserves R (k a)) -> preserves R (bindM m k).
Proof.
  intros Hm Hk s. unfold bindM. specialize (Hm s).
  destruct (m s) as [[e | a] s1]; cbn in *; [exact Hm |].
  etransitivity; [exact Hm | apply Hk].
Qed.
End Preserves.

Tactic Notation "preserve_step" tactic3(side) :=
  match goal with
  | |- preserves _ (bindM _ _) => apply preserves_bind; [exact _ | | intros ?]
  | |- preserves _ (modify _) => apply preserves_modify; intros ?; side
  | |- preserves _ (pure _) => apply preserves_pure; exact _
  | |- preserves _ (throw _) => apply preserves_throw; exact _
  | |- preserves _ (lift _) => apply preserves_lift; exact _
  | |- preserves _ (gets _) => apply preserves_gets; exact _
  | |- preserves _ (if ?b then _ else _) => destruct b
  | |- preserves _ (match ?x with _ => _ end) => destruct x
  | |- preserves _ (let _ := _ in _) => cbv zeta
  | |- preserves _ _ => solve [auto with frame]
  end.

Tactic Notation "preserve" tactic3(side) := repeat (preserve_step side).

Ltac same_data_side :=
  idtac; match goal with |- same_data ?s _ => destruct s; reflexivity end.
Ltac same_revoked_side := reflexivity.

Section Frames.
Context `{Jwt.Codec}.
Variable kdf : string -> string -> string -> string -> option string.
Variable settings : Settings.

Lemma check_rate_limit_same_data request user_id now :
  preserves same_data (check_rate_limit settings request user_id now).
Proof. unfold check_rate_limit. preserve same_data_side. Qed.

Lemma tenant_user_same_data user_id cu :
  preserves same_data (tenant_user user_id cu).
Proof. unfold tenant_user. preserve same_data_side. Qed.

Lemma tenant_file_same_data file_id cu :
  preserves same_data (tenant_file file_id cu).
Proof. unfold tenant_file. preserve same_data_side. Qed.

#[local] Hint Resolve check_rate_limit_same_data tenant_user_same_data
  tenant_file_same_data : frame.

(** X6. The handlers of health, login, logout, the two listings, get_user,
    download and the two admin reports write no store but the rate
    windows: tenants, users, files, contents and the revocation set are
    after the call what they were before, whatever the outcome. *)
Theorem read_routes_write_no_data op now s :
  read_only op = true ->
  exists store,
    snd (handle kdf settings op now s) = with_rate_limit_store s store.
Proof.
  intros Hro. exists (rate_limit_store (snd (handle kdf settings op now s))).
  revert s. change (preserves same_data (handle kdf settings op now)).
  destruct op; try discriminate; cbn [handle].
  all: unfold health_check, login, logout, list_users, get_user,
    download_file, list_files, list_all_tenants, get_system_stats.
  all: preserve same_data_side.
Qed.

Lemma check_rate_limit_same_revoked request user_id now :
  preserves same_revoked (check_rate_limit settings request user_id now).
Proof. unfold check_rate_limit. preserve same_revoked_side. Qed.

Lemma tenant_user_same_revoked user_id cu :
  preserves same_revoked (tenant_user user_id cu).
Proof. unfold tenant_user. preserve same_revoked_side. Qed.

Lemma tenant_file_same_revoked file_id cu :
  preserves same_revoked (tenant_file file_id cu).
Proof. unfold tenant_file. preserve same_revoked_side. Qed.

#[local] Hint Resolve check_rate_limit_same_revoked tenant_user_same_revoked
  tenant_file_same_revoked : frame.

(** X7. Only the refresh route and the test reset write the revocation
    set: every other route, logout included, leaves [blacklisted_tokens]
    exactly as it found it. *)
Theorem revocation_set_writers op now s :
  is_refresh op = false -> is_reset op = false ->
  blacklisted_tokens (snd (handle kdf settings op now s))
  = blacklisted_tokens s.
Proof.
  intros Hrf Hrs. revert s.
  change (preserves same_revoked (handle kdf settings op now)).
  destruct op; try discriminate; cbn [handle].
  all: unfold health_check, register_tenant, login, logout,
    list_users, create_user, get_user, update_user, delete_user,
    create_users_bulk, upload_file, download_file, list_files, delete_file,
    list_all_tenants, get_system_stats.
  all: preserve same_revoked_side.
Qed.

(** X8. A refresh that is refused, for whatever reason, changes nothing:
    no token is revoked and no store is written. *)
Theorem refused_refresh_changes_nothing token now s e s' :
  refresh_tokens settings token now s = (raise e, s') -> s' = s.
Proof.
  unfold refresh_tokens, bindM, lift, gets, modify, pure, throw.
  destruct (Auth.decode_token settings now token) as [e0 | p];
    [intros [= _ <-]; reflexivity |].
  cbn. destruct (Auth.claim_is p "type" "refresh"); cbn;
    [| intros [= _ <-]; reflexivity].
  destruct (bool_decide (token ∈ blacklisted_tokens s));
    [intros [= _ <-]; reflexivity |].
  destruct (Auth.item p "user_id") as [e0 | v];
    [intros [= _ <-]; reflexivity |].
  cbn. destruct (lookup_user (users_db s) v) as [user |];
    [| intros [= _ <-]; reflexivity].
  destruct (UserRow.is_active user); [discriminate |].
  intros [= _ <-]. reflexivity.
Qed.

(** X9. Authentication comes first: when the dependency of a guarded route
    ([get_current_user], or [require_admin] on the admin routes) raises,
    the route answers with that error and the state is untouched; not even
    the rate window records the request. *)
Theorem unauthenticated_request_changes_nothing op now s e :
  principal_of settings now op = Some (raise e) ->
  handle kdf settings op now s = (raise e, s).
Proof.
  unfold principal_of.
  destruct op; cbn [authorization_of admin_only handle]; try discriminate;
    intros [= Hauth];
    unfold logout, list_users, create_user, get_user, update_user,
      delete_user, create_users_bulk, upload_file, download_file, list_files,
      delete_file, list_all_tenants, get_system_stats;
    apply bindM_err; unfold lift; rewrite Hauth; reflexivity.
Qed.

(** X10. Admission comes second: when the principal resolves and
    [check_rate_limit] refuses, the route answers with the refusal of the
    check and only the rate windows may have changed. *)
Theorem refused_request_changes_no_data op now s current_user request e s1 :
  principal_of settings now op = Some (ret current_user) ->
  request_of op = Some request ->
  check_rate_limit settings request (Auth.user_id current_user) now s
  = (raise e, s1) ->
  handle kdf settings op now s = (raise e, s1)
  /\ s1 = with_rate_limit_store s (rate_limit_store s1).
Proof.
  intros Hp Hr Hc. split.
  - unfold principal_of in Hp.
    destruct op; cbn [authorization_of admin_only request_of handle] in *;
      try discriminate; injection Hp as Hauth; injection Hr as ->;
      unfold list_users, create_user, get_user, update_user,
        delete_user, create_users_bulk, upload_file, download_file,
        list_files, delete_file, list_all_tenants, get_system_stats;
      rewrite (bindM_ok _ _ _ _ _ (lift_ok _ _ _ Hauth));
      apply bindM_err; exact Hc.
  - pose proof (check_rate_limit_same_data request
                  (Auth.user_id current_user) now s) as Hd.
    rewrite Hc in Hd. exact Hd.
Qed.
End Frames.

(** ** The rate windows *)

Lemma window_insert_ne store key key' l :
  key <> key' -> window (<[key := l]> store) key' = window store key'.
Proof. intros Hne. unfold window. rewrite lookup_insert_ne by exact Hne. reflexivity. Qed.

Lemma prune_length now l : (length (prune now l) <= length l)%nat.
Proof. apply List.filter_length_le. Qed.

Lemma prune_is_fresh now l : fresh_at now (prune now l).
Proof.
  apply List.Forall_forall. intros ts Hin. apply prune_spec in Hin. tauto.
Qed.

(** The window a check leaves behind. *)
Lemma check_rate_limit_window settings request user_id now s :
  window (rate_limit_store (snd (check_rate_limit settings request user_id now s)))
         (rate_key request user_id)
  = if rate_limit_per_minute settings
         <=? len (prune now (window (rate_limit_store s)
                                    (rate_key request user_id)))
    then prune now (window (rate_limit_store s) (rate_key request user_id))
    else prune now (window (rate_limit_store s) (rate_key request user_id))
         ++ [now].
Proof.
  rewrite check_rate_limit_eq. cbn zeta.
  destruct (rate_limit_per_minute settings <=? _); cbn; apply window_insert.
Qed.

(** X11. After every call of [check_rate_limit] the window of the key holds
    only instants less than 60 seconds old, it is no longer than the larger
    of the limit and its length before, and the window of every other key
    is untouched. *)
Theorem rate_window_invariant settings request user_id now s :
  fresh_at now
    (window (rate_limit_store
               (snd (check_rate_limit settings request user_id now s)))
            (rate_key request user_id))
  /\ len (window (rate_limit_store
                    (snd (check_rate_limit settings request user_id now s)))
                 (rate_key request user_id))
     <= Z.max (rate_limit_per_minute settings)
              (len (window (rate_limit_store s) (rate_key request user_id)))
  /\ forall key,
       key <> rate_key request user_id ->
       rate_limit_store (snd (check_rate_limit settings request user_id now s))
         !! key
       = rate_limit_store s !! key.
Proof.
  split; [| split].
  - rewrite check_rate_limit_window.
    destruct (rate_limit_per_minute settings <=? _).
    + apply prune_is_fresh.
    + apply Forall_app_2; [apply prune_is_fresh |].
      constructor; [| constructor]. lra.
  - rewrite check_rate_limit_window.
    pose proof (prune_length now (window (rate_limit_store s)
                                         (rate_key request user_id))) as Hle.
    destruct (rate_limit_per_minute settings <=? _) eqn:E.
    + unfold len. lia.
    + apply Z.leb_gt in E. unfold len in *. rewrite length_app. cbn. lia.
  - intros key Hne. rewrite check_rate_limit_eq. cbn zeta.
    destruct (rate_limit_per_minute settings <=? _); cbn;
      apply lookup_insert_ne; congruence.
Qed.

Lemma colon_split (a a' b b' : string) :
  no_colon a = true -> no_colon a' = true ->
  a +:+ ":" +:+ b = a' +:+ ":" +:+ b' ->
  a = a' /\ b = b'.
Proof.
  revert a'. induction a as [| c a IH]; intros [| c' a'] Ha Ha' Heq.
  - change (String ":" b = String ":" b') in Heq.
    injection Heq as ->. auto.
  - change (String ":" b = String c' (a' +:+ ":" +:+ b')) in Heq.
    injection Heq as <- _. discriminate.
  - change (String c (a +:+ ":" +:+ b) = String ":" b') in Heq.
    injection Heq as -> _. discriminate.
  - rewrite !append_cons in Heq. injection Heq as -> Heq.
    cbn in Ha, Ha'. apply andb_true_iff in Ha as [_ Ha].
    apply andb_true_iff in Ha' as [_ Ha'].
    destruct (IH a' Ha Ha' Heq) as [-> ->]. auto.
Qed.

Lemma rate_key_inj request request' user_id user_id' :
  no_colon user_id = true -> no_colon user_id' = true ->
  no_colon (method request) = true -> no_colon (method request') = true ->
  rate_key request user_id = rate_key request' user_id' ->
  user_id = user_id' /\ method request = method request'
  /\ url_path request = url_path request'.
Proof.
  intros Hu Hu' Hm Hm' Heq. unfold rate_key in Heq.
  destruct (colon_split _ _ _ _ Hu Hu' Heq) as [-> Heq2].
  destruct (colon_split _ _ _ _ Hm Hm' Heq2) as [-> ->]. auto.
Qed.

(** X12. The windows are kept per principal, method and path: for user ids
    and methods without a colon, two requests that differ in one of the
    three have different keys, and a check of one leaves the window of the
    other as it was. *)
Theorem rate_windows_independent settings request request' user_id user_id'
    now s :
  no_colon user_id = true -> no_colon user_id' = true ->
  no_colon (method request) = true -> no_colon (method request') = true ->
  (user_id, method request, url_path request)
    <> (user_id', method request', url_path request') ->
  rate_key request user_id <> rate_key request' user_id'
  /\ rate_limit_store (snd (check_rate_limit settings request user_id now s))
       !! rate_key request' user_id'
     = rate_limit_store s !! rate_key request' user_id'.
Proof.
  intros Hu Hu' Hm Hm' Hne.
  assert (Hk : rate_key request user_id <> rate_key request' user_id').
  { intros Heq.
    destruct (rate_key_inj _ _ _ _ Hu Hu' Hm Hm' Heq) as (Eu & Em & Ep).
    apply Hne. congruence. }
  split; [exact Hk |].
  rewrite check_rate_limit_eq. cbn zeta.
  destruct (rate_limit_per_minute settings <=? _); cbn;
    apply lookup_insert_ne; exact Hk.
Qed.




Lemma prune_prune t0 t l :
  (t0 <= t)%Q -> prune t (prune t0 l) = prune t l.
Proof.
  intros Hle. unfold prune. induction l as [| a l IH]; [reflexivity |].
  simpl. destruct (Qltb (t0 - a) 60) eqn:E0.
  - simpl. rewrite IH. reflexivity.
  - rewrite IH. apply Qltb_ge in E0.
    assert (E : Qltb (t - a) 60 = false) by (apply Qltb_ge; lra).
    rewrite E. reflexivity.
Qed.

Lemma prune_app now l1 l2 :
  prune now (l1 ++ l2) = prune now l1 ++ prune now l2.
Proof. apply List.filter_app. Qed.

Lemma prune_now now : prune now [now] = [now].
Proof.
  cbn. assert (E : Qltb (now - now) 60 = true) by (apply Qltb_lt; lra).
  rewrite E. reflexivity.
Qed.

Lemma last_cons (t : Q) (ts : list Q) (d : Q) :
  List.last (t :: ts) d = List.last ts t.
Proof.
  revert t d. induction ts as [| a ts IH]; intros t d; [reflexivity |].
  change (List.last (t :: a :: ts) d) with (List.last (a :: ts) d).
  rewrite (IH a d), (IH a t). reflexivity.
Qed.

Lemma check_rate_limit_outcome settings request user_id now s :
  fst (check_rate_limit settings request user_id now s)
  = (if rate_limit_per_minute settings
          <=? len (prune now (window (rate_limit_store s)
                                     (rate_key request user_id)))
     then match prune now (window (rate_limit_store s)
                                  (rate_key request user_id)) with
          | [] => raise IndexError
          | ts0 :: _ => raise (rate_limit_exceeded settings ts0)
          end
     else ret tt).
Proof.
  rewrite check_rate_limit_eq. cbn zeta.
  destruct (rate_limit_per_minute settings <=? _); reflexivity.
Qed.

Lemma checks_cons settings request user_id t ts s :
  checks settings request user_id (t :: ts) s
  = (fst (check_rate_limit settings request user_id t s)
       :: fst (checks settings request user_id ts
                 (snd (check_rate_limit settings request user_id t s))),
     snd (checks settings request user_id ts
            (snd (check_rate_limit settings request user_id t s)))).
Proof.
  cbn [checks].
  destruct (check_rate_limit settings request user_id t s) as [r s1].
  cbn [fst snd].
  destruct (checks settings request user_id ts s1). reflexivity.
Qed.

(** The window is the recent part of the history of admitted calls. *)
Lemma checks_window_history settings request user_id times :
  forall s prev t0,
    window (rate_limit_store s) (rate_key request user_id) = prune t0 prev ->
    ascending (t0 :: times) ->
    window (rate_limit_store (snd (checks settings request user_id times s)))
           (rate_key request user_id)
    = prune (List.last times t0)
            (prev ++ admitted times
                       (fst (checks settings request user_id times s))).
Proof.
  induction times as [| t ts IH]; intros s prev t0 Hw Hasc.
  - cbn. rewrite app_nil_r. exact Hw.
  - destruct Hasc as [Hhead Htail].
    assert (Ht : (t0 <= t)%Q) by (apply (Forall_inv Hhead)).
    rewrite checks_cons. cbn [fst snd]. rewrite last_cons.
    pose proof (check_rate_limit_window settings request user_id t s) as Hw1.
    pose proof (check_rate_limit_outcome settings request user_id t s) as Ho.
    rewrite Hw, (prune_prune _ _ _ Ht) in Hw1, Ho.
    destruct (rate_limit_per_minute settings <=? len (prune t prev)).
    + assert (Hr : exists e,
                fst (check_rate_limit settings request user_id t s) = inl e)
        by (rewrite Ho; destruct (prune t prev); eexists; reflexivity).
      destruct Hr as [e Hr]. rewrite Hr. cbn [admitted].
      apply (IH _ prev t Hw1 Htail).
    + rewrite Ho. unfold ret. cbn [admitted].
      change (prev ++ t :: ?l) with (prev ++ [t] ++ l).
      rewrite app_assoc.
      apply (IH _ (prev ++ [t]) t); [| exact Htail].
      rewrite Hw1, prune_app, prune_now. reflexivity.
Qed.

Lemma check_rate_limit_window_length settings request user_id now s :
  len (window (rate_limit_store
                 (snd (check_rate_limit settings request user_id now s)))
              (rate_key request user_id))
  <= Z.max (rate_limit_per_minute settings)
           (len (window (rate_limit_store s) (rate_key request user_id))).
Proof.
  rewrite check_rate_limit_window.
  pose proof (prune_length now (window (rate_limit_store s)
                                       (rate_key request user_id))) as Hle.
  destruct (rate_limit_per_minute settings <=? _) eqn:E.
  - unfold len. lia.
  - apply Z.leb_gt in E. unfold len in *. rewrite length_app. cbn. lia.
Qed.

Lemma checks_window_length settings request user_id times :
  forall s,
    len (window (rate_limit_store (snd (checks settings request user_id times s)))
                (rate_key request user_id))
    <= Z.max (rate_limit_per_minute settings)
             (len (window (rate_limit_store s) (rate_key request user_id))).
Proof.
  induction times as [| t ts IH]; intros s.
  - cbn. lia.
  - rewrite checks_cons. cbn [snd].
    pose proof (IH (snd (check_rate_limit settings request user_id t s))).
    pose proof (check_rate_limit_window_length settings request user_id t s).
    lia.
Qed.

(** X14. The quota is a sliding window: after any sequence of checks at
    instants that do not decrease, starting from an empty window, the
    window holds exactly the admitted instants of the last 60 seconds, and
    they are never more than the limit. *)
Theorem sliding_window_quota settings request user_id t1 times s :
  window (rate_limit_store s) (rate_key request user_id) = [] ->
  ascending (t1 :: times) ->
  0 <= rate_limit_per_minute settings ->
  window (rate_limit_store
            (snd (checks settings request user_id (t1 :: times) s)))
         (rate_key request user_id)
  = prune (List.last times t1)
          (admitted (t1 :: times)
             (fst (checks settings request user_id (t1 :: times) s)))
  /\ len (prune (List.last times t1)
            (admitted (t1 :: times)
               (fst (checks settings request user_id (t1 :: times) s))))
     <= rate_limit_per_minute settings.
Proof.
  intros Hw Hasc Hlimit.
  assert (Hhist :
    window (rate_limit_store
              (snd (checks settings request user_id (t1 :: times) s)))
           (rate_key request user_id)
    = prune (List.last times t1)
            (admitted (t1 :: times)
               (fst (checks settings request user_id (t1 :: times) s)))).
  { rewrite <- (last_cons t1 times t1).
    apply (checks_window_history settings request user_id (t1 :: times) s
             [] t1); [exact Hw |].
    split; [| exact Hasc]. constructor; [lra | apply Hasc]. }
  split; [exact Hhist |].
  rewrite <- Hhist.
  pose proof (checks_window_length settings request user_id (t1 :: times) s)
    as Hlen.
  rewrite Hw in Hlen. change (len []) with 0 in Hlen. lia.
Qed.

(** ** The dictionary *)

Lemma dict_get_set_eq {V} (d : Dict.t V) k v :
  Dict.get (Dict.set d k v) k = Some v.
Proof.
  induction d as [| [k' v'] d IH]; cbn.
  - rewrite String.eqb_refl. reflexivity.
  - destruct (k' =? k)%string eqn:E; cbn; rewrite E; [reflexivity | exact IH].
Qed.

Lemma dict_get_set_ne {V} (d : Dict.t V) k k' v :
  k <> k' -> Dict.get (Dict.set d k v) k' = Dict.get d k'.
Proof.
  intros Hne. induction d as [| [k0 v0] d IH]; cbn.
  - apply String.eqb_neq in Hne. rewrite Hne. reflexivity.
  - destruct (k0 =? k)%string eqn:E; cbn.
    + apply String.eqb_eq in E. subst k0.
      apply String.eqb_neq in Hne. rewrite Hne. reflexivity.
    + rewrite IH. reflexivity.
Qed.

Lemma dict_get_del_ne {V} (d : Dict.t V) k k' :
  k <> k' -> Dict.get (Dict.del d k) k' = Dict.get d k'.
Proof.
  intros Hne. induction d as [| [k0 v0] d IH]; cbn; [reflexivity |].
  destruct (k0 =? k)%string eqn:E; cbn.
  - apply String.eqb_eq in E. subst k0.
    apply String.eqb_neq in Hne. rewrite Hne. reflexivity.
  - rewrite IH. reflexivity.
Qed.

Lemma dict_get_none {V} (d : Dict.t V) k :
  ~ In k (map fst d) -> Dict.get d k = None.
Proof.
  induction d as [| [k0 v0] d IH]; cbn; [reflexivity |].
  intros Hnin. destruct (k0 =? k)%string eqn:E.
  - apply String.eqb_eq in E. tauto.
  - apply IH. tauto.
Qed.

Lemma dict_keys_del {V} (d : Dict.t V) k x :
  In x (map fst (Dict.del d k)) -> In x (map fst d).
Proof.
  induction d as [| [k0 v0] d IH]; cbn; [tauto |].
  destruct (k0 =? k)%string; cbn; tauto.
Qed.

Lemma dict_get_del_eq {V} (d : Dict.t V) k :
  List.NoDup (map fst d) -> Dict.get (Dict.del d k) k = None.
Proof.
  induction d as [| [k0 v0] d IH]; cbn; [reflexivity |].
  intros Hnd. apply List.NoDup_cons_iff in Hnd as [Hnin Hnd].
  destruct (k0 =? k)%string eqn:E; cbn.
  - apply String.eqb_eq in E. subst k0. apply dict_get_none. exact Hnin.
  - rewrite E. apply IH. exact Hnd.
Qed.

Lemma dict_values_set {V} (d : Dict.t V) k v :
  In v (Dict.values (Dict.set d k v)).
Proof.
  unfold Dict.values. induction d as [| [k0 v0] d IH]; cbn; [auto |].
  destruct (k0 =? k)%string; cbn; auto.
Qed.

Lemma dict_values_set_in {V} (d : Dict.t V) k v x :
  In x (Dict.values (Dict.set d k v)) -> x = v \/ In x (Dict.values d).
Proof.
  unfold Dict.values. induction d as [| [k0 v0] d IH]; cbn.
  - intros [<- | []]. auto.
  - destruct (k0 =? k)%string; cbn; intros [<- | Hin]; auto.
    destruct (IH Hin); auto.
Qed.

Lemma dict_get_in {V} (d : Dict.t V) k v :
  Dict.get d k = Some v -> In v (Dict.values d).
Proof.
  unfold Dict.values. induction d as [| [k0 v0] d IH]; cbn; [discriminate |].
  destruct (k0 =? k)%string; [intros [= ->]; auto | auto].
Qed.

(** A key of the values that stays unique when a row is written whose key
    value no other row has. *)
Lemma dict_set_unique {V B} (f : V -> B) (d : Dict.t V) k v :
  List.NoDup (map f (Dict.values d)) ->
  (forall x, In x (Dict.values d) -> f x <> f v) ->
  List.NoDup (map f (Dict.values (Dict.set d k v))).
Proof.
  unfold Dict.values. induction d as [| [k0 v0] d IH]; cbn; intros Hnd Hnew.
  - constructor; [tauto | constructor].
  - apply List.NoDup_cons_iff in Hnd as [Hnin Hnd].
    destruct (k0 =? k)%string; cbn.
    + constructor; [| exact Hnd].
      intros Hin. apply in_map_iff in Hin as (x & Hfx & Hx).
      apply (Hnew x); [right; exact Hx | exact Hfx].
    + constructor.
      * intros Hin. apply in_map_iff in Hin as (x & Hfx & Hx).
        destruct (dict_values_set_in d k v x Hx) as [-> | Hold].
        -- apply (Hnew v0); [left; reflexivity | symmetry; exact Hfx].
        -- apply Hnin. apply in_map_iff. exists x. auto.
      * apply IH; [exact Hnd |]. intros x Hx. apply Hnew. right. exact Hx.
Qed.

Section Accounts.
Context `{Jwt.Codec}.
Variable kdf : string -> string -> string -> string -> option string.
Variable settings : Settings.

Lemma register_tenant_ok_inv tenant_data tenant_id user_id salt now s r s1 :
  register_tenant kdf tenant_data tenant_id user_id salt now s = (ret r, s1) ->
  existsb (fun tenant =>
             (Py.lower (Tenant.name tenant)
                =? Py.lower (tenant_name tenant_data))%string)
          (Dict.values (tenants_db s)) = false
  /\ existsb (fun user =>
                (UserRow.username user =? admin_username tenant_data)%string)
             (Dict.values (users_db s)) = false
  /\ exists hashed,
       Auth.hash_password kdf salt (admin_password tenant_data) = ret hashed
       /\ r = RegisterResponse "Tenant registered successfully"
                tenant_id user_id
       /\ s1 = with_users_db
                 (with_tenants_db s
                    (Dict.set (tenants_db s) tenant_id
                       (tenant_row tenant_data tenant_id now)))
                 (Dict.set (users_db s) user_id
                    (admin_row tenant_data tenant_id user_id hashed now)).
Proof.
  unfold register_tenant, bindM, gets, modify, lift, throw, pure. cbn.
  destruct (existsb _ (Dict.values (tenants_db s))); [discriminate |].
  destruct (existsb _ (Dict.values (users_db s))); [discriminate |].
  cbn.
  destruct (Auth.hash_password kdf salt (admin_password tenant_data))
    as [e | hashed]; [discriminate |].
  cbn. intros [= <- <-]. split; [reflexivity |]. split; [reflexivity |].
  exists hashed. auto.
Qed.

Lemma register_tenant_name_taken tenant_data tenant_id user_id salt now s :
  existsb (fun tenant =>
             (Py.lower (Tenant.name tenant)
                =? Py.lower (tenant_name tenant_data))%string)
          (Dict.values (tenants_db s)) = true ->
  register_tenant kdf tenant_data tenant_id user_id salt now s
  = (raise (HTTPException HTTP_409_CONFLICT
              ("Tenant '" +:+ tenant_name tenant_data +:+ "' already exists")
              []), s).
Proof.
  intros Hex. unfold register_tenant.
  rewrite (bindM_ok _ _ s (tenants_db s) s) by reflexivity.
  rewrite Hex. reflexivity.
Qed.

Lemma register_tenant_username_taken tenant_data tenant_id user_id salt now
    s :
  existsb (fun tenant =>
             (Py.lower (Tenant.name tenant)
                =? Py.lower (tenant_name tenant_data))%string)
          (Dict.values (tenants_db s)) = false ->
  existsb (fun user =>
             (UserRow.username user =? admin_username tenant_data)%string)
          (Dict.values (users_db s)) = true ->
  register_tenant kdf tenant_data tenant_id user_id salt now s
  = (raise (username_exists (admin_username tenant_data)), s).
Proof.
  intros Hfree Hex. unfold register_tenant.
  rewrite (bindM_ok _ _ s (tenants_db s) s) by reflexivity.
  rewrite Hfree.
  rewrite (bindM_ok _ _ s (users_db s) s) by reflexivity.
  rewrite Hex. reflexivity.
Qed.

(** X15. After a successful registration the tenant name is taken in every
    spelling of upper and lower case (409 "Tenant ... already exists"), and
    the administrator's username is taken for every later registration
    (409 "Username ... already exists"); the refused registration writes
    nothing. *)
Theorem registered_names_are_taken tenant_data tenant_id user_id salt now s
    r s1 :
  register_tenant kdf tenant_data tenant_id user_id salt now s = (ret r, s1) ->
  (forall again tenant_id' user_id' salt' later,
     Py.lower (tenant_name again) = Py.lower (tenant_name tenant_data) ->
     register_tenant kdf again tenant_id' user_id' salt' later s1
     = (raise (HTTPException HTTP_409_CONFLICT
                 ("Tenant '" +:+ tenant_name again +:+ "' already exists")
                 []), s1))
  /\ (forall again tenant_id' user_id' salt' later,
        existsb (fun tenant =>
                   (Py.lower (Tenant.name tenant)
                      =? Py.lower (tenant_name again))%string)
                (Dict.values (tenants_db s1)) = false ->
        admin_username again = admin_username tenant_data ->
        register_tenant kdf again tenant_id' user_id' salt' later s1
        = (raise (username_exists (admin_username again)), s1)).
Proof.
  intros Hok.
  destruct (register_tenant_ok_inv _ _ _ _ _ _ _ _ Hok)
    as (_ & _ & hashed & _ & _ & ->).
  split.
  - intros again tenant_id' user_id' salt' later Hname.
    apply register_tenant_name_taken.
    apply existsb_exists. exists (tenant_row tenant_data tenant_id now).
    split; [apply dict_values_set |].
    cbn [Tenant.name tenant_row]. rewrite Hname. apply String.eqb_refl.
  - intros again tenant_id' user_id' salt' later Hfree Huser.
    apply register_tenant_username_taken; [exact Hfree |].
    apply existsb_exists.
    exists (admin_row tenant_data tenant_id user_id hashed now).
    split; [apply dict_values_set |].
    cbn [UserRow.username admin_row]. rewrite Huser. apply String.eqb_refl.
Qed.

(** The first row with a property, in a dictionary where only the row just
    written has it. *)
Lemma find_after_set {V} (p : V -> bool) (d : Dict.t V) k v :
  existsb p (Dict.values d) = false -> p v = true ->
  List.find p (Dict.values (Dict.set d k v)) = Some v.
Proof.
  unfold Dict.values. induction d as [| [k0 v0] d IH]; cbn; intros Hno Hv.
  - rewrite Hv. reflexivity.
  - apply orb_false_iff in Hno as [H0 Hno].
    destruct (k0 =? k)%string; cbn.
    + rewrite Hv. reflexivity.
    + rewrite H0. apply IH; assumption.
Qed.

Lemma login_ok_inv credentials now s r s' :
  login kdf settings credentials now s = (ret r, s') ->
  s' = s
  /\ exists user,
       List.find (fun u =>
                    (UserRow.username u =? login_username credentials)%string)
                 (Dict.values (users_db s)) = Some user
       /\ Auth.verify_password kdf (login_password credentials)
            (UserRow.password_hash user) = ret true
       /\ UserRow.is_active user = true
       /\ r = TokenPairResponse (token_pair settings now user).
Proof.
  unfold login, bindM, gets, lift, throw, pure. cbn.
  destruct (List.find _ (Dict.values (users_db s))) as [user |] eqn:Hfind;
    [| discriminate].
  destruct (Auth.verify_password kdf (login_password credentials)
              (UserRow.password_hash user)) as [e | [|]] eqn:Hv;
    try discriminate.
  cbn. destruct (UserRow.is_active user) eqn:Ha; [| discriminate].
  cbn. intros [= <- <-]. split; [reflexivity |]. exists user.
  repeat split; assumption.
Qed.

Lemma login_ok credentials now s user :
  List.find (fun u =>
               (UserRow.username u =? login_username credentials)%string)
            (Dict.values (users_db s)) = Some user ->
  Auth.verify_password kdf (login_password credentials)
    (UserRow.password_hash user) = ret true ->
  UserRow.is_active user = true ->
  login kdf settings credentials now s
  = (ret (TokenPairResponse (token_pair settings now user)), s).
Proof.
  intros Hfind Hv Ha. unfold login.
  rewrite (bindM_ok _ _ s (users_db s) s) by reflexivity.
  rewrite Hfind.
  rewrite (bindM_ok _ _ s true s) by (unfold lift; rewrite Hv; reflexivity).
  cbn [negb]. rewrite Ha. reflexivity.
Qed.

(** X16. [login] never writes the state; it answers with a token pair only
    for a stored, active row with the given username whose hash verifies
    the password, and the pair is issued for that row. An unknown username
    and a wrong password get the same 401. *)
Theorem login_issues_tokens_to_verified_users credentials now s :
  snd (login kdf settings credentials now s) = s
  /\ (forall r s',
        login kdf settings credentials now s = (ret r, s') ->
        exists user,
          In user (Dict.values (users_db s))
          /\ UserRow.username user = login_username credentials
          /\ Auth.verify_password kdf (login_password credentials)
               (UserRow.password_hash user) = ret true
          /\ UserRow.is_active user = true
          /\ r = TokenPairResponse (token_pair settings now user))
  /\ (List.find (fun u =>
                   (UserRow.username u =? login_username credentials)%string)
                (Dict.values (users_db s)) = None ->
      fst (login kdf settings credentials now s) = raise invalid_credentials)
  /\ (forall user,
        List.find (fun u =>
                     (UserRow.username u =? login_username credentials)%string)
                  (Dict.values (users_db s)) = Some user ->
        Auth.verify_password kdf (login_password credentials)
          (UserRow.password_hash user) = ret false ->
        fst (login kdf settings credentials now s) = raise invalid_credentials).
Proof.
  split; [| split; [| split]].
  - unfold login, bindM, gets, lift, throw, pure. cbn.
    destruct (List.find _ (Dict.values (users_db s))) as [user |];
      [| reflexivity].
    destruct (Auth.verify_password kdf _ _) as [e | [|]]; try reflexivity.
    cbn. destruct (UserRow.is_active user); reflexivity.
  - intros r s' Hok.
    destruct (login_ok_inv _ _ _ _ _ Hok) as (_ & user & Hfind & Hv & Ha & ->).
    exists user. apply List.find_some in Hfind as [Hin Hname].
    apply String.eqb_eq in Hname. auto.
  - intros Hnone. unfold login, bindM, gets, lift, throw, pure. cbn.
    rewrite Hnone. reflexivity.
  - intros user Hfind Hv. unfold login, bindM, gets, lift, throw, pure. cbn.
    rewrite Hfind, Hv. reflexivity.
Qed.

(** X17. Registration, then login: a successful [register_tenant] stores
    the tenant and an active administrator with the role "admin", and, for
    a bcrypt that verifies what it hashed, a login with the registered
    credentials succeeds with tokens for that administrator. *)
Theorem register_then_login tenant_data tenant_id user_id salt now s r s1
    later :
  register_tenant kdf tenant_data tenant_id user_id salt now s = (ret r, s1) ->
  (forall hashed,
     Auth.hash_password kdf salt (admin_password tenant_data) = ret hashed ->
     Auth.verify_password kdf (admin_password tenant_data) hashed = ret true) ->
  exists row,
    Dict.get (users_db s1) user_id = Some row
    /\ UserRow.role row = "admin"
    /\ UserRow.tenant_id row = tenant_id
    /\ UserRow.username row = admin_username tenant_data
    /\ Dict.get (tenants_db s1) tenant_id
       = Some (tenant_row tenant_data tenant_id now)
    /\ login kdf settings
         {| login_username := admin_username tenant_data;
            login_password := admin_password tenant_data |} later s1
       = (ret (TokenPairResponse (token_pair settings later row)), s1).
Proof.
  intros Hok Hverify.
  destruct (register_tenant_ok_inv _ _ _ _ _ _ _ _ Hok)
    as (_ & Hfree & hashed & Hhash & _ & ->).
  exists (admin_row tenant_data tenant_id user_id hashed now).
  split; [apply dict_get_set_eq |].
  split; [reflexivity |]. split; [reflexivity |]. split; [reflexivity |].
  split; [apply dict_get_set_eq |].
  apply login_ok.
  - apply find_after_set; [exact Hfree | apply String.eqb_refl].
  - apply (Hverify hashed Hhash).
  - reflexivity.
Qed.
End Accounts.

(** ** Creating users *)

Section Guarded.
Context `{Jwt.Codec}.
Variable kdf : string -> string -> string -> string -> option string.
Variable settings : Settings.

(** The three ways through a handler that resolves its principal, runs the
    admission check and then its body. *)
Lemma guarded_cases {A} (principal : result Auth.TokenData) request now
    (body : Auth.TokenData -> M A) s :
  (exists e,
     principal = raise e
     /\ bindM (lift principal) (fun current_user =>
          bindM (check_rate_limit settings request
                   (Auth.user_id current_user) now)
                (fun _ => body current_user)) s = (raise e, s))
  \/ (exists current_user store,
        principal = ret current_user
        /\ ((exists e,
               check_rate_limit settings request
                 (Auth.user_id current_user) now s
               = (raise e, with_rate_limit_store s store)
               /\ bindM (lift principal) (fun current_user =>
                    bindM (check_rate_limit settings request
                             (Auth.user_id current_user) now)
                          (fun _ => body current_user)) s
                  = (raise e, with_rate_limit_store s store))
            \/ (check_rate_limit settings request
                  (Auth.user_id current_user) now s
                = (ret tt, with_rate_limit_store s store)
                /\ bindM (lift principal) (fun current_user =>
                     bindM (check_rate_limit settings request
                              (Auth.user_id current_user) now)
                           (fun _ => body current_user)) s
                   = body current_user (with_rate_limit_store s store)))).
Proof.
  destruct principal as [e | current_user].
  - left. exists e. split; [reflexivity |]. reflexivity.
  - right.
    destruct (check_rate_limit_frame settings request
                (Auth.user_id current_user) now s) as (r & store & Hc & _).
    exists current_user, store. split; [reflexivity |].
    rewrite (bindM_ok _ _ _ _ _ (lift_ok _ _ _ eq_refl)).
    destruct r as [e | []].
    + left. exists e. split; [exact Hc |]. apply (bindM_err _ _ _ _ _ Hc).
    + right. split; [exact Hc |].
      apply (bindM_ok _ (fun _ => body current_user) _ _ _ Hc).
Qed.

(** The way through the two guards. *)
Lemma guarded_admitted {A} (principal : result Auth.TokenData) request now
    (body : Auth.TokenData -> M A) s current_user s1 :
  principal = ret current_user ->
  check_rate_limit settings request (Auth.user_id current_user) now s
  = (ret tt, s1) ->
  bindM (lift principal) (fun current_user =>
    bindM (check_rate_limit settings request (Auth.user_id current_user) now)
          (fun _ => body current_user)) s
  = body current_user s1.
Proof.
  intros Hp Hc.
  rewrite (bindM_ok _ _ _ _ _ (lift_ok _ _ _ Hp)).
  apply (bindM_ok _ (fun _ => body current_user) _ _ _ Hc).
Qed.

Lemma duplicate_scan_none rows user_data :
  duplicate_scan rows user_data = None ->
  forall row, In row rows ->
    UserRow.username row <> new_username user_data
    /\ UserRow.email row <> new_email user_data.
Proof.
  induction rows as [| user rows IH]; cbn; [tauto |].
  destruct (UserRow.username user =? new_username user_data)%string eqn:Eu;
    [discriminate |].
  destruct (UserRow.email user =? new_email user_data)%string eqn:Ee;
    [discriminate |].
  intros Hnone row [<- | Hin].
  - apply String.eqb_neq in Eu, Ee. auto.
  - apply (IH Hnone row Hin).
Qed.

(** The rows after [create_user]: as before, or one row written. *)
Lemma create_user_rows request user_data user_id salt authorization now s :
  (users_db (snd (create_user kdf settings request user_data user_id salt
                    authorization now s)) = users_db s
   /\ forall r, fst (create_user kdf settings request user_data user_id salt
                       authorization now s) <> ret r)
  \/ (exists current_user hashed,
        Auth.get_current_user settings now authorization = ret current_user
        /\ duplicate_scan (Dict.values (users_db s)) user_data = None
        /\ fst (create_user kdf settings request user_data user_id salt
                  authorization now s)
           = ret (UserResponse
                    (public_view
                       (new_user_row user_data user_id
                          (Auth.tenant_id current_user) hashed now)))
        /\ users_db (snd (create_user kdf settings request user_data user_id
                            salt authorization now s))
           = Dict.set (users_db s) user_id
               (new_user_row user_data user_id
                  (Auth.tenant_id current_user) hashed now)).
Proof.
  unfold create_user.
  match goal with
  | |- context [bindM (lift ?p) (fun x => bindM _ (fun _ => @?b x))] =>
      destruct (guarded_cases p request now b s)
        as [(e & _ & ->) | (cu & store & Hp & [(e & _ & ->) | (_ & ->)])]
  end.
  - left. split; [reflexivity | discriminate].
  - left. split; [reflexivity | discriminate].
  - rewrite (bindM_ok _ _ _ (users_db s) (with_rate_limit_store s store))
      by reflexivity.
    destruct (duplicate_scan (Dict.values (users_db s)) user_data) eqn:Hd.
    + left. split; [reflexivity | discriminate].
    + destruct (Auth.hash_password kdf salt temp_password)
        as [e | hashed] eqn:Hh.
      * left. rewrite (bindM_err _ _ _ e (with_rate_limit_store s store))
          by reflexivity.
        split; [reflexivity | discriminate].
      * right. exists cu, hashed.
        rewrite (bindM_ok _ _ _ hashed (with_rate_limit_store s store))
          by reflexivity.
        cbv zeta. split; [exact Hp |]. split; [reflexivity |].
        split; reflexivity.
Qed.

(** X18. [create_user] writes at most one row: a failed call leaves the
    users as they were; a successful one stores the new row under the new
    id, in the caller's tenant, changes no other id, and happens only when
    no stored row of any tenant has the username or the email. *)
Theorem create_user_scoped request user_data user_id salt authorization now
    s :
  (forall e s',
     create_user kdf settings request user_data user_id salt authorization
       now s = (raise e, s') ->
     users_db s' = users_db s)
  /\ (forall r s',
        create_user kdf settings request user_data user_id salt authorization
          now s = (ret r, s') ->
        exists current_user hashed,
          Auth.get_current_user settings now authorization = ret current_user
          /\ r = UserResponse
                   (public_view
                      (new_user_row user_data user_id
                         (Auth.tenant_id current_user) hashed now))
          /\ Dict.get (users_db s') user_id
             = Some (new_user_row user_data user_id
                       (Auth.tenant_id current_user) hashed now)
          /\ (forall other, other <> user_id ->
                Dict.get (users_db s') other = Dict.get (users_db s) other)
          /\ (forall row, In row (Dict.values (users_db s)) ->
                UserRow.username row <> new_username user_data
                /\ UserRow.email row <> new_email user_data)).
Proof.
  destruct (create_user_rows request user_data user_id salt authorization
              now s)
    as [[Hsame Hfail] | (cu & hashed & Hp & Hd & Hr & Hs)].
  - split.
    + intros e s' Hrun. rewrite Hrun in Hsame. exact Hsame.
    + intros r s' Hrun. rewrite Hrun in Hfail. exfalso.
      apply (Hfail r). reflexivity.
  - split.
    + intros e s' Hrun. rewrite Hrun in Hr. discriminate.
    + intros r s' Hrun. rewrite Hrun in Hr, Hs. cbn in Hr, Hs.
      injection Hr as ->. exists cu, hashed.
      split; [exact Hp |]. split; [reflexivity |].
      rewrite Hs. split; [apply dict_get_set_eq |].
      split; [intros other Hne; apply dict_get_set_ne; congruence |].
      apply duplicate_scan_none. exact Hd.
Qed.

(** X19. [create_user] keeps usernames unique, and emails unique, across
    all tenants: if no two rows shared one before the call, no two rows
    share one after it. *)
Theorem create_user_keeps_names_unique request user_data user_id salt
    authorization now s :
  (List.NoDup (map UserRow.username (Dict.values (users_db s))) ->
   List.NoDup
     (map UserRow.username
        (Dict.values
           (users_db (snd (create_user kdf settings request user_data user_id
                             salt authorization now s))))))
  /\ (List.NoDup (map UserRow.email (Dict.values (users_db s))) ->
      List.NoDup
        (map UserRow.email
           (Dict.values
              (users_db (snd (create_user kdf settings request user_data
                                user_id salt authorization now s)))))).
Proof.
  destruct (create_user_rows request user_data user_id salt authorization
              now s)
    as [[-> _] | (cu & hashed & _ & Hd & _ & ->)]; [tauto |].
  pose proof (duplicate_scan_none _ _ Hd) as Hnew.
  split; intros Hnd; apply dict_set_unique; try exact Hnd;
    intros row Hin; apply (Hnew row Hin).
Qed.
End Guarded.

(** ** Pages *)

Lemma slice_in {A} (l : list A) start stop x :
  In x (Py.slice l start stop) -> In x l.
Proof.
  unfold Py.slice. intros Hin.
  set (a := Z.to_nat (Py.slice_index (Z.of_nat (length l)) start)) in *.
  set (n := Z.to_nat _) in Hin.
  rewrite <- (firstn_skipn a l). apply in_or_app. right.
  rewrite <- (firstn_skipn n (skipn a l)). apply in_or_app. left. exact Hin.
Qed.

Lemma slice_forward {A} (l : list A) start size :
  0 <= start -> 0 <= size ->
  Py.slice l start (start + size)
  = firstn (Z.to_nat size) (skipn (Z.to_nat start) l).
Proof.
  intros Hs Hz. unfold Py.slice, Py.slice_index.
  assert (E1 : (start <? 0) = false) by (apply Z.ltb_ge; lia).
  assert (E2 : (start + size <? 0) = false) by (apply Z.ltb_ge; lia).
  rewrite E1, E2.
  destruct (Z.le_gt_cases (Z.of_nat (length l)) start) as [Hout | Hin].
  - rewrite !Z.min_r by lia.
    rewrite !skipn_all2 by lia. rewrite !firstn_nil. reflexivity.
  - rewrite (Z.min_l start) by lia.
    destruct (Z.le_gt_cases (start + size) (Z.of_nat (length l))) as [Hfit | Hcut].
    + rewrite Z.min_l by lia. f_equal. lia.
    + rewrite Z.min_r by lia.
      rewrite (firstn_all2 (n := Z.to_nat size)) by (rewrite length_skipn; lia).
      apply firstn_all2. rewrite length_skipn. lia.
Qed.

(** X20. The pages of the two listings: for [page >= 1] the data are the
    [page_size] items after the first [(page - 1) * page_size], [has_next]
    says whether items follow and [has_prev] whether [page > 1]; [page = 0]
    is not refused and gives an empty page; [total_count] counts all items
    and a page never holds anything that is not in the list. *)
Theorem pages_are_windows {A} (l : list A) page page_size :
  (1 <= page -> 0 <= page_size ->
   data (paginate l page page_size)
   = firstn (Z.to_nat page_size)
            (skipn (Z.to_nat ((page - 1) * page_size)) l)
   /\ len (data (paginate l page page_size)) <= page_size
   /\ (has_next (paginate l page page_size) = true
       <-> page * page_size < len l)
   /\ (has_prev (paginate l page page_size) = true <-> 1 < page))
  /\ (page = 0 -> 0 <= page_size ->
      data (paginate l page page_size) = []
      /\ has_prev (paginate l page page_size) = false
      /\ has_next (paginate l page page_size) = (0 <? len l))
  /\ total_count (paginate l page page_size) = len l
  /\ forall x, In x (data (paginate l page page_size)) -> In x l.
Proof.
  split; [| split; [| split]].
  - intros Hp Hs. unfold paginate. cbn [data has_next has_prev].
    rewrite slice_forward by nia.
    split; [reflexivity |]. split.
    + unfold len. rewrite length_firstn. lia.
    + split.
      * rewrite Z.ltb_lt. split; intros; nia.
      * rewrite Z.ltb_lt. tauto.
  - intros -> Hs. unfold paginate. cbn [data has_next has_prev].
    split; [| split; [reflexivity |]].
    + unfold Py.slice, Py.slice_index.
      replace ((0 - 1) * page_size + page_size) with 0 by lia.
      cbn [Z.ltb Z.compare]. rewrite (Z.min_l 0) by lia.
      destruct ((0 - 1) * page_size <? 0) eqn:E.
      * replace (Z.to_nat (0 - _)) with 0%nat by lia. reflexivity.
      * apply Z.ltb_ge in E. replace (Z.to_nat (0 - _)) with 0%nat by lia.
        reflexivity.
    + f_equal. lia.
  - reflexivity.
  - intros x. unfold paginate. cbn [data]. apply slice_in.
Qed.

Section TenantRows.
Context `{Jwt.Codec}.
Variable kdf : string -> string -> string -> string -> option string.
Variable settings : Settings.

Lemma check_rate_limit_keeps_data request user_id now s r s1 :
  check_rate_limit settings request user_id now s = (r, s1) ->
  s1 = with_rate_limit_store s (rate_limit_store s1).
Proof.
  intros Hc.
  pose proof (check_rate_limit_same_data settings request user_id now s) as Hd.
  rewrite Hc in Hd. exact Hd.
Qed.

Lemma tenant_user_found user_id current_user s row :
  Dict.get (users_db s) user_id = Some row ->
  UserRow.tenant_id row = Auth.tenant_id current_user ->
  tenant_user user_id current_user s = (ret row, s).
Proof.
  intros Hrow Hten. unfold tenant_user.
  rewrite (bindM_ok _ _ s (users_db s) s) by reflexivity.
  rewrite Hrow. apply String.eqb_eq in Hten. rewrite Hten. reflexivity.
Qed.

Lemma tenant_file_found file_id current_user s meta :
  Dict.get (files_db s) file_id = Some meta ->
  FileMetadata.tenant_id meta = Auth.tenant_id current_user ->
  tenant_file file_id current_user s = (ret meta, s).
Proof.
  intros Hrow Hten. unfold tenant_file.
  rewrite (bindM_ok _ _ s (files_db s) s) by reflexivity.
  rewrite Hrow. apply String.eqb_eq in Hten. rewrite Hten. reflexivity.
Qed.

(** X21. Writes are tenant-scoped: for an admitted request, [update_user]
    and [delete_user] on a user, and [delete_file] on a file, that is
    missing or belongs to another tenant answer 404 and change nothing but
    the caller's rate window. *)
Theorem foreign_rows_cannot_be_written request id authorization now
    current_user s s1 :
  Auth.get_current_user settings now authorization = ret current_user ->
  check_rate_limit settings request (Auth.user_id current_user) now s
  = (ret tt, s1) ->
  s1 = with_rate_limit_store s (rate_limit_store s1)
  /\ (match Dict.get (users_db s) id with
      | None => True
      | Some row => UserRow.tenant_id row <> Auth.tenant_id current_user
      end ->
      (forall user_data,
         update_user settings request id user_data authorization now s
         = (raise (not_found "User" id), s1))
      /\ delete_user settings request id authorization now s
         = (raise (not_found "User" id), s1))
  /\ (match Dict.get (files_db s) id with
      | None => True
      | Some meta => FileMetadata.tenant_id meta <> Auth.tenant_id current_user
      end ->
      delete_file settings request id authorization now s
      = (raise (not_found "File" id), s1)).
Proof.
  intros Hauth Hc.
  pose proof (check_rate_limit_keeps_data _ _ _ _ _ _ Hc) as Hs1.
  split; [exact Hs1 |]. split.
  - intros Hhid.
    assert (Hu : tenant_user id current_user s1
                 = (raise (not_found "User" id), s1)).
    { apply tenant_user_hidden. rewrite Hs1. exact Hhid. }
    split; [intros user_data; unfold update_user | unfold delete_user];
      rewrite (bindM_ok _ _ _ _ _ (lift_ok _ _ _ Hauth));
      rewrite (bindM_ok _ _ _ _ _ Hc);
      apply (bindM_err _ _ _ _ _ Hu).
  - intros Hhid.
    assert (Hf : tenant_file id current_user s1
                 = (raise (not_found "File" id), s1)).
    { apply tenant_file_hidden. rewrite Hs1. exact Hhid. }
    unfold delete_file.
    rewrite (bindM_ok _ _ _ _ _ (lift_ok _ _ _ Hauth)).
    rewrite (bindM_ok _ _ _ _ _ Hc).
    apply (bindM_err _ _ _ _ _ Hf).
Qed.

(** X22. [delete_user] is a soft delete: the row stays under its id with
    [is_active] false and a new [updated_at], its password hash and every
    other row untouched; from then on a refresh token of that user is
    refused with 401 "User not found or inactive". *)
Theorem delete_user_is_soft request id authorization now current_user s s1
    row :
  Auth.get_current_user settings now authorization = ret current_user ->
  check_rate_limit settings request (Auth.user_id current_user) now s
  = (ret tt, s1) ->
  Dict.get (users_db s) id = Some row ->
  UserRow.tenant_id row = Auth.tenant_id current_user ->
  delete_user settings request id authorization now s
  = (ret NoContent,
     with_users_db s1
       (Dict.set (users_db s) id
          (with_updated_at (with_is_active row false) now)))
  /\ Dict.get (Dict.set (users_db s) id
                 (with_updated_at (with_is_active row false) now)) id
     = Some (with_updated_at (with_is_active row false) now)
  /\ UserRow.is_active (with_updated_at (with_is_active row false) now)
     = false
  /\ UserRow.password_hash (with_updated_at (with_is_active row false) now)
     = UserRow.password_hash row
  /\ (forall other, other <> id ->
        Dict.get (Dict.set (users_db s) id
                    (with_updated_at (with_is_active row false) now)) other
        = Dict.get (users_db s) other)
  /\ forall token later p,
       Auth.decode_token settings later token = ret p ->
       Auth.claim_is p "type" "refresh" = true ->
       token ∉ blacklisted_tokens s ->
       Auth.item p "user_id" = ret (Jwt.JStr id) ->
       refresh_tokens settings token later
         (with_users_db s1
            (Dict.set (users_db s) id
               (with_updated_at (with_is_active row false) now)))
       = (raise (Auth.unauthorized "User not found or inactive"),
          with_users_db s1
            (Dict.set (users_db s) id
               (with_updated_at (with_is_active row false) now))).
Proof.
  intros Hauth Hc Hrow Hten.
  pose proof (check_rate_limit_keeps_data _ _ _ _ _ _ Hc) as Hs1.
  assert (Hu1 : users_db s1 = users_db s) by (rewrite Hs1; reflexivity).
  assert (Hb1 : blacklisted_tokens s1 = blacklisted_tokens s)
    by (rewrite Hs1; reflexivity).
  split; [| split; [apply dict_get_set_eq | split; [reflexivity |
          split; [reflexivity | split]]]].
  - unfold delete_user.
    rewrite (bindM_ok _ _ _ _ _ (lift_ok _ _ _ Hauth)).
    rewrite (bindM_ok _ _ _ _ _ Hc).
    rewrite (bindM_ok _ _ _ _ _
               (tenant_user_found id current_user s1 row
                  ltac:(rewrite Hu1; exact Hrow) Hten)).
    cbv zeta. unfold bindM, modify, pure. cbn [fst snd].
    rewrite Hu1. reflexivity.
  - intros other Hne. apply dict_get_set_ne. congruence.
  - intros token later p Hd Hk Hnin Hitem.
    unfold refresh_tokens.
    rewrite (bindM_ok _ _ _ _ _ (lift_ok _ _ _ Hd)).
    rewrite Hk. cbn [negb].
    match goal with
    | |- bindM (gets blacklisted_tokens) _ ?st = _ =>
        rewrite (bindM_ok _ _ st (blacklisted_tokens s) st)
          by (unfold gets; cbn; rewrite Hb1; reflexivity)
    end.
    rewrite bool_decide_eq_false_2 by exact Hnin.
    rewrite (bindM_ok _ _ _ _ _ (lift_ok _ _ _ Hitem)).
    match goal with
    | |- bindM (gets users_db) _ ?st = _ =>
        rewrite (bindM_ok _ _ st (users_db st) st) by reflexivity
    end.
    cbn [users_db with_users_db lookup_user].
    rewrite dict_get_set_eq. reflexivity.
Qed.

(** X23. [list_users] and [list_files] return rows of the caller's tenant
    only, and [list_users] with [active_only] returns active rows only. *)
Theorem listings_are_tenant_scoped request page page_size authorization now
    s :
  (forall active_only pg s',
     list_users settings request page page_size active_only authorization
       now s = (ret (UsersPage pg), s') ->
     exists current_user,
       Auth.get_current_user settings now authorization = ret current_user
       /\ Forall (fun u =>
                    User.tenant_id u = Auth.tenant_id current_user
                    /\ (active_only = true -> User.is_active u = true))
                 (data pg))
  /\ (forall pg s',
        list_files settings request page page_size authorization now s
        = (ret (FilesPage pg), s') ->
        exists current_user,
          Auth.get_current_user settings now authorization = ret current_user
          /\ Forall (fun f =>
                       FileMetadata.tenant_id f = Auth.tenant_id current_user)
                    (data pg)).
Proof.
  split.
  - intros active_only pg s'. unfold list_users.
    match goal with
    | |- context [bindM (lift ?p) (fun x => bindM _ (fun _ => @?b x))] =>
        destruct (guarded_cases settings p request now b s)
          as [(e & _ & ->) | (cu & store & Hp & [(e & _ & ->) | (_ & ->)])]
    end; try discriminate.
    rewrite (bindM_ok _ _ _ (users_db s) (with_rate_limit_store s store))
      by reflexivity.
    cbv zeta. unfold pure. intros [= <- _]. exists cu. split; [exact Hp |].
    cbn [data]. apply List.Forall_forall. intros u Hin.
    apply in_map_iff in Hin as (row & <- & Hin).
    apply slice_in in Hin.
    destruct active_only.
    + apply List.filter_In in Hin as [Hin Hact].
      apply List.filter_In in Hin as [_ Hten].
      apply String.eqb_eq in Hten. cbn. auto.
    + apply List.filter_In in Hin as [_ Hten].
      apply String.eqb_eq in Hten. cbn. split; [exact Hten | discriminate].
  - intros pg s'. unfold list_files.
    match goal with
    | |- context [bindM (lift ?p) (fun x => bindM _ (fun _ => @?b x))] =>
        destruct (guarded_cases settings p request now b s)
          as [(e & _ & ->) | (cu & store & Hp & [(e & _ & ->) | (_ & ->)])]
    end; try discriminate.
    rewrite (bindM_ok _ _ _ (files_db s) (with_rate_limit_store s store))
      by reflexivity.
    cbv zeta. unfold pure. intros [= <- _]. exists cu. split; [exact Hp |].
    apply List.Forall_forall. intros f Hin.
    unfold paginate in Hin. cbn [data] in Hin. apply slice_in in Hin.
    apply List.filter_In in Hin as [_ Hten].
    apply String.eqb_eq in Hten. exact Hten.
Qed.

End TenantRows.

(** ** The dictionaries of a running process *)

Lemma dict_set_keys {V} (d : Dict.t V) k v x :
  In x (map fst (Dict.set d k v)) -> x = k \/ In x (map fst d).
Proof.
  induction d as [| [k0 v0] d IH]; cbn.
  - intros [<- | []]. auto.
  - destruct (k0 =? k)%string; cbn; intros [<- | Hin]; auto.
    destruct (IH Hin); auto.
Qed.

Lemma dict_set_nodup {V} (d : Dict.t V) k v :
  List.NoDup (map fst d) -> List.NoDup (map fst (Dict.set d k v)).
Proof.
  induction d as [| [k0 v0] d IH]; cbn; intros Hnd.
  - constructor; [tauto | constructor].
  - apply List.NoDup_cons_iff in Hnd as [Hnin Hnd].
    destruct (k0 =? k)%string eqn:E; cbn.
    + constructor; assumption.
    + constructor; [| apply IH; exact Hnd].
      intros Hin. apply dict_set_keys in Hin as [-> | Hin]; [| tauto].
      rewrite String.eqb_refl in E. discriminate.
Qed.

Lemma dict_del_nodup {V} (d : Dict.t V) k :
  List.NoDup (map fst d) -> List.NoDup (map fst (Dict.del d k)).
Proof.
  induction d as [| [k0 v0] d IH]; cbn; intros Hnd; [constructor |].
  apply List.NoDup_cons_iff in Hnd as [Hnin Hnd].
  destruct (k0 =? k)%string; cbn; [exact Hnd |].
  constructor; [| apply IH; exact Hnd].
  intros Hin. apply Hnin. apply (dict_keys_del d k). exact Hin.
Qed.

Lemma store_rows_nodup (rows : list UserRow.t) :
  forall d,
    List.NoDup (map fst d) ->
    List.NoDup
      (map fst (fold_left (fun d u => Dict.set d (UserRow.id u) u) rows d)).
Proof.
  induction rows as [| r rows IH]; intros d Hnd; [exact Hnd |].
  cbn [fold_left]. apply IH. apply dict_set_nodup. exact Hnd.
Qed.

#[local] Instance keeps_keys_preorder : PreOrder keeps_keys.
Proof.
  split.
  - intros s Hs. exact Hs.
  - intros s1 s2 s3 H12 H23 Hs. apply H23, H12, Hs.
Qed.

Ltac keeps_keys_side :=
  idtac;
  match goal with
  | |- keeps_keys ?s _ =>
      intros (Ht & Hu & Hf & Hc); unfold unique_keys;
      cbn [tenants_db users_db files_db file_storage with_tenants_db
             with_users_db with_files_db with_file_storage
             with_blacklisted_tokens with_rate_limit_store initial_state
             Dict.empty map];
      repeat split;
      auto using dict_set_nodup, dict_del_nodup, store_rows_nodup,
        List.NoDup_nil
  end.

Section Keys.
Context `{Jwt.Codec}.
Variable kdf : string -> string -> string -> string -> option string.
Variable settings : Settings.

Lemma check_rate_limit_keeps_keys request user_id now :
  preserves keeps_keys (check_rate_limit settings request user_id now).
Proof. unfold check_rate_limit. preserve keeps_keys_side. Qed.

Lemma tenant_user_keeps_keys user_id cu :
  preserves keeps_keys (tenant_user user_id cu).
Proof. unfold tenant_user. preserve keeps_keys_side. Qed.

Lemma tenant_file_keeps_keys file_id cu :
  preserves keeps_keys (tenant_file file_id cu).
Proof. unfold tenant_file. preserve keeps_keys_side. Qed.

#[local] Hint Resolve check_rate_limit_keeps_keys tenant_user_keeps_keys
  tenant_file_keeps_keys : frame.

Lemma handle_keeps_keys op now :
  preserves keeps_keys (handle kdf settings op now).
Proof.
  destruct op; cbn [handle].
  all: unfold health_check, register_tenant, login, refresh_tokens, logout,
    list_users, create_user, get_user, update_user, delete_user,
    create_users_bulk, upload_file, download_file, list_files, delete_file,
    list_all_tenants, get_system_stats, reset_all_data.
  all: preserve keeps_keys_side.
Qed.

(** Every state the process reaches holds each key once. *)
Lemma run_unique_keys trace :
  forall s, unique_keys s -> unique_keys (run kdf settings trace s).
Proof.
  induction trace as [| [op now] trace IH]; intros s Hs; [exact Hs |].
  cbn [run]. apply IH. apply (handle_keeps_keys op now s Hs).
Qed.

Lemma initial_unique_keys : unique_keys initial_state.
Proof. repeat split; constructor. Qed.
End Keys.

(** ** Files *)

(** [len(content) / (1024 * 1024) > limit] in whole bytes. *)
Lemma size_over_limit (size limit : Z) :
  Qltb (inject_Z limit) (inject_Z size / inject_Z (1024 * 1024))
  = (limit * 1048576 <? size).
Proof.
  destruct (limit * 1048576 <? size) eqn:E.
  - apply Z.ltb_lt in E. apply Qltb_lt.
    apply Qlt_shift_div_l; [reflexivity |].
    rewrite <- inject_Z_mult, <- Zlt_Qlt. exact E.
  - apply Z.ltb_ge in E. apply Qltb_ge.
    apply Qle_shift_div_r; [reflexivity |].
    rewrite <- inject_Z_mult, <- Zle_Qle. exact E.
Qed.

Section Files.
Context `{Jwt.Codec}.
Variable kdf : string -> string -> string -> string -> option string.
Variable settings : Settings.

(** [upload_file] past the two guards. *)
Lemma upload_file_admitted request file file_id authorization now
    current_user s s1 :
  Auth.get_current_user settings now authorization = ret current_user ->
  check_rate_limit settings request (Auth.user_id current_user) now s
  = (ret tt, s1) ->
  upload_file settings request file file_id authorization now s
  = if negb (existsb (String.eqb (upload_content_type file))
                     (allowed_file_types settings))
    then (raise (HTTPException HTTP_415_UNSUPPORTED_MEDIA_TYPE
                   ("File type '" +:+ upload_content_type file
                      +:+ "' not allowed") []), s1)
    else if size_limit_bytes settings
              <? Z.of_nat (String.length (upload_content file))
    then (raise (HTTPException HTTP_413_REQUEST_ENTITY_TOO_LARGE
                   ("File size " +:+
                    format_2f (inject_Z (Z.of_nat (String.length
                                                     (upload_content file)))
                               / inject_Z (1024 * 1024))
                      +:+ "MB exceeds limit of "
                      +:+ Py.str (max_file_size_mb settings) +:+ "MB") []),
          s1)
    else (ret (FileMetadataResponse
                 (stored_metadata file file_id current_user now)),
          with_file_storage
            (with_files_db s1
               (Dict.set (files_db s1) file_id
                  (stored_metadata file file_id current_user now)))
            (Dict.set (file_storage s1) file_id (upload_content file))).
Proof.
  intros Hauth Hc. unfold upload_file.
  rewrite (bindM_ok _ _ _ _ _ (lift_ok _ _ _ Hauth)).
  rewrite (bindM_ok _ _ _ _ _ Hc).
  destruct (negb _); [reflexivity |].
  cbv zeta. rewrite size_over_limit. fold (size_limit_bytes settings).
  destruct (size_limit_bytes settings <? _); reflexivity.
Qed.

(** X24. The size limit of [upload_file] is [max_file_size_mb * 1048576]
    bytes, inclusive: an allowed type with more bytes is refused with 413
    and nothing is stored; with exactly that many or fewer the metadata
    and the content are stored under the new id. *)
Theorem upload_size_threshold request file file_id authorization now
    current_user s s1 :
  Auth.get_current_user settings now authorization = ret current_user ->
  check_rate_limit settings request (Auth.user_id current_user) now s
  = (ret tt, s1) ->
  In (upload_content_type file) (allowed_file_types settings) ->
  (max_file_size_mb settings * 1048576
     < Z.of_nat (String.length (upload_content file)) ->
   exists detail,
     upload_file settings request file file_id authorization now s
     = (raise (HTTPException HTTP_413_REQUEST_ENTITY_TOO_LARGE detail []), s1)
     /\ files_db s1 = files_db s /\ file_storage s1 = file_storage s)
  /\ (Z.of_nat (String.length (upload_content file))
        <= max_file_size_mb settings * 1048576 ->
      exists s',
        upload_file settings request file file_id authorization now s
        = (ret (FileMetadataResponse
                  (stored_metadata file file_id current_user now)), s')
        /\ Dict.get (files_db s') file_id
           = Some (stored_metadata file file_id current_user now)
        /\ Dict.get (file_storage s') file_id = Some (upload_content file)).
Proof.
  intros Hauth Hc Htype.
  rewrite (upload_file_admitted _ _ _ _ _ _ _ _ Hauth Hc).
  assert (Hok : existsb (String.eqb (upload_content_type file))
                        (allowed_file_types settings) = true).
  { apply existsb_exists. exists (upload_content_type file).
    split; [exact Htype | apply String.eqb_refl]. }
  rewrite Hok. cbn [negb]. unfold size_limit_bytes.
  pose proof (check_rate_limit_keeps_data settings _ _ _ _ _ _ Hc) as Hs1.
  split.
  - intros Hbig. apply Z.ltb_lt in Hbig. rewrite Hbig.
    eexists. split; [reflexivity |]. rewrite Hs1. split; reflexivity.
  - intros Hfit. apply Z.ltb_ge in Hfit. rewrite Hfit.
    eexists. split; [reflexivity |].
    cbn [files_db file_storage with_file_storage with_files_db].
    split; apply dict_get_set_eq.
Qed.

(** X25. Upload, then download: after a successful upload a reader of the
    uploader's tenant gets the uploaded content back with its content type
    and an attachment header that names the file, unless the content is
    empty, which is answered 404 "File content not found"; a reader of
    another tenant gets the 404 of a missing file. *)
Theorem upload_then_download request file file_id authorization now r s s'
    request' authorization' later reader s2 :
  upload_file settings request file file_id authorization now s = (ret r, s') ->
  Auth.get_current_user settings later authorization' = ret reader ->
  check_rate_limit settings request' (Auth.user_id reader) later s'
  = (ret tt, s2) ->
  exists uploader,
    Auth.get_current_user settings now authorization = ret uploader
    /\ r = FileMetadataResponse (stored_metadata file file_id uploader now)
    /\ (Auth.tenant_id reader = Auth.tenant_id uploader ->
        download_file settings request' file_id authorization' later s'
        = (match upload_content file with
           | EmptyString =>
               raise (HTTPException HTTP_404_NOT_FOUND
                        "File content not found" [])
           | content =>
               ret (StreamingResponse content (upload_content_type file)
                      (disposition (upload_filename file)))
           end, s2))
    /\ (Auth.tenant_id reader <> Auth.tenant_id uploader ->
        download_file settings request' file_id authorization' later s'
        = (raise (not_found "File" file_id), s2)).
Proof.
  intros Hup Hauth' Hc'. revert Hup. unfold upload_file.
  match goal with
  | |- context [bindM (lift ?p) (fun x => bindM _ (fun _ => @?b x))] =>
      destruct (guarded_cases settings p request now b s)
        as [(e & _ & ->) | (cu & store & Hp & [(e & _ & ->) | (_ & ->)])]
  end; try discriminate.
  destruct (negb _); [discriminate |].
  cbv zeta. destruct (Qltb _ _); [discriminate |].
  unfold bindM, modify, pure. cbn [fst snd]. intros [= <- <-].
  exists cu. split; [exact Hp |]. split; [reflexivity |].
  pose proof (check_rate_limit_keeps_data settings _ _ _ _ _ _ Hc') as Hs2.
  assert (Hfiles : Dict.get (files_db s2) file_id
                   = Some (stored_metadata file file_id cu now)).
  { rewrite Hs2. cbn [files_db with_rate_limit_store with_file_storage
                        with_files_db]. apply dict_get_set_eq. }
  assert (Hstore : Dict.get (file_storage s2) file_id
                   = Some (upload_content file)).
  { rewrite Hs2. cbn [file_storage with_rate_limit_store with_file_storage
                        with_files_db]. apply dict_get_set_eq. }
  split.
  - intros Hten. unfold download_file.
    rewrite (bindM_ok _ _ _ _ _ (lift_ok _ _ _ Hauth')).
    rewrite (bindM_ok _ _ _ _ _ Hc').
    rewrite (bindM_ok _ _ _ _ _
               (tenant_file_found file_id reader s2
                  (stored_metadata file file_id cu now) Hfiles
                  (eq_sym Hten))).
    rewrite (bindM_ok _ _ s2 (file_storage s2) s2) by reflexivity.
    rewrite Hstore. destruct (upload_content file); reflexivity.
  - intros Hten. unfold download_file.
    rewrite (bindM_ok _ _ _ _ _ (lift_ok _ _ _ Hauth')).
    rewrite (bindM_ok _ _ _ _ _ Hc').
    apply bindM_err. apply tenant_file_hidden. rewrite Hfiles.
    cbn. congruence.
Qed.

(** X26. In every state the process can reach, [delete_file] on a file of
    the caller's tenant removes its metadata and its content, touches no
    other file and no user, and every later download of that id is
    answered 404. *)
Theorem deleted_file_is_gone trace request file_id authorization now
    current_user s s1 meta :
  s = run kdf settings trace initial_state ->
  Auth.get_current_user settings now authorization = ret current_user ->
  check_rate_limit settings request (Auth.user_id current_user) now s
  = (ret tt, s1) ->
  Dict.get (files_db s) file_id = Some meta ->
  FileMetadata.tenant_id meta = Auth.tenant_id current_user ->
  exists s',
    delete_file settings request file_id authorization now s
    = (ret NoContent, s')
    /\ Dict.get (files_db s') file_id = None
    /\ Dict.get (file_storage s') file_id = None
    /\ (forall other, other <> file_id ->
          Dict.get (files_db s') other = Dict.get (files_db s) other
          /\ Dict.get (file_storage s') other
             = Dict.get (file_storage s) other)
    /\ users_db s' = users_db s
    /\ forall request' authorization' later reader s2,
         Auth.get_current_user settings later authorization' = ret reader ->
         check_rate_limit settings request' (Auth.user_id reader) later s'
         = (ret tt, s2) ->
         download_file settings request' file_id authorization' later s'
         = (raise (not_found "File" file_id), s2).
Proof.
  intros Hreach Hauth Hc Hrow Hten.
  destruct (run_unique_keys kdf settings trace initial_state
              initial_unique_keys) as (_ & _ & Hnd1 & Hnd2).
  rewrite <- Hreach in Hnd1, Hnd2.
  pose proof (check_rate_limit_keeps_data settings _ _ _ _ _ _ Hc) as Hs1.
  assert (Hf1 : files_db s1 = files_db s) by (rewrite Hs1; reflexivity).
  assert (Hst1 : file_storage s1 = file_storage s) by (rewrite Hs1; reflexivity).
  assert (Hu1 : users_db s1 = users_db s) by (rewrite Hs1; reflexivity).
  exists (with_file_storage
            (with_files_db s1 (Dict.del (files_db s) file_id))
            (Dict.del (file_storage s) file_id)).
  split; [| split; [| split; [| split; [| split]]]].
  - unfold delete_file.
    rewrite (bindM_ok _ _ _ _ _ (lift_ok _ _ _ Hauth)).
    rewrite (bindM_ok _ _ _ _ _ Hc).
    rewrite (bindM_ok _ _ _ _ _
               (tenant_file_found file_id current_user s1 meta
                  ltac:(rewrite Hf1; exact Hrow) Hten)).
    unfold bindM, modify, pure. cbn [fst snd].
    cbn [file_storage with_files_db]. rewrite Hf1, Hst1. reflexivity.
  - cbn. apply dict_get_del_eq. exact Hnd1.
  - cbn. apply dict_get_del_eq. exact Hnd2.
  - intros other Hne. cbn.
    split; apply dict_get_del_ne; congruence.
  - cbn. exact Hu1.
  - intros request' authorization' later reader s2 Hauth' Hc'.
    pose proof (check_rate_limit_keeps_data settings _ _ _ _ _ _ Hc') as Hs2.
    unfold download_file.
    rewrite (bindM_ok _ _ _ _ _ (lift_ok _ _ _ Hauth')).
    rewrite (bindM_ok _ _ _ _ _ Hc').
    apply bindM_err. apply tenant_file_hidden.
    rewrite Hs2. cbn [files_db with_rate_limit_store with_file_storage
                        with_files_db].
    rewrite (dict_get_del_eq _ _ Hnd1). exact I.
Qed.
End Files.

(** ** Rotation *)

Section Rotate.
Context `{Jwt.Codec}.
Variable settings : Settings.
Hypothesis supported : Jwt.jws_supported (jwt_algorithm settings) = true.

(** X27. A refresh token as issued, not yet revoked and not expired, of a
    user whose row is active, is exchanged for a new pair: the presented
    token joins the revocation set, the lifetime reported is the configured
    minutes in seconds, and the new access token resolves to the
    principal of the row as it is stored now. *)
Theorem issued_refresh_token_rotates issued now user_id tenant_id s row :
  (now < inject_Z (Auth.refresh_expiry settings issued))%Q ->
  Auth.create_refresh_token settings issued user_id tenant_id
    ∉ blacklisted_tokens s ->
  Dict.get (users_db s) user_id = Some row ->
  UserRow.is_active row = true ->
  refresh_tokens settings
    (Auth.create_refresh_token settings issued user_id tenant_id) now s
  = (ret (TokenPairResponse (token_pair settings now row)),
     with_blacklisted_tokens s
       ({[Auth.create_refresh_token settings issued user_id tenant_id]}
          ∪ blacklisted_tokens s))
  /\ Auth.expires_in (token_pair settings now row)
     = access_token_expire_minutes settings * 60
  /\ forall later,
       (later < inject_Z (Auth.access_expiry settings now))%Q ->
       Auth.get_current_user settings later
         (Some ("Bearer " +:+ Auth.access_token (token_pair settings now row)))
       = ret (principal_of_row row (Auth.access_expiry settings now)).
Proof.
  intros Hlive Hnin Hrow Hact. split; [| split; [reflexivity |]].
  - apply (refresh_tokens_rotate settings _ now s
             (Auth.refresh_claims settings issued user_id tenant_id)
             (Jwt.JStr user_id) row).
    + apply (decode_refresh_token settings supported). exact Hlive.
    + reflexivity.
    + exact Hnin.
    + reflexivity.
    + exact Hrow.
    + exact Hact.
  - intros later Hlater. cbn [Auth.access_token token_pair].
    apply (resolve_access_token settings supported). exact Hlater.
Qed.

(** X28. Tokens are a function of their claims, and exp is kept in whole
    seconds: a refresh whose new expiry falls in the same second as that of
    the presented token hands back the very token it has just revoked, so
    the refresh token of the new pair is refused from the start. *)
Theorem same_second_refresh_returns_the_revoked_token issued now user_id
    tenant_id s row :
  (now < inject_Z (Auth.refresh_expiry settings issued))%Q ->
  Auth.create_refresh_token settings issued user_id tenant_id
    ∉ blacklisted_tokens s ->
  Dict.get (users_db s) user_id = Some row ->
  UserRow.is_active row = true ->
  UserRow.id row = user_id ->
  UserRow.tenant_id row = tenant_id ->
  Auth.refresh_expiry settings now = Auth.refresh_expiry settings issued ->
  exists pair s',
    refresh_tokens settings
      (Auth.create_refresh_token settings issued user_id tenant_id) now s
    = (ret (TokenPairResponse pair), s')
    /\ Auth.refresh_token pair
       = Auth.create_refresh_token settings issued user_id tenant_id
    /\ Auth.refresh_token pair ∈ blacklisted_tokens s'
    /\ refresh_tokens settings (Auth.refresh_token pair) now s'
       = (raise (Auth.unauthorized "Token has been revoked"), s').
Proof.
  intros Hlive Hnin Hrow Hact Hid Hten Hsame.
  assert (Hd : Auth.decode_token settings now
                 (Auth.create_refresh_token settings issued user_id tenant_id)
               = ret (Auth.refresh_claims settings issued user_id tenant_id))
    by (apply (decode_refresh_token settings supported); exact Hlive).
  assert (Htok : Auth.refresh_token (token_pair settings now row)
                 = Auth.create_refresh_token settings issued user_id tenant_id).
  { cbn [Auth.refresh_token token_pair]. rewrite Hid, Hten.
    unfold Auth.create_refresh_token, Jwt.encode. f_equal.
    change (map Jwt.normalise_claim
              (Auth.refresh_payload settings ?t user_id tenant_id))
      with (Auth.refresh_claims settings t user_id tenant_id).
    unfold Auth.refresh_claims. rewrite Hsame. reflexivity. }
  exists (token_pair settings now row),
    (with_blacklisted_tokens s
       ({[Auth.create_refresh_token settings issued user_id tenant_id]}
          ∪ blacklisted_tokens s)).
  split.
  { apply (refresh_tokens_rotate settings _ now s
             (Auth.refresh_claims settings issued user_id tenant_id)
             (Jwt.JStr user_id) row Hd eq_refl Hnin eq_refl Hrow Hact). }
  split; [exact Htok |]. rewrite Htok. split.
  - cbn. set_solver.
  - apply (refresh_tokens_revoked settings _ now _
             (Auth.refresh_claims settings issued user_id tenant_id) Hd
             eq_refl).
    cbn. set_solver.
Qed.
End Rotate.

(** ** Bulk creation *)

Lemma successes_ret {A} (l : list A) : successes (map ret l) = l.
Proof.
  unfold successes. induction l as [| a l IH]; [reflexivity |].
  cbn. rewrite IH. reflexivity.
Qed.

Lemma failures_ret {A} (l : list A) : failures (map (@ret A) l) = [].
Proof.
  unfold failures. induction l as [| a l IH]; [reflexivity |].
  cbn. exact IH.
Qed.

(** Rows written one after the other under their own ids. *)
Lemma store_rows_other (rows : list UserRow.t) :
  forall d k,
    ~ In k (map UserRow.id rows) ->
    Dict.get (fold_left (fun d u => Dict.set d (UserRow.id u) u) rows d) k
    = Dict.get d k.
Proof.
  induction rows as [| r rows IH]; intros d k Hnin; [reflexivity |].
  cbn [fold_left]. rewrite IH by (cbn in Hnin; tauto).
  apply dict_get_set_ne. cbn in Hnin. tauto.
Qed.

Lemma store_rows_get (rows : list UserRow.t) :
  forall d row,
    List.NoDup (map UserRow.id rows) -> In row rows ->
    Dict.get (fold_left (fun d u => Dict.set d (UserRow.id u) u) rows d)
             (UserRow.id row)
    = Some row.
Proof.
  induction rows as [| r rows IH]; intros d row Hnd Hin; [destruct Hin |].
  apply List.NoDup_cons_iff in Hnd as [Hnin Hnd]. cbn [fold_left].
  destruct Hin as [-> | Hin].
  - rewrite store_rows_other by exact Hnin. apply dict_get_set_eq.
  - apply IH; assumption.
Qed.

Section Bulk.
Context `{Jwt.Codec}.
Variable kdf : string -> string -> string -> string -> option string.
Variable settings : Settings.

(** A batch whose items all pass the scan of the rows present and hash:
    every coroutine returns its row. *)
Lemma bulk_tasks_pass rows tenant_id now
    (users_data : list (UserCreate * string * string)) :
  Forall (fun item =>
            duplicate_scan rows item.1.1 = None
            /\ is_ok (Auth.hash_password kdf item.2 temp_password) = true)
         users_data ->
  exists created,
    map (bulk_task kdf rows tenant_id now) users_data = map ret created
    /\ map UserRow.id created = map (fun item => item.1.2) users_data
    /\ map UserRow.username created
       = map (fun item => new_username item.1.1) users_data
    /\ map UserRow.email created
       = map (fun item => new_email item.1.1) users_data
    /\ Forall (fun row => UserRow.tenant_id row = tenant_id) created.
Proof.
  induction users_data as [| [[user_data user_id] salt] l IH]; intros Hall.
  - exists []. repeat split. constructor.
  - apply Forall_cons_1 in Hall as [[Hscan Hhash] Hall].
    destruct (IH Hall) as (created & Hmap & Hid & Hname & Hmail & Hten).
    cbn in Hscan, Hhash.
    destruct (Auth.hash_password kdf salt temp_password) as [e | hashed] eqn:Hh;
      [discriminate |].
    exists (new_user_row user_data user_id tenant_id hashed now :: created).
    cbn [map bulk_task]. rewrite Hscan, Hh, Hmap, Hid, Hname, Hmail.
    repeat split. constructor; [reflexivity | exact Hten].
Qed.

(** X29. [create_users_bulk] compares every item with the rows that are
    present when the request starts, and never with the other items of the
    batch: a batch of at most 50 items, each of which passes that scan (and
    hashes), is created whole, in order, in the caller's tenant, whether or
    not two of its items carry the same username or email. *)
Theorem bulk_items_are_not_compared request users_data authorization now
    current_user s s1 :
  Auth.get_current_user settings now authorization = ret current_user ->
  check_rate_limit settings request (Auth.user_id current_user) now s
  = (ret tt, s1) ->
  len users_data <= 50 ->
  Forall (fun item =>
            duplicate_scan (Dict.values (users_db s)) item.1.1 = None
            /\ is_ok (Auth.hash_password kdf item.2 temp_password) = true)
         users_data ->
  List.NoDup (map (fun item => item.1.2) users_data) ->
  exists created s',
    create_users_bulk kdf settings request users_data authorization now s
    = (ret (UserListResponse created), s')
    /\ map User.id created = map (fun item => item.1.2) users_data
    /\ map User.username created
       = map (fun item => new_username item.1.1) users_data
    /\ map User.email created
       = map (fun item => new_email item.1.1) users_data
    /\ Forall (fun u =>
                 User.tenant_id u = Auth.tenant_id current_user
                 /\ exists row,
                      Dict.get (users_db s') (User.id u) = Some row
                      /\ public_view row = u)
              created
    /\ forall other,
         ~ In other (map (fun item => item.1.2) users_data) ->
         Dict.get (users_db s') other = Dict.get (users_db s) other.
Proof.
  intros Hauth Hc Hlen Hall Hnd.
  pose proof (check_rate_limit_keeps_data settings _ _ _ _ _ _ Hc) as Hs1.
  assert (Hu1 : users_db s1 = users_db s) by (rewrite Hs1; reflexivity).
  destruct (bulk_tasks_pass (Dict.values (users_db s))
              (Auth.tenant_id current_user) now users_data Hall)
    as (rows & Hmap & Hid & Hname & Hmail & Hten).
  exists (map public_view rows),
    (with_users_db s1
       (fold_left (fun d u => Dict.set d (UserRow.id u) u) rows (users_db s))).
  split; [| split; [| split; [| split; [| split]]]].
  - unfold create_users_bulk.
    rewrite (bindM_ok _ _ _ _ _ (lift_ok _ _ _ Hauth)).
    rewrite (bindM_ok _ _ _ _ _ Hc).
    assert (E : (50 <? len users_data) = false) by (apply Z.ltb_ge; exact Hlen).
    rewrite E.
    rewrite (bindM_ok _ _ s1 (users_db s1) s1) by reflexivity.
    cbv zeta. rewrite Hu1, Hmap, successes_ret, failures_ret.
    unfold bindM, modify, pure. cbn [fst snd List.filter].
    rewrite Hu1. reflexivity.
  - rewrite map_map. exact Hid.
  - rewrite map_map. exact Hname.
  - rewrite map_map. exact Hmail.
  - apply List.Forall_forall. intros u Hin.
    apply in_map_iff in Hin as (row & <- & Hin).
    split.
    + cbn. revert row Hin. apply List.Forall_forall. exact Hten.
    + exists row. split; [| reflexivity].
      cbn [users_db with_users_db public_view User.id].
      apply store_rows_get; [rewrite Hid; exact Hnd | exact Hin].
  - intros other Hnin. cbn [users_db with_users_db].
    apply store_rows_other. rewrite Hid. exact Hnin.
Qed.
End Bulk.

(** ** The properties at concrete requests *)

Lemma run_result {A} (m : M A) s r : fst (m s) = r -> m s = (r, snd (m s)).
Proof. destruct (m s); cbn; intros ->; reflexivity. Qed.

(** The principals of the tokens of alice, bob and u. *)
Lemma alice_resolves now :
  (now < 1800)%Q ->
  Auth.get_current_user (H := Reference.word_codec) default_settings now
    Example.alice_bearer = ret Example.alice_principal.
Proof.
  intros Hnow.
  apply (@resolve_access_token Reference.word_codec default_settings eq_refl
           0%Q now "u1" "t1" "alice" "admin").
  exact Hnow.
Qed.

Lemma bob_resolves now :
  (now < 1800)%Q ->
  Auth.get_current_user (H := Reference.word_codec) default_settings now
    Scenario.bob_bearer = ret Scenario.bob_principal.
Proof.
  intros Hnow.
  apply (@resolve_access_token Reference.word_codec default_settings eq_refl
           0%Q now "u2" "t2" "bob" "admin").
  exact Hnow.
Qed.

Lemma u_resolves now :
  (now < 2800)%Q ->
  Auth.get_current_user (H := Reference.word_codec) default_settings now
    Scenario.u_bearer = ret Scenario.u_principal.
Proof.
  intros Hnow.
  apply (@resolve_access_token Reference.word_codec default_settings eq_refl
           1000%Q now "u" "t1" "alice" "admin").
  exact Hnow.
Qed.

(** A handler, past its two guards. *)
Ltac through_guards Hauth Hc :=
  match goal with
  | |- context [bindM (lift ?p)
                  (fun x => bindM (check_rate_limit ?st ?rq _ ?now)
                              (fun _ => @?b x)) ?s] =>
      rewrite (guarded_admitted st p rq now b s _ _ Hauth Hc)
  end.

Ltac qle := vm_compute; discriminate.
Ltac in_order := repeat (first [split | constructor | qle]).

Lemma bearer_scheme_case_insensitive_witness :
  Jwt.compact "BeArEr" = true
  /\ Jwt.compact Example.alice_access = true
  /\ Py.lower "BeArEr" = "bearer"
  /\ Auth.get_current_user (H := Reference.word_codec) default_settings 5
       (Some ("BeArEr" +:+ " " +:+ Example.alice_access))
     = Auth.get_current_user default_settings 5
         (Some ("Bearer " +:+ Example.alice_access))
  /\ Auth.get_current_user (H := Reference.word_codec) default_settings 5
       (Some ("Basic" +:+ " " +:+ Example.alice_access))
     = raise (HTTPException Auth.HTTP_401_UNAUTHORIZED
                "Invalid authentication scheme" Auth.bearer_headers).
Proof.
  split; [reflexivity |]. split; [vm_compute; reflexivity |].
  split; [reflexivity |]. split.
  - apply (proj1 (@bearer_scheme_case_insensitive Reference.word_codec
                    default_settings "BeArEr" Example.alice_access 5%Q
                    eq_refl ltac:(vm_compute; reflexivity))).
    reflexivity.
  - apply (proj2 (@bearer_scheme_case_insensitive Reference.word_codec
                    default_settings "Basic" Example.alice_access 5%Q
                    eq_refl ltac:(vm_compute; reflexivity))).
    discriminate.
Defined.

Lemma refresh_token_is_no_credential_witness :
  Jwt.jws_supported (jwt_algorithm default_settings) = true
  /\ (5 < inject_Z (Auth.refresh_expiry default_settings 0))%Q
  /\ Auth.get_current_user (H := Reference.word_codec) default_settings 5
       (Some ("Bearer " +:+ Example.alice_refresh))
     = raise (HTTPException Auth.HTTP_401_UNAUTHORIZED "Invalid token type"
                []).
Proof.
  split; [reflexivity |]. split; [reflexivity |].
  apply (@refresh_token_is_no_credential Reference.word_codec
           default_settings eq_refl 0%Q 5%Q "u1" "t1").
  reflexivity.
Defined.

Lemma access_token_is_no_refresh_witness :
  Jwt.jws_supported (jwt_algorithm default_settings) = true
  /\ (5 < inject_Z (Auth.access_expiry default_settings 0))%Q
  /\ refresh_tokens (H := Reference.word_codec) default_settings
       Example.alice_access 5 Example.one_tenant
     = (raise (Auth.unauthorized "Invalid token type"), Example.one_tenant).
Proof.
  split; [reflexivity |]. split; [reflexivity |].
  apply (@access_token_is_no_refresh Reference.word_codec default_settings
           eq_refl 0%Q 5%Q "u1" "t1" "alice" "admin" Example.one_tenant).
  reflexivity.
Defined.

Lemma access_token_expires_witness :
  Jwt.jws_supported (jwt_algorithm default_settings) = true
  /\ Auth.access_expiry default_settings 0 = 1800
  /\ Auth.get_current_user (H := Reference.word_codec) default_settings 1800
       Example.alice_bearer
     = raise (HTTPException Auth.HTTP_401_UNAUTHORIZED "Token has expired"
                Auth.bearer_headers).
Proof.
  split; [reflexivity |]. split; [reflexivity |].
  apply (@access_token_expires Reference.word_codec default_settings
           eq_refl 0%Q 1800%Q "u1" "t1" "alice" "admin").
  vm_compute. discriminate.
Defined.

Lemma admin_gate_witness :
  Jwt.jws_supported (jwt_algorithm default_settings) = true
  /\ (5 < inject_Z (Auth.access_expiry default_settings 0))%Q
  /\ Auth.require_admin (H := Reference.word_codec) default_settings 5
       (Some ("Bearer " +:+ Scenario.carol_access))
     = raise (HTTPException Auth.HTTP_403_FORBIDDEN "Admin access required"
                [])
  /\ Auth.require_admin (H := Reference.word_codec) default_settings 5
       Example.alice_bearer
     = ret {| Auth.user_id := "u1";
              Auth.tenant_id := "t1";
              Auth.username := "alice";
              Auth.role := "admin";
              Auth.exp := Auth.access_expiry default_settings 0 |}.
Proof.
  split; [reflexivity |]. split; [reflexivity |]. split.
  - apply (@admin_gate Reference.word_codec default_settings eq_refl
             0%Q 5%Q "u3" "t1" "carol" "user").
    reflexivity.
  - apply (@admin_gate Reference.word_codec default_settings eq_refl
             0%Q 5%Q "u1" "t1" "alice" "admin").
    reflexivity.
Defined.

Lemma read_routes_write_no_data_witness :
  read_only (ListUsers Example.users_list 1 20 true Example.alice_bearer)
  = true
  /\ exists store,
       snd (handle (H := Reference.word_codec) Reference.echo_kdf
              default_settings
              (ListUsers Example.users_list 1 20 true Example.alice_bearer)
              5 Example.two_tenants)
       = with_rate_limit_store Example.two_tenants store.
Proof.
  split; [reflexivity |].
  apply (@read_routes_write_no_data Reference.word_codec Reference.echo_kdf
           default_settings
           (ListUsers Example.users_list 1 20 true Example.alice_bearer)
           5%Q Example.two_tenants).
  reflexivity.
Defined.

Lemma revocation_set_writers_witness :
  is_refresh (Logout Example.alice_bearer) = false
  /\ is_reset (Logout Example.alice_bearer) = false
  /\ blacklisted_tokens
       (snd (handle (H := Reference.word_codec) Reference.echo_kdf
               default_settings (Logout Example.alice_bearer) 5
               Example.one_tenant))
     = blacklisted_tokens Example.one_tenant.
Proof.
  split; [reflexivity |]. split; [reflexivity |].
  apply (@revocation_set_writers Reference.word_codec Reference.echo_kdf
           default_settings (Logout Example.alice_bearer) 5%Q
           Example.one_tenant);
    reflexivity.
Defined.

Lemma refused_refresh_changes_nothing_witness :
  fst (refresh_tokens (H := Reference.word_codec) default_settings
         "not-a-token" 5 Example.one_tenant)
  = raise (HTTPException Auth.HTTP_401_UNAUTHORIZED "Invalid token"
             Auth.bearer_headers)
  /\ snd (refresh_tokens (H := Reference.word_codec) default_settings
            "not-a-token" 5 Example.one_tenant)
     = Example.one_tenant.
Proof.
  split; [reflexivity |].
  apply (@refused_refresh_changes_nothing Reference.word_codec
           default_settings "not-a-token" 5%Q Example.one_tenant
           (HTTPException Auth.HTTP_401_UNAUTHORIZED "Invalid token"
              Auth.bearer_headers)).
  apply run_result. reflexivity.
Defined.

Lemma unauthenticated_request_changes_nothing_witness :
  principal_of (H := Reference.word_codec) default_settings 5
    (DeleteUser Scenario.delete_bob "u2" None)
  = Some (raise (HTTPException Auth.HTTP_401_UNAUTHORIZED
                   "Missing authorization header" Auth.bearer_headers))
  /\ handle (H := Reference.word_codec) Reference.echo_kdf default_settings
       (DeleteUser Scenario.delete_bob "u2" None) 5 Example.two_tenants
     = (raise (HTTPException Auth.HTTP_401_UNAUTHORIZED
                 "Missing authorization header" Auth.bearer_headers),
        Example.two_tenants).
Proof.
  split; [reflexivity |].
  apply (@unauthenticated_request_changes_nothing Reference.word_codec
           Reference.echo_kdf default_settings
           (DeleteUser Scenario.delete_bob "u2" None) 5%Q
           Example.two_tenants).
  reflexivity.
Defined.

Lemma refused_request_changes_no_data_witness :
  principal_of (H := Reference.word_codec) default_settings 1010
    (ListUsers Example.users_list 1 20 true Scenario.u_bearer)
  = Some (ret Scenario.u_principal)
  /\ fst (check_rate_limit default_settings Example.users_list "u" 1010
            Example.full_window)
     = raise (rate_limit_exceeded default_settings 1000)
  /\ handle (H := Reference.word_codec) Reference.echo_kdf default_settings
       (ListUsers Example.users_list 1 20 true Scenario.u_bearer) 1010
       Example.full_window
     = (raise (rate_limit_exceeded default_settings 1000),
        snd (check_rate_limit default_settings Example.users_list "u" 1010
               Example.full_window))
  /\ snd (check_rate_limit default_settings Example.users_list "u" 1010
            Example.full_window)
     = with_rate_limit_store Example.full_window
         (rate_limit_store
            (snd (check_rate_limit default_settings Example.users_list "u"
                    1010 Example.full_window))).
Proof.
  assert (Hp : principal_of (H := Reference.word_codec) default_settings 1010
                 (ListUsers Example.users_list 1 20 true Scenario.u_bearer)
               = Some (ret Scenario.u_principal))
    by (exact (f_equal Some (u_resolves 1010%Q eq_refl))).
  assert (Hc : fst (check_rate_limit default_settings Example.users_list "u"
                      1010 Example.full_window)
               = raise (rate_limit_exceeded default_settings 1000))
    by (vm_compute; reflexivity).
  split; [exact Hp |]. split; [exact Hc |].
  apply (@refused_request_changes_no_data Reference.word_codec
           Reference.echo_kdf default_settings
           (ListUsers Example.users_list 1 20 true Scenario.u_bearer)
           1010%Q Example.full_window Scenario.u_principal
           Example.users_list _ _ Hp eq_refl).
  apply run_result. exact Hc.
Defined.

Lemma rate_windows_independent_witness :
  ("u", method Example.users_list, url_path Example.users_list)
    <> ("v", method Example.users_list, url_path Example.users_list)
  /\ rate_key Example.users_list "u" <> rate_key Example.users_list "v"
  /\ rate_limit_store
       (snd (check_rate_limit default_settings Example.users_list "u" 1010
               Example.full_window))
       !! rate_key Example.users_list "v"
     = rate_limit_store Example.full_window
         !! rate_key Example.users_list "v".
Proof.
  split; [discriminate |].
  apply (rate_windows_independent default_settings Example.users_list
           Example.users_list "u" "v" 1010%Q Example.full_window);
    first [reflexivity | discriminate].
Defined.


Lemma sliding_window_quota_witness :
  window (rate_limit_store initial_state) (rate_key Example.users_list "u")
  = []
  /\ 0 <= rate_limit_per_minute default_settings
  /\ window (rate_limit_store
               (snd (checks default_settings Example.users_list "u"
                       (map inject_Z
                          [0; 1; 2; 3; 4; 5; 6; 7; 8; 9; 10; 70])
                       initial_state)))
            (rate_key Example.users_list "u")
     = prune (List.last (map inject_Z [1; 2; 3; 4; 5; 6; 7; 8; 9; 10; 70]) 0%Q)
         (admitted (map inject_Z [0; 1; 2; 3; 4; 5; 6; 7; 8; 9; 10; 70])
            (fst (checks default_settings Example.users_list "u"
                    (map inject_Z [0; 1; 2; 3; 4; 5; 6; 7; 8; 9; 10; 70])
                    initial_state)))
  /\ len (prune
            (List.last (map inject_Z [1; 2; 3; 4; 5; 6; 7; 8; 9; 10; 70]) 0%Q)
            (admitted (map inject_Z [0; 1; 2; 3; 4; 5; 6; 7; 8; 9; 10; 70])
               (fst (checks default_settings Example.users_list "u"
                       (map inject_Z
                          [0; 1; 2; 3; 4; 5; 6; 7; 8; 9; 10; 70])
                       initial_state))))
     <= rate_limit_per_minute default_settings.
Proof.
  split; [reflexivity |]. split; [discriminate |].
  apply (sliding_window_quota default_settings Example.users_list "u" 0%Q
           (map inject_Z [1; 2; 3; 4; 5; 6; 7; 8; 9; 10; 70]) initial_state).
  - reflexivity.
  - vm_compute. in_order.
  - discriminate.
Defined.

Lemma registered_names_are_taken_witness :
  fst (register_tenant Reference.echo_kdf Scenario.acme "t1" "u1"
         Scenario.salt 5 initial_state)
  = ret (RegisterResponse "Tenant registered successfully" "t1" "u1")
  /\ Py.lower (tenant_name Scenario.acme_again)
     = Py.lower (tenant_name Scenario.acme)
  /\ register_tenant Reference.echo_kdf Scenario.acme_again "t2" "u2"
       Scenario.salt 6
       (snd (register_tenant Reference.echo_kdf Scenario.acme "t1" "u1"
               Scenario.salt 5 initial_state))
     = (raise (HTTPException HTTP_409_CONFLICT
                 ("Tenant '" +:+ "ACME" +:+ "' already exists") []),
        snd (register_tenant Reference.echo_kdf Scenario.acme "t1" "u1"
               Scenario.salt 5 initial_state))
  /\ register_tenant Reference.echo_kdf Scenario.globex_root "t2" "u2"
       Scenario.salt 6
       (snd (register_tenant Reference.echo_kdf Scenario.acme "t1" "u1"
               Scenario.salt 5 initial_state))
     = (raise (username_exists "root"),
        snd (register_tenant Reference.echo_kdf Scenario.acme "t1" "u1"
               Scenario.salt 5 initial_state)).
Proof.
  split; [reflexivity |]. split; [reflexivity |].
  pose proof (registered_names_are_taken Reference.echo_kdf Scenario.acme
                "t1" "u1" Scenario.salt 5%Q initial_state
                (RegisterResponse "Tenant registered successfully" "t1" "u1")
                _ (run_result _ _ _ eq_refl)) as [Hname Huser].
  split.
  - apply (Hname Scenario.acme_again "t2" "u2" Scenario.salt 6%Q).
    reflexivity.
  - apply (Huser Scenario.globex_root "t2" "u2" Scenario.salt 6%Q);
      reflexivity.
Defined.

Lemma login_issues_tokens_to_verified_users_witness :
  login (H := Reference.word_codec) Reference.echo_kdf default_settings
    {| login_username := "alice"; login_password := "pw" |} 5
    Example.one_tenant
  = (ret (TokenPairResponse
            (token_pair (H := Reference.word_codec) default_settings 5
               Example.alice)),
     Example.one_tenant)
  /\ exists user,
       In user (Dict.values (users_db Example.one_tenant))
       /\ UserRow.username user = "alice"
       /\ Auth.verify_password Reference.echo_kdf "pw"
            (UserRow.password_hash user) = ret true
       /\ UserRow.is_active user = true
       /\ TokenPairResponse
            (token_pair (H := Reference.word_codec) default_settings 5
               Example.alice)
          = TokenPairResponse
              (token_pair (H := Reference.word_codec) default_settings 5
                 user).
Proof.
  assert (Hlogin :
    login (H := Reference.word_codec) Reference.echo_kdf default_settings
      {| login_username := "alice"; login_password := "pw" |} 5
      Example.one_tenant
    = (ret (TokenPairResponse
              (token_pair (H := Reference.word_codec) default_settings 5
                 Example.alice)),
       Example.one_tenant))
    by (apply login_ok; reflexivity).
  split; [exact Hlogin |].
  apply (proj1 (proj2 (@login_issues_tokens_to_verified_users
                         Reference.word_codec Reference.echo_kdf
                         default_settings
                         {| login_username := "alice";
                            login_password := "pw" |}
                         5%Q Example.one_tenant))
           _ _ Hlogin).
Defined.

Lemma register_then_login_witness :
  fst (register_tenant Reference.echo_kdf Scenario.acme "t1" "u1"
         Scenario.salt 5 initial_state)
  = ret (RegisterResponse "Tenant registered successfully" "t1" "u1")
  /\ exists row,
       Dict.get
         (users_db (snd (register_tenant Reference.echo_kdf Scenario.acme
                           "t1" "u1" Scenario.salt 5 initial_state)))
         "u1" = Some row
       /\ UserRow.role row = "admin"
       /\ UserRow.tenant_id row = "t1"
       /\ UserRow.username row = admin_username Scenario.acme
       /\ Dict.get
            (tenants_db (snd (register_tenant Reference.echo_kdf
                                Scenario.acme "t1" "u1" Scenario.salt 5
                                initial_state)))
            "t1" = Some (tenant_row Scenario.acme "t1" 5)
       /\ login (H := Reference.word_codec) Reference.echo_kdf
            default_settings
            {| login_username := admin_username Scenario.acme;
               login_password := admin_password Scenario.acme |} 9
            (snd (register_tenant Reference.echo_kdf Scenario.acme "t1"
                    "u1" Scenario.salt 5 initial_state))
          = (ret (TokenPairResponse
                    (token_pair (H := Reference.word_codec) default_settings
                       9 row)),
             snd (register_tenant Reference.echo_kdf Scenario.acme "t1" "u1"
                    Scenario.salt 5 initial_state)).
Proof.
  split; [reflexivity |].
  apply (@register_then_login Reference.word_codec Reference.echo_kdf
           default_settings Scenario.acme "t1" "u1" Scenario.salt 5%Q
           initial_state
           (RegisterResponse "Tenant registered successfully" "t1" "u1")).
  - apply run_result. reflexivity.
  - intros hashed Hhash. injection Hhash as <-. reflexivity.
Defined.

Lemma create_user_scoped_witness :
  fst (create_user (H := Reference.word_codec) Reference.echo_kdf
         default_settings Scenario.post_users Scenario.dave "u9"
         Scenario.salt Example.alice_bearer 5 Example.one_tenant)
  = ret (UserResponse
           (public_view
              (new_user_row Scenario.dave "u9" "t1" Scenario.salt 5)))
  /\ exists current_user hashed,
       Auth.get_current_user (H := Reference.word_codec) default_settings 5
         Example.alice_bearer = ret current_user
       /\ UserResponse
            (public_view
               (new_user_row Scenario.dave "u9" "t1" Scenario.salt 5))
          = UserResponse
              (public_view
                 (new_user_row Scenario.dave "u9"
                    (Auth.tenant_id current_user) hashed 5))
       /\ Dict.get
            (users_db
               (snd (create_user (H := Reference.word_codec)
                       Reference.echo_kdf default_settings
                       Scenario.post_users Scenario.dave "u9" Scenario.salt
                       Example.alice_bearer 5 Example.one_tenant)))
            "u9"
          = Some (new_user_row Scenario.dave "u9"
                    (Auth.tenant_id current_user) hashed 5)
       /\ (forall other, other <> "u9" ->
             Dict.get
               (users_db
                  (snd (create_user (H := Reference.word_codec)
                          Reference.echo_kdf default_settings
                          Scenario.post_users Scenario.dave "u9"
                          Scenario.salt Example.alice_bearer 5
                          Example.one_tenant)))
               other
             = Dict.get (users_db Example.one_tenant) other)
       /\ (forall row, In row (Dict.values (users_db Example.one_tenant)) ->
             UserRow.username row <> new_username Scenario.dave
             /\ UserRow.email row <> new_email Scenario.dave).
Proof.
  assert (Hrun :
    fst (create_user (H := Reference.word_codec) Reference.echo_kdf
           default_settings Scenario.post_users Scenario.dave "u9"
           Scenario.salt Example.alice_bearer 5 Example.one_tenant)
    = ret (UserResponse
             (public_view
                (new_user_row Scenario.dave "u9" "t1" Scenario.salt 5)))).
  { unfold create_user.
    through_guards (alice_resolves 5%Q eq_refl)
      (run_result (check_rate_limit default_settings Scenario.post_users
                     "u1" 5) Example.one_tenant (ret tt) eq_refl).
    reflexivity. }
  split; [exact Hrun |].
  apply (proj2 (@create_user_scoped Reference.word_codec Reference.echo_kdf
                  default_settings Scenario.post_users Scenario.dave "u9"
                  Scenario.salt Example.alice_bearer 5%Q
                  Example.one_tenant)).
  apply run_result. exact Hrun.
Defined.

Lemma create_user_keeps_names_unique_witness :
  List.NoDup (map UserRow.username (Dict.values (users_db Example.one_tenant)))
  /\ List.NoDup
       (map UserRow.username
          (Dict.values
             (users_db
                (snd (create_user (H := Reference.word_codec)
                        Reference.echo_kdf default_settings
                        Scenario.post_users Scenario.dave "u9" Scenario.salt
                        Example.alice_bearer 5 Example.one_tenant))))).
Proof.
  assert (Hnd : List.NoDup
                  (map UserRow.username
                     (Dict.values (users_db Example.one_tenant))))
    by (repeat constructor; simpl; tauto).
  split; [exact Hnd |].
  apply (proj1 (@create_user_keeps_names_unique Reference.word_codec
                  Reference.echo_kdf default_settings Scenario.post_users
                  Scenario.dave "u9" Scenario.salt Example.alice_bearer 5%Q
                  Example.one_tenant)).
  exact Hnd.
Defined.

Lemma pages_are_windows_witness :
  data (paginate [1; 2; 3; 4; 5] 2 2) = [3; 4]
  /\ data (paginate [1; 2; 3; 4; 5] 2 2)
     = firstn (Z.to_nat 2) (skipn (Z.to_nat ((2 - 1) * 2)) [1; 2; 3; 4; 5])
  /\ len (data (paginate [1; 2; 3; 4; 5] 2 2)) <= 2
  /\ (has_next (paginate [1; 2; 3; 4; 5] 2 2) = true
      <-> 2 * 2 < len [1; 2; 3; 4; 5])
  /\ (has_prev (paginate [1; 2; 3; 4; 5] 2 2) = true <-> 1 < 2).
Proof.
  split; [reflexivity |].
  apply (proj1 (pages_are_windows [1; 2; 3; 4; 5] 2 2)); discriminate.
Defined.

Lemma foreign_rows_cannot_be_written_witness :
  Auth.get_current_user (H := Reference.word_codec) default_settings 5
    Example.alice_bearer = ret Example.alice_principal
  /\ fst (check_rate_limit default_settings Scenario.delete_bob "u1" 5
            Example.two_tenants) = ret tt
  /\ (forall user_data,
        update_user (H := Reference.word_codec) default_settings
          Scenario.delete_bob "u2" user_data Example.alice_bearer 5
          Example.two_tenants
        = (raise (not_found "User" "u2"),
           snd (check_rate_limit default_settings Scenario.delete_bob "u1" 5
                  Example.two_tenants)))
  /\ delete_user (H := Reference.word_codec) default_settings
       Scenario.delete_bob "u2" Example.alice_bearer 5 Example.two_tenants
     = (raise (not_found "User" "u2"),
        snd (check_rate_limit default_settings Scenario.delete_bob "u1" 5
               Example.two_tenants)).
Proof.
  split; [exact (alice_resolves 5%Q eq_refl) |]. split; [reflexivity |].
  apply (proj1 (proj2
    (@foreign_rows_cannot_be_written Reference.word_codec default_settings
       Scenario.delete_bob "u2" Example.alice_bearer 5%Q
       Example.alice_principal Example.two_tenants _
       (alice_resolves 5%Q eq_refl)
       (run_result (check_rate_limit default_settings Scenario.delete_bob
                      "u1" 5) Example.two_tenants (ret tt) eq_refl)))).
  simpl. discriminate.
Defined.

Lemma delete_user_is_soft_witness :
  Auth.get_current_user (H := Reference.word_codec) default_settings 5
    Example.alice_bearer = ret Example.alice_principal
  /\ Dict.get (users_db Example.one_tenant) "u1" = Some Example.alice
  /\ delete_user (H := Reference.word_codec) default_settings
       Scenario.delete_alice "u1" Example.alice_bearer 5 Example.one_tenant
     = (ret NoContent,
        with_users_db
          (snd (check_rate_limit default_settings Scenario.delete_alice "u1"
                  5 Example.one_tenant))
          (Dict.set (users_db Example.one_tenant) "u1"
             (with_updated_at (with_is_active Example.alice false) 5)))
  /\ refresh_tokens (H := Reference.word_codec) default_settings
       Example.alice_refresh 6
       (with_users_db
          (snd (check_rate_limit default_settings Scenario.delete_alice "u1"
                  5 Example.one_tenant))
          (Dict.set (users_db Example.one_tenant) "u1"
             (with_updated_at (with_is_active Example.alice false) 5)))
     = (raise (Auth.unauthorized "User not found or inactive"),
        with_users_db
          (snd (check_rate_limit default_settings Scenario.delete_alice "u1"
                  5 Example.one_tenant))
          (Dict.set (users_db Example.one_tenant) "u1"
             (with_updated_at (with_is_active Example.alice false) 5))).
Proof.
  split; [exact (alice_resolves 5%Q eq_refl) |]. split; [reflexivity |].
  destruct (@delete_user_is_soft Reference.word_codec default_settings
              Scenario.delete_alice "u1" Example.alice_bearer 5%Q
              Example.alice_principal Example.one_tenant _ Example.alice
              (alice_resolves 5%Q eq_refl)
              (run_result (check_rate_limit default_settings
                             Scenario.delete_alice "u1" 5)
                 Example.one_tenant (ret tt) eq_refl)
              eq_refl eq_refl)
    as (Hdel & _ & _ & _ & _ & Hrefresh).
  split; [exact Hdel |].
  apply (Hrefresh Example.alice_refresh 6%Q
           (Auth.refresh_claims default_settings 0 "u1" "t1")).
  - apply (@decode_refresh_token Reference.word_codec default_settings
             eq_refl 0%Q 6%Q "u1" "t1").
    reflexivity.
  - reflexivity.
  - apply not_elem_of_empty.
  - reflexivity.
Defined.

Lemma listings_are_tenant_scoped_witness :
  exists pg s',
    list_users (H := Reference.word_codec) default_settings
      Example.users_list 1 20 true Example.alice_bearer 5
      Example.two_tenants
    = (ret (UsersPage pg), s')
    /\ data pg = [public_view Example.alice]
    /\ exists current_user,
         Auth.get_current_user (H := Reference.word_codec) default_settings 5
           Example.alice_bearer = ret current_user
         /\ Forall (fun u =>
                      User.tenant_id u = Auth.tenant_id current_user
                      /\ (true = true -> User.is_active u = true))
                   (data pg).
Proof.
  exists (paginate [public_view Example.alice] 1 20),
    (snd (list_users (H := Reference.word_codec) default_settings
            Example.users_list 1 20 true Example.alice_bearer 5
            Example.two_tenants)).
  assert (Hrun :
    list_users (H := Reference.word_codec) default_settings
      Example.users_list 1 20 true Example.alice_bearer 5
      Example.two_tenants
    = (ret (UsersPage (paginate [public_view Example.alice] 1 20)),
       snd (list_users (H := Reference.word_codec) default_settings
              Example.users_list 1 20 true Example.alice_bearer 5
              Example.two_tenants))).
  { apply run_result. unfold list_users.
    through_guards (alice_resolves 5%Q eq_refl)
      (run_result (check_rate_limit default_settings Example.users_list
                     "u1" 5) Example.two_tenants (ret tt) eq_refl).
    reflexivity. }
  split; [exact Hrun |]. split; [reflexivity |].
  apply (proj1 (@listings_are_tenant_scoped Reference.word_codec
                  default_settings Example.users_list 1 20
                  Example.alice_bearer 5%Q Example.two_tenants)
           true _ _ Hrun).
Defined.

Lemma notes_uploaded :
  upload_file (H := Reference.word_codec) default_settings
    Scenario.post_files Scenario.notes "f1" Example.alice_bearer 5
    initial_state
  = (ret (FileMetadataResponse
            (stored_metadata Scenario.notes "f1" Example.alice_principal 5)),
     Scenario.after_upload).
Proof.
  unfold upload_file.
  through_guards (alice_resolves 5%Q eq_refl)
    (run_result (check_rate_limit default_settings Scenario.post_files
                   "u1" 5) initial_state (ret tt) eq_refl).
  reflexivity.
Qed.

Lemma upload_size_threshold_witness :
  Auth.get_current_user (H := Reference.word_codec) default_settings 5
    Example.alice_bearer = ret Example.alice_principal
  /\ In (upload_content_type Scenario.notes)
        (allowed_file_types default_settings)
  /\ Z.of_nat (String.length (upload_content Scenario.notes))
     <= max_file_size_mb default_settings * 1048576
  /\ exists s',
       upload_file (H := Reference.word_codec) default_settings
         Scenario.post_files Scenario.notes "f1" Example.alice_bearer 5
         Example.one_tenant
       = (ret (FileMetadataResponse
                 (stored_metadata Scenario.notes "f1"
                    Example.alice_principal 5)), s')
       /\ Dict.get (files_db s') "f1"
          = Some (stored_metadata Scenario.notes "f1"
                    Example.alice_principal 5)
       /\ Dict.get (file_storage s') "f1"
          = Some (upload_content Scenario.notes).
Proof.
  split; [exact (alice_resolves 5%Q eq_refl) |].
  split; [simpl; tauto |]. split; [discriminate |].
  apply (proj2
    (@upload_size_threshold Reference.word_codec default_settings
       Scenario.post_files Scenario.notes "f1" Example.alice_bearer 5%Q
       Example.alice_principal Example.one_tenant _
       (alice_resolves 5%Q eq_refl)
       (run_result (check_rate_limit default_settings Scenario.post_files
                      "u1" 5) Example.one_tenant (ret tt) eq_refl)
       ltac:(simpl; tauto))).
  discriminate.
Defined.

Lemma upload_then_download_witness :
  upload_file (H := Reference.word_codec) default_settings
    Scenario.post_files Scenario.notes "f1" Example.alice_bearer 5
    initial_state
  = (ret (FileMetadataResponse
            (stored_metadata Scenario.notes "f1" Example.alice_principal 5)),
     Scenario.after_upload)
  /\ download_file (H := Reference.word_codec) default_settings
       Scenario.get_notes "f1" Example.alice_bearer 6 Scenario.after_upload
     = (ret (StreamingResponse "hello" "text/plain"
               (disposition "notes.txt")),
        snd (check_rate_limit default_settings Scenario.get_notes "u1" 6
               Scenario.after_upload))
  /\ download_file (H := Reference.word_codec) default_settings
       Scenario.get_notes "f1" Scenario.bob_bearer 6 Scenario.after_upload
     = (raise (not_found "File" "f1"),
        snd (check_rate_limit default_settings Scenario.get_notes "u2" 6
               Scenario.after_upload)).
Proof.
  split; [exact notes_uploaded |]. split.
  - destruct (@upload_then_download Reference.word_codec default_settings
                Scenario.post_files Scenario.notes "f1" Example.alice_bearer
                5%Q _ initial_state Scenario.after_upload Scenario.get_notes
                Example.alice_bearer 6%Q Example.alice_principal _
                notes_uploaded (alice_resolves 6%Q eq_refl)
                (run_result (check_rate_limit default_settings
                               Scenario.get_notes "u1" 6)
                   Scenario.after_upload (ret tt) eq_refl))
      as (uploader & Hup & _ & Hsame & _).
    rewrite (alice_resolves 5%Q eq_refl) in Hup. injection Hup as <-.
    apply Hsame. reflexivity.
  - destruct (@upload_then_download Reference.word_codec default_settings
                Scenario.post_files Scenario.notes "f1" Example.alice_bearer
                5%Q _ initial_state Scenario.after_upload Scenario.get_notes
                Scenario.bob_bearer 6%Q Scenario.bob_principal _
                notes_uploaded (bob_resolves 6%Q eq_refl)
                (run_result (check_rate_limit default_settings
                               Scenario.get_notes "u2" 6)
                   Scenario.after_upload (ret tt) eq_refl))
      as (uploader & Hup & _ & _ & Hother).
    rewrite (alice_resolves 5%Q eq_refl) in Hup. injection Hup as <-.
    apply Hother. discriminate.
Defined.

Lemma deleted_file_is_gone_witness :
  Scenario.after_upload
  = run (H := Reference.word_codec) Reference.echo_kdf default_settings
      [(UploadFile_ Scenario.post_files Scenario.notes "f1"
          Example.alice_bearer, 5%Q)]
      initial_state
  /\ Dict.get (files_db Scenario.after_upload) "f1"
     = Some (stored_metadata Scenario.notes "f1" Example.alice_principal 5)
  /\ exists s',
       delete_file (H := Reference.word_codec) default_settings
         Scenario.delete_notes "f1" Example.alice_bearer 6
         Scenario.after_upload
       = (ret NoContent, s')
       /\ Dict.get (files_db s') "f1" = None
       /\ Dict.get (file_storage s') "f1" = None.
Proof.
  assert (Hreach :
    Scenario.after_upload
    = run (H := Reference.word_codec) Reference.echo_kdf default_settings
        [(UploadFile_ Scenario.post_files Scenario.notes "f1"
            Example.alice_bearer, 5%Q)]
        initial_state)
    by (cbn [run handle]; rewrite notes_uploaded; reflexivity).
  split; [exact Hreach |]. split; [reflexivity |].
  destruct (@deleted_file_is_gone Reference.word_codec Reference.echo_kdf
              default_settings
              [(UploadFile_ Scenario.post_files Scenario.notes "f1"
                  Example.alice_bearer, 5%Q)]
              Scenario.delete_notes "f1" Example.alice_bearer 6%Q
              Example.alice_principal Scenario.after_upload _
              (stored_metadata Scenario.notes "f1" Example.alice_principal 5)
              Hreach (alice_resolves 6%Q eq_refl)
              (run_result (check_rate_limit default_settings
                             Scenario.delete_notes "u1" 6)
                 Scenario.after_upload (ret tt) eq_refl)
              eq_refl eq_refl)
    as (s' & Hdel & Hmeta & Hcontent & _).
  exists s'. split; [exact Hdel |]. split; assumption.
Defined.

Lemma issued_refresh_token_rotates_witness :
  Jwt.jws_supported (jwt_algorithm default_settings) = true
  /\ (5 < inject_Z (Auth.refresh_expiry default_settings 0))%Q
  /\ Dict.get (users_db Example.one_tenant) "u1" = Some Example.alice
  /\ refresh_tokens (H := Reference.word_codec) default_settings
       Example.alice_refresh 5 Example.one_tenant
     = (ret (TokenPairResponse
               (token_pair (H := Reference.word_codec) default_settings 5
                  Example.alice)),
        with_blacklisted_tokens Example.one_tenant
          ({[Example.alice_refresh]}
             ∪ blacklisted_tokens Example.one_tenant))
  /\ Auth.get_current_user (H := Reference.word_codec) default_settings 9
       (Some ("Bearer " +:+
              Auth.access_token
                (token_pair (H := Reference.word_codec) default_settings 5
                   Example.alice)))
     = ret (principal_of_row Example.alice
              (Auth.access_expiry default_settings 5)).
Proof.
  split; [reflexivity |]. split; [reflexivity |]. split; [reflexivity |].
  destruct (@issued_refresh_token_rotates Reference.word_codec
              default_settings eq_refl 0%Q 5%Q "u1" "t1" Example.one_tenant
              Example.alice eq_refl (not_elem_of_empty _) eq_refl eq_refl)
    as (Hrun & _ & Hresolve).
  split; [exact Hrun |].
  apply (Hresolve 9%Q). reflexivity.
Defined.

Lemma same_second_refresh_returns_the_revoked_token_witness :
  Jwt.jws_supported (jwt_algorithm default_settings) = true
  /\ Auth.refresh_expiry default_settings (1 # 2)
     = Auth.refresh_expiry default_settings 0
  /\ exists pair s',
       refresh_tokens (H := Reference.word_codec) default_settings
         Example.alice_refresh (1 # 2) Example.one_tenant
       = (ret (TokenPairResponse pair), s')
       /\ Auth.refresh_token pair = Example.alice_refresh
       /\ (Auth.refresh_token pair ∈ blacklisted_tokens s')
       /\ refresh_tokens (H := Reference.word_codec) default_settings
            (Auth.refresh_token pair) (1 # 2) s'
          = (raise (Auth.unauthorized "Token has been revoked"), s').
Proof.
  split; [reflexivity |]. split; [reflexivity |].
  apply (@same_second_refresh_returns_the_revoked_token
           Reference.word_codec default_settings eq_refl 0%Q (1 # 2)%Q
           "u1" "t1" Example.one_tenant Example.alice);
    first [reflexivity | apply not_elem_of_empty].
Defined.

Lemma bulk_items_are_not_compared_witness :
  len [(Scenario.dave, "u7", Scenario.salt);
       (Scenario.dave, "u8", Scenario.salt)] <= 50
  /\ exists created s',
       create_users_bulk (H := Reference.word_codec) Reference.echo_kdf
         default_settings Scenario.post_users
         [(Scenario.dave, "u7", Scenario.salt);
          (Scenario.dave, "u8", Scenario.salt)]
         Example.alice_bearer 5 Example.one_tenant
       = (ret (UserListResponse created), s')
       /\ map User.id created = ["u7"; "u8"]
       /\ map User.username created = ["dave"; "dave"]
       /\ map User.email created = ["dave@acme.test"; "dave@acme.test"]
       /\ Forall (fun u =>
                    User.tenant_id u = Auth.tenant_id Example.alice_principal
                    /\ exists row,
                         Dict.get (users_db s') (User.id u) = Some row
                         /\ public_view row = u)
                 created.
Proof.
  split; [discriminate |].
  destruct (@bulk_items_are_not_compared Reference.word_codec
              Reference.echo_kdf default_settings Scenario.post_users
              [(Scenario.dave, "u7", Scenario.salt);
               (Scenario.dave, "u8", Scenario.salt)]
              Example.alice_bearer 5%Q Example.alice_principal
              Example.one_tenant _
              (alice_resolves 5%Q eq_refl)
              (run_result (check_rate_limit default_settings
                             Scenario.post_users "u1" 5)
                 Example.one_tenant (ret tt) eq_refl)
              ltac:(discriminate)
              ltac:(repeat constructor)
              ltac:(repeat constructor; simpl; intuition discriminate))
    as (created & s' & Hrun & Hid & Hname & Hmail & Hrows & _).
  exists created, s'. repeat split; assumption.
Defined.
